(** * The key-number store: [update_key_number] of [scripts/tools.py]

    The function under study reads a JSON document from a file, sets
    every key of a dictionary of updates in it and writes the document
    back:

<<
    def update_key_number(path: str, new_dict: dict) -> None:
        if not os.path.exists(path):
            with open(path, "w") as f:
                json.dump({}, f)
        with open(path, "r") as f:
            data = json.load(f)
        for k in new_dict.keys():
            data[k] = new_dict[k]
        with open(path, "w") as f:
            json.dump(data, f, indent=4)
>>

    The development has three layers:
    - Python values and dictionaries (insertion ordered, unique keys);
    - the two library calls the function relies on, [json.dump] and
      [json.load], over texts of characters, following the encoder and
      the decoder of CPython's [json] package;
    - the file system as a finite map from paths to texts, and
      [update_key_number] itself as a state-passing function that
      returns normally or raises.

    Outside the model: floats and characters beyond code point 255 (a
    text that needs them is reported as [OutsideModel], never as an
    error), values that [json.dump] cannot write, keys that are not
    strings, the recursion and integer-size limits of the interpreter,
    and the failures of the operating system (permissions, missing
    directories, full disks). *)

From Stdlib Require Import ZArith Ascii String Lia.
From Stdlib Require Import DecimalString DecimalZ DecimalPos DecimalFacts.
From stdpp Require Import gmap strings list fin_maps.

#[local] Arguments String.append !s1 s2 : simpl nomatch.

(** ** Characters and texts

    A text (a Python [str], the content of a file opened in text mode)
    is a [string]: a sequence of characters whose code points are below
    256.  Characters beyond that range are outside the model. *)

Definition dquote : ascii := "034"%char.
Definition backslash : ascii := "\"%char.
Definition newline : ascii := "010"%char.

Fixpoint repeat_string (n : nat) (s : string) : string :=
  match n with
  | O => ""
  | S n' => s +:+ repeat_string n' s
  end.

(** ** Python values

    The values [json.load] can return and [json.dump] can write:
    [None], booleans, integers, strings, lists and dictionaries with
    string keys.  Floats are outside the model. *)

#[local] Unset Elimination Schemes.
Inductive json : Type :=
| JNull
| JBool (b : bool)
| JInt (z : Z)
| JStr (s : string)
| JArr (items : list json)
| JObj (members : list (string * json)).
#[local] Set Elimination Schemes.

(** A dictionary keeps its keys in insertion order; an association list
    with pairwise different keys represents it. *)
Abbreviation pydict := (list (string * json)).

Definition keys (d : pydict) : list string := map fst d.

(** [d[k]] *)
Fixpoint dict_get (d : pydict) (k : string) : option json :=
  match d with
  | [] => None
  | (k', v) :: d' => if String.eqb k' k then Some v else dict_get d' k
  end.

(** [d[k] = v]: an existing key keeps its position and gets the new
    value, a new key goes to the end. *)
Fixpoint dict_set (d : pydict) (k : string) (v : json) : pydict :=
  match d with
  | [] => [(k, v)]
  | (k', v') :: d' =>
      if String.eqb k' k then (k', v) :: d' else (k', v') :: dict_set d' k v
  end.

Fixpoint nodupb (l : list string) : bool :=
  match l with
  | [] => true
  | k :: l' => negb (existsb (String.eqb k) l') && nodupb l'
  end.

(** A value is well formed when the keys of every dictionary in it are
    pairwise different, as in every Python dictionary. *)
Fixpoint json_wf (o : json) : bool :=
  match o with
  | JArr items => forallb json_wf items
  | JObj members =>
      nodupb (map fst members) && forallb (fun kv => json_wf (snd kv)) members
  | _ => true
  end.

Definition dict_wf (d : pydict) : bool := json_wf (JObj d).

(** The mapping a dictionary denotes, without its order. *)
Definition mapping (d : pydict) : gmap string json := list_to_map d.

(** ** [json.dump]: the encoder *)

Definition hex_digit (n : nat) : ascii :=
  match n with
  | 0 => "0" | 1 => "1" | 2 => "2" | 3 => "3" | 4 => "4" | 5 => "5"
  | 6 => "6" | 7 => "7" | 8 => "8" | 9 => "9" | 10 => "a" | 11 => "b"
  | 12 => "c" | 13 => "d" | 14 => "e" | _ => "f"
  end%char.

(** [ESCAPE_DCT] and the [replace] function of
    [encode_basestring_ascii]: backslash, the double quote and every
    character outside [' '..'~'] are escaped. *)
Definition escape_char (c : ascii) : string :=
  match c with
  | "\"%char => "\\"
  | "034"%char => String backslash (String dquote "")
  | "008"%char => "\b"
  | "012"%char => "\f"
  | "010"%char => "\n"
  | "013"%char => "\r"
  | "009"%char => "\t"
  | _ =>
      let n := nat_of_ascii c in
      if (32 <=? n)%nat && (n <=? 126)%nat then String c ""
      else "\u00" +:+ String (hex_digit (n / 16)) (String (hex_digit (n mod 16)) "")
  end.

Fixpoint escape_ascii (s : string) : string :=
  match s with
  | "" => ""
  | String c s' => escape_char c +:+ escape_ascii s'
  end.

Definition encode_basestring_ascii (s : string) : string :=
  String dquote (escape_ascii s +:+ String dquote "").

(** [int.__repr__] *)
Definition int_repr (z : Z) : string := NilZero.string_of_int (Z.to_int z).

Fixpoint join (sep : string) (chunks : list string) : string :=
  match chunks with
  | [] => ""
  | [c] => c
  | c :: rest => c +:+ sep +:+ join sep rest
  end.

Section Encoder.
(** The [indent] argument of [json.dump]: [None] or a number of
    spaces. *)
Variable indent : option nat.

Definition newline_indent (level : nat) : string :=
  match indent with
  | Some k => String newline (repeat_string (k * level) " ")
  | None => ""
  end.

Definition item_separator (level : nat) : string :=
  match indent with
  | Some _ => "," +:+ newline_indent level
  | None => ", "
  end.

Definition key_separator : string := ": ".

(** [_iterencode], [_iterencode_list] and [_iterencode_dict] of
    [json.encoder], with the chunks concatenated; dictionary items
    are written in the order of the dictionary ([sort_keys] is
    false). *)
Fixpoint iterencode (level : nat) (o : json) : string :=
  match o with
  | JStr s => encode_basestring_ascii s
  | JNull => "null"
  | JBool true => "true"
  | JBool false => "false"
  | JInt z => int_repr z
  | JArr [] => "[]"
  | JArr items =>
      "[" +:+ newline_indent (S level)
      +:+ join (item_separator (S level)) (map (iterencode (S level)) items)
      +:+ newline_indent level +:+ "]"
  | JObj [] => "{}"
  | JObj members =>
      "{" +:+ newline_indent (S level)
      +:+ join (item_separator (S level))
            (map (fun kv => encode_basestring_ascii (fst kv) +:+ key_separator
                            +:+ iterencode (S level) (snd kv)) members)
      +:+ newline_indent level +:+ "}"
  end.
End Encoder.

(** [json.dumps(o, indent=indent)], the text [json.dump] writes. *)
Definition json_dumps (indent : option nat) (o : json) : string :=
  iterencode indent 0 o.

(** ** [json.load]: the decoder *)

(** The outcome of decoding: a value, a [JSONDecodeError], or a text
    that is JSON but leaves the model (a float, or an escape of a
    character beyond code point 255). *)
Inductive decoded (A : Type) : Type :=
| Parsed (a : A)
| DecodeError
| OutsideModel.
Arguments Parsed {A} a.
Arguments DecodeError {A}.
Arguments OutsideModel {A}.

#[global] Instance decoded_bind : MBind decoded := fun A B f m =>
  match m with
  | Parsed a => f a
  | DecodeError => DecodeError
  | OutsideModel => OutsideModel
  end.

(** [WHITESPACE = [ \t\n\r]*] *)
Definition is_ws (c : ascii) : bool :=
  match c with
  | " "%char | "009"%char | "010"%char | "013"%char => true
  | _ => false
  end.

Fixpoint skip_ws (s : string) : string :=
  match s with
  | String c s' => if is_ws c then skip_ws s' else s
  | "" => ""
  end.

Definition hex_value (c : ascii) : option nat :=
  let n := nat_of_ascii c in
  if (48 <=? n)%nat && (n <=? 57)%nat then Some (n - 48)
  else if (97 <=? n)%nat && (n <=? 102)%nat then Some (n - 87)
  else if (65 <=? n)%nat && (n <=? 70)%nat then Some (n - 55)
  else None.

Definition decode_uXXXX (a b c d : ascii) : option nat :=
  match hex_value a, hex_value b, hex_value c, hex_value d with
  | Some x, Some y, Some z, Some w => Some (((x * 16 + y) * 16 + z) * 16 + w)
  | _, _, _, _ => None
  end.

(** The [BACKSLASH] table. *)
Definition BACKSLASH (esc : ascii) : option ascii :=
  match esc with
  | "034" => Some "034"
  | "\" => Some "\"
  | "/" => Some "/"
  | "b" => Some "008"
  | "f" => Some "012"
  | "n" => Some "010"
  | "r" => Some "013"
  | "t" => Some "009"
  | _ => None
  end%char.

Definition prepend (c : ascii) (m : decoded (string * string)) : decoded (string * string) :=
  '(s, rest) ← m; Parsed (String c s, rest).

(** [scanstring(s, end, strict=True)], called just after the opening
    quote: the string up to the closing quote, and the text after
    it. *)
Fixpoint scanstring (s : string) : decoded (string * string) :=
  match s with
  | "" => DecodeError
  | String c s1 =>
      if Ascii.eqb c dquote then Parsed ("", s1)
      else if Ascii.eqb c backslash then
        match s1 with
        | "" => DecodeError
        | String "u" (String h1 (String h2 (String h3 (String h4 s2)))) =>
            match decode_uXXXX h1 h2 h3 h4 with
            | None => DecodeError
            | Some n =>
                if (n <? 256)%nat then prepend (ascii_of_nat n) (scanstring s2)
                else OutsideModel
            end
        | String "u" _ => DecodeError
        | String esc s2 =>
            match BACKSLASH esc with
            | Some ch => prepend ch (scanstring s2)
            | None => DecodeError
            end
        end
      else if (nat_of_ascii c <? 32)%nat then DecodeError
      else prepend c (scanstring s1)
  end.

Definition is_digit (c : ascii) : bool :=
  let n := nat_of_ascii c in (48 <=? n)%nat && (n <=? 57)%nat.

Fixpoint span_digits (s : string) : string * string :=
  match s with
  | String c s' =>
      if is_digit c then let (ds, r) := span_digits s' in (String c ds, r)
      else ("", s)
  | "" => ("", "")
  end.

(** [NUMBER_RE] has three groups: an integer (an optional minus sign,
    then either a single 0 or a digit from 1 to 9 followed by any
    digits), an optional fraction (a dot and at least one digit) and an
    optional exponent (e or E, an optional sign, at least one digit).
    This is the integer group without its sign. *)
Definition match_integer (s : string) : option (string * string) :=
  match s with
  | String "0" r => Some ("0", r)
  | String c s' =>
      if is_digit c then let (ds, r) := span_digits s' in Some (String c ds, r)
      else None
  | "" => None
  end.

(** Whether the fraction group matches at [s]. *)
Definition has_frac (s : string) : bool :=
  match s with
  | String "." (String d _) => is_digit d
  | _ => false
  end.

(** Whether the exponent group matches at [s]. *)
Definition has_exp (s : string) : bool :=
  match s with
  | String e s' =>
      (Ascii.eqb e "e" || Ascii.eqb e "E") &&
      match s' with
      | String "+" (String d _) | String "-" (String d _) => is_digit d
      | String d _ => is_digit d
      | "" => false
      end
  | "" => false
  end.

(** The integer group, whether a fraction or an exponent follows it,
    and the text after the integer group. *)
Definition match_number (s : string) : option (string * bool * string) :=
  match s with
  | String "-" s' =>
      match match_integer s' with
      | Some (i, r) => Some (String "-" i, has_frac r || has_exp r, r)
      | None => None
      end
  | _ =>
      match match_integer s with
      | Some (i, r) => Some (i, has_frac r || has_exp r, r)
      | None => None
      end
  end.

(** [int(literal)] on a literal of the integer group. *)
Definition py_int (literal : string) : Z :=
  match NilZero.int_of_string literal with
  | Some d => Z.of_int d
  | None => 0%Z
  end.

Fixpoint strip_prefix (p s : string) : option string :=
  match p, s with
  | "", _ => Some s
  | String a p', String b s' => if Ascii.eqb a b then strip_prefix p' s' else None
  | String _ _, "" => None
  end.

Section Containers.
(** [JSONObject] and [JSONArray] get the scanner as an argument. *)
Variable scan_once : string -> decoded (json * string).

(** The [while True] loop of [JSONObject], entered just after the
    opening quote of a property name, with the members read so
    far. *)
Fixpoint object_members (n : nat) (acc : pydict) (s : string)
  : decoded (json * string) :=
  match n with
  | O => DecodeError
  | S n' =>
      '(key, s1) ← scanstring s;
      match skip_ws s1 with
      | String ":" s2 =>
          '(value, s3) ← scan_once (skip_ws s2);
          let acc' := dict_set acc key value in
          match skip_ws s3 with
          | String "}" s4 => Parsed (JObj acc', s4)
          | String "," s4 =>
              match skip_ws s4 with
              | String "034" s5 => object_members n' acc' s5
              | _ => DecodeError
              end
          | _ => DecodeError
          end
      | _ => DecodeError
      end
  end.

(** [JSONObject], called just after the opening brace. *)
Definition JSONObject (n : nat) (s : string) : decoded (json * string) :=
  match skip_ws s with
  | String "}" s1 => Parsed (JObj [], s1)
  | String "034" s1 => object_members n [] s1
  | _ => DecodeError
  end.

(** The [while True] loop of [JSONArray], with the values read so
    far. *)
Fixpoint array_items (n : nat) (acc : list json) (s : string)
  : decoded (json * string) :=
  match n with
  | O => DecodeError
  | S n' =>
      '(value, s1) ← scan_once s;
      let acc' := acc ++ [value] in
      match skip_ws s1 with
      | String "]" s2 => Parsed (JArr acc', s2)
      | String "," s2 => array_items n' acc' (skip_ws s2)
      | _ => DecodeError
      end
  end.

(** [JSONArray], called just after the opening bracket. *)
Definition JSONArray (n : nat) (s : string) : decoded (json * string) :=
  match skip_ws s with
  | String "]" s1 => Parsed (JArr [], s1)
  | s1 => array_items n [] s1
  end.
End Containers.

(** The literals and numbers of [scan_once]. *)
Definition scan_atom (s : string) : decoded (json * string) :=
  match strip_prefix "null" s, strip_prefix "true" s, strip_prefix "false" s with
  | Some r, _, _ => Parsed (JNull, r)
  | _, Some r, _ => Parsed (JBool true, r)
  | _, _, Some r => Parsed (JBool false, r)
  | None, None, None =>
      match match_number s with
      | Some (i, false, r) => Parsed (JInt (py_int i), r)
      | Some (_, true, _) => OutsideModel
      | None =>
          match strip_prefix "NaN" s, strip_prefix "Infinity" s,
                strip_prefix "-Infinity" s with
          | None, None, None => DecodeError
          | _, _, _ => OutsideModel
          end
      end
  end.

(** [scan_once(string, idx)].  The recursion is on [n], which bounds
    the nesting and the number of items; [S (length s)] is always
    enough (see [scan_once_fuel]). *)
Fixpoint scan_once (n : nat) (s : string) : decoded (json * string) :=
  match n with
  | O => DecodeError
  | S n' =>
      match s with
      | String "034" s1 => '(str, r) ← scanstring s1; Parsed (JStr str, r)
      | String "{" s1 => JSONObject (scan_once n') n' s1
      | String "[" s1 => JSONArray (scan_once n') n' s1
      | _ => scan_atom s
      end
  end.

(** [JSONDecoder.decode]: leading whitespace, one value, trailing
    whitespace, and nothing else. *)
Definition decode (s : string) : decoded json :=
  '(obj, r) ← scan_once (S (String.length s)) (skip_ws s);
  match skip_ws r with
  | "" => Parsed obj
  | _ => DecodeError
  end.

(** [json.loads(s)]; [json.load(f)] is [json.loads(f.read())]. *)
Definition json_loads (s : string) : decoded json := decode s.

(** Texts written with ['] for the double quote, for examples. *)
Fixpoint sq (s : string) : string :=
  match s with
  | "" => ""
  | String c s' => String (if Ascii.eqb c "'" then dquote else c) (sq s')
  end.

(** * The store *)

(** ** Files, exceptions and the state-passing monad

    The file system is a finite map from paths to texts.  Every path
    can be written; permissions, directories and disk space are not
    modelled. *)
Abbreviation fs := (gmap string string).

Inductive exn : Type :=
| FileNotFoundError
| JSONDecodeError
| TypeError
| KeyError.

(** How a call ends: it returns, it raises, or it has met a text the
    model does not cover (see [OutsideModel]). *)
Inductive result (A : Type) : Type :=
| Returns (a : A)
| Raises (e : exn)
| Unmodelled.
Arguments Returns {A} a.
Arguments Raises {A} e.
Arguments Unmodelled {A}.

(** A computation reads and changes the file system; the changes made
    before an exception stay. *)
Definition io (A : Type) : Type := fs → result A * fs.

#[global] Instance io_ret : MRet io := λ A a σ, (Returns a, σ).

#[global] Instance io_bind : MBind io := λ A B f m σ,
  match m σ with
  | (Returns a, σ') => f a σ'
  | (Raises e, σ') => (Raises e, σ')
  | (Unmodelled, σ') => (Unmodelled, σ')
  end.

(** A step that does not touch the file system. *)
Definition pure {A} (r : result A) : io A := λ σ, (r, σ).

(** [os.path.exists(path)] *)
Definition path_exists (path : string) : io bool :=
  λ σ, (Returns (bool_decide (is_Some (σ !! path))), σ).

(** [open(path, "r")], then [f.read()] *)
Definition read_text (path : string) : io string :=
  λ σ, match σ !! path with
       | Some text => (Returns text, σ)
       | None => (Raises FileNotFoundError, σ)
       end.

(** [open(path, "w")], then the writes of the text, then the close:
    the file is created or replaced. *)
Definition write_text (path : string) (text : string) : io unit :=
  λ σ, (Returns tt, <[path := text]> σ).

(** [with open(path, "r") as f: json.load(f)] *)
Definition json_load (path : string) : io json :=
  text ← read_text path;
  pure (match json_loads text with
        | Parsed o => Returns o
        | DecodeError => Raises JSONDecodeError
        | OutsideModel => Unmodelled
        end).

(** [with open(path, "w") as f: json.dump(o, f, indent=indent)] *)
Definition json_dump (o : json) (path : string) (indent : option nat) : io unit :=
  write_text path (json_dumps indent o).

(** [new_dict[k]] *)
Definition getitem (d : pydict) (k : string) : result json :=
  match dict_get d k with
  | Some v => Returns v
  | None => Raises KeyError
  end.

(** [data[k] = v]: only a dictionary takes a string key. *)
Definition setitem (data : json) (k : string) (v : json) : result json :=
  match data with
  | JObj d => Returns (JObj (dict_set d k v))
  | _ => Raises TypeError
  end.

(** [for k in ks: data[k] = new_dict[k]] *)
Fixpoint for_keys (ks : list string) (new_dict : pydict) (data : json)
  : result json :=
  match ks with
  | [] => Returns data
  | k :: ks' =>
      match getitem new_dict k with
      | Returns v =>
          match setitem data k v with
          | Returns data' => for_keys ks' new_dict data'
          | Raises e => Raises e
          | Unmodelled => Unmodelled
          end
      | Raises e => Raises e
      | Unmodelled => Unmodelled
      end
  end.

(** ** [update_key_number] *)

Definition update_key_number (path : string) (new_dict : pydict) : io unit :=
  here ← path_exists path;
  _ ← (if negb here then json_dump (JObj []) path None else mret tt);
  data ← json_load path;
  data ← pure (for_keys (keys new_dict) new_dict data);
  json_dump data path (Some 4).

(** * Notions used in the statements and in the proofs *)

(** ** Induction on values

    The induction principle of [json], with the induction hypothesis
    on every item of a list and on every value of a dictionary. *)

Section JsonInduction.
Variable P : json → Prop.
Hypothesis Hnull : P JNull.
Hypothesis Hbool : ∀ b, P (JBool b).
Hypothesis Hint : ∀ z, P (JInt z).
Hypothesis Hstr : ∀ s, P (JStr s).
Hypothesis Harr : ∀ items, Forall P items → P (JArr items).
Hypothesis Hobj : ∀ members, Forall (λ kv, P kv.2) members → P (JObj members).

Fixpoint json_ind (o : json) : P o :=
  match o with
  | JNull => Hnull
  | JBool b => Hbool b
  | JInt z => Hint z
  | JStr s => Hstr s
  | JArr items =>
      Harr items
        ((fix all (l : list json) : Forall P l :=
            match l with
            | [] => Forall_nil_2 P
            | x :: l' => Forall_cons_2 P x l' (json_ind x) (all l')
            end) items)
  | JObj members =>
      Hobj members
        ((fix all (l : pydict) : Forall (λ kv, P kv.2) l :=
            match l with
            | [] => Forall_nil_2 _
            | kv :: l' => Forall_cons_2 _ kv l' (json_ind kv.2) (all l')
            end) members)
  end.
End JsonInduction.

(** ** Texts and encodings *)

(** A text made of whitespace only. *)
Fixpoint all_ws (s : string) : bool :=
  match s with
  | "" => true
  | String c s' => is_ws c && all_ws s'
  end.

(** A text made of decimal digits only. *)
Fixpoint all_digits (s : string) : bool :=
  match s with
  | "" => true
  | String c s' => is_digit c && all_digits s'
  end.

(** What may follow a number in a text without extending it. *)
Definition num_end (s : string) : bool :=
  match s with
  | "" => true
  | String c _ =>
      negb (is_digit c || Ascii.eqb c "." || Ascii.eqb c "e" || Ascii.eqb c "E")
  end.

(** The characters a value can start with. *)
Definition value_start (c : ascii) : bool :=
  is_digit c ||
  match c with
  | "034" | "{" | "[" | "n" | "t" | "f" | "-" => true
  | _ => false
  end%char.

Definition starts_value (s : string) : Prop :=
  ∃ c t, s = String c t ∧ value_start c = true.

(** The number of recursive calls the scanner makes on the encoding
    of a value. *)
Fixpoint size (o : json) : nat :=
  match o with
  | JArr items => S (list_sum (map size items))
  | JObj members => S (list_sum (map (λ kv, size kv.2) members))
  | _ => 1
  end.

(** The whitespace of the separator between items, after its
    comma. *)
Definition separator_ws (indent : option nat) (level : nat) : string :=
  match indent with
  | Some _ => newline_indent indent level
  | None => " "
  end.

(** [d[k] = v] for an item [(k, v)]. *)
Definition set_item (d : pydict) (kv : string * json) : pydict :=
  dict_set d kv.1 kv.2.

(** The scanner [scan] reads back the encoding [enc o] of [o], whatever
    follows it. *)
Definition reads_back (scan : string → decoded (json * string))
    (enc : json → string) (o : json) : Prop :=
  starts_value (enc o) ∧
  ∀ rest, num_end rest = true → scan (enc o +:+ rest) = Parsed (o, rest).

(** An item of a dictionary as [_iterencode_dict] writes it, the value
    written by [enc]. *)
Definition encode_item (enc : json → string) (kv : string * json) : string :=
  encode_basestring_ascii kv.1 +:+ key_separator +:+ enc kv.2.

(** The values a scanner returns are well formed. *)
Definition yields_wf (scan : string → decoded (json * string)) : Prop :=
  ∀ s o r, scan s = Parsed (o, r) → json_wf o = true.

(** A scanner leaves a text shorter than the one it was given. *)
Definition consumes {A} (scan : string → decoded (A * string)) : Prop :=
  ∀ s o r, scan s = Parsed (o, r) → String.length r < String.length s.

(** ** The loop and the file

    One turn of the loop on a dictionary, for a key [k] of [U]. *)
Definition update_step (U : pydict) (acc : pydict) (k : string) : pydict :=
  match dict_get U k with
  | Some v => dict_set acc k v
  | None => acc
  end.

(** [d] after [for k in U.keys(): d[k] = U[k]]. *)
Definition updated (d U : pydict) : pydict := fold_left (update_step U) (keys U) d.

(** Whether a value is a dictionary (a JSON object). *)
Definition is_dict (o : json) : bool :=
  match o with
  | JObj _ => true
  | _ => false
  end.

(** What [json.load] returns in [update_key_number]: the content of
    the file, or the empty dictionary just written when there is no
    file. *)
Definition loaded (path : string) (σ : fs) : decoded json :=
  match σ !! path with
  | Some text => json_loads text
  | None => Parsed (JObj [])
  end.

(** The file system after the first statement of
    [update_key_number]. *)
Definition bootstrapped (path : string) (σ : fs) : fs :=
  match σ !! path with
  | Some _ => σ
  | None => <[path := "{}"]> σ
  end.

(** A line break and four spaces. *)
Definition indent4 : string := String newline "    ".

(** Two calls, one after the other. *)
Definition two_calls (path : string) (U1 U2 : pydict) : io unit :=
  _ ← update_key_number path U1; update_key_number path U2.

(** No key of [U1] is a key of [U2]. *)
Definition disjoint_keys (U1 U2 : pydict) : bool :=
  forallb (λ k, negb (existsb (String.eqb k) (keys U2))) (keys U1).

(** Two texts hold the same document: the same dictionary up to the
    order of its keys, or else the same decoding. *)
Definition same_document (text1 text2 : string) : Prop :=
  match json_loads text1, json_loads text2 with
  | Parsed (JObj doc1), Parsed (JObj doc2) => mapping doc1 = mapping doc2
  | r1, r2 => r1 = r2
  end.

(** ** Example data *)

Definition key_numbers : string := "key_numbers.json".

Definition demand : pydict :=
  [("africa_share_of_global_vaccine_demand_2030", JStr "34.2%")].

Definition supply : pydict :=
  [("africa_vaccine_production_share", JStr "0.10%");
   ("asia_vaccine_production_share", JStr "41.7%")].

(** A file written by an earlier run of the demand pipeline. *)
Definition demand_text : string :=
  sq "{'africa_share_of_global_vaccine_demand_2030': '30.0%', 'note': 'draft'}".

Definition demand_doc : pydict :=
  [("africa_share_of_global_vaccine_demand_2030", JStr "30.0%");
   ("note", JStr "draft")].

(** A file cut short while it was being written. *)
Definition truncated_text : string :=
  sq "{'africa_share_of_global_vaccine_demand_2030': '30.0%', ".

(** Two histories of the same two indicators. *)
Definition first_a : pydict := [("a", JStr "1")].
Definition then_b : pydict := [("b", JStr "2")].

Definition text_a_b : string := sq "{
    'a': '1',
    'b': '2'
}".

Definition text_b_a : string := sq "{
    'b': '2',
    'a': '1'
}".

(** A file that holds a list. *)
Definition array_text : string := sq "['34.2%', 12, null]".

Definition other_file : string := "african_vaccine_supply.csv".

(** * More of the store *)

(** ** Sequences of calls *)

(** The calls [update_key_number(path, U)] for the dictionaries [U] of
    a list, one after the other. *)
Fixpoint update_all (path : string) (Us : list pydict) : io unit :=
  match Us with
  | [] => mret tt
  | U :: Us' => _ ← update_key_number path U; update_all path Us'
  end.

(** The value the last dictionary of the list that has the key [k]
    gives to it. *)
Fixpoint latest (Us : list pydict) (k : string) : option json :=
  match Us with
  | [] => None
  | U :: Us' =>
      match latest Us' k with
      | Some v => Some v
      | None => dict_get U k
      end
  end.

(** The dictionaries of [Us] give a key one value at most. *)
Definition agree (Us : list pydict) : Prop :=
  ∀ U V k v w, U ∈ Us → V ∈ Us →
    dict_get U k = Some v → dict_get V k = Some w → v = w.

(** Every key of [U] is a key of [d]. *)
Definition known_keys (U d : pydict) : bool :=
  forallb (λ k, existsb (String.eqb k) (keys d)) (keys U).

(** [d] with the value of every key that [U] has replaced by the
    value [U] gives it, item by item. *)
Definition revalued (d U : pydict) : pydict :=
  map (λ kv, (kv.1, default kv.2 (dict_get U kv.1))) d.

(** ** Plain texts *)

(** A printable ASCII character or a line break. *)
Definition is_plain (c : ascii) : bool :=
  let n := nat_of_ascii c in
  ((32 <=? n)%nat && (n <=? 126)%nat) || (n =? 10)%nat.

Fixpoint all_plain (s : string) : bool :=
  match s with
  | "" => true
  | String c s' => is_plain c && all_plain s'
  end.

(** ** More example data *)

(** A key number with a character beyond ASCII, the o with a
    circumflex of the Ivory Coast. *)
Definition accented : pydict :=
  [("country", JStr ("C" +:+ String "244"%char "te d'Ivoire"))].
(** * Data frames and the pipelines

    The pipelines work on pandas data frames.  What follows models the
    functions whose effect is on the structure of a table: which rows
    and columns they keep, which cells they read, which dictionary
    they build and which exception they raise.  Floating point numbers
    are an abstract type with abstract operations (see
    [Floats]); the parsing of spreadsheets, CSV and PDF files,
    the grouping, pivoting and concatenation of frames and the lookup
    tables of the [bblocks] package are not modelled. *)

(** The exceptions the frame functions raise. *)
Module pd.
Inductive error : Type :=
| KeyError
| ValueError
| IndexError
| AttributeError.
End pd.

(** How a frame function ends: with a value, with an exception, or
    beyond what the model covers. *)
Inductive outcome (A : Type) : Type :=
| Yields (a : A)
| Throws (e : pd.error)
| Beyond.
Arguments Yields {A} a.
Arguments Throws {A} e.
Arguments Beyond {A}.

#[global] Instance outcome_ret : MRet outcome := λ A a, Yields a.

#[global] Instance outcome_bind : MBind outcome := λ A B f m,
  match m with
  | Yields a => f a
  | Throws e => Throws e
  | Beyond => Beyond
  end.

(** ** [df_to_key_number_dict] of [scripts/tools.py]

<<
    def df_to_key_number_dict(df, indicator_name, id_column, value_columns):
        if isinstance(value_columns, str):
            value_columns = [value_columns]
        return (
            df.assign(indicator=indicator_name)
            .filter(["indicator", id_column] + value_columns, axis=1)
            .groupby(["indicator"], observed=True, dropna=False)
            .apply(
                lambda x: x.set_index(id_column)[value_columns]
                .astype(str)
                .to_dict(orient="index")
            )
            .to_dict()
        )
>>
*)

(** A cell holds a Python string or another value (a number, a missing
    value), of an abstract type [other]. *)
Inductive cell (other : Type) : Type :=
| Str (s : string)
| Obj (x : other).
Arguments Str {other} s.
Arguments Obj {other} x.

(** A row gives a cell to each of its columns; a frame is the list of
    its rows, which all have the same columns, each once. *)
Abbreviation row other := (list (string * cell other)).
Abbreviation frame other := (list (list (string * cell other))).

(** The value that a list of named values has for the name [c]: the
    cell of the column [c] in a row, and also the column [c] among
    the columns of a frame. *)
Fixpoint row_get {V} (r : list (string * V)) (c : string) : option V :=
  match r with
  | [] => None
  | (c', x) :: r' => if String.eqb c' c then Some x else row_get r' c
  end.

(** The list with the value [x] for the name [c]: in the place of the
    value it had, or else at the end. *)
Fixpoint row_set {V} (r : list (string * V)) (c : string) (x : V)
  : list (string * V) :=
  match r with
  | [] => [(c, x)]
  | (c', x') :: r' =>
      if String.eqb c' c then (c', x) :: r' else (c', x') :: row_set r' c x
  end.

(** [astype(str)] on a cell: [str(x)], which is [x] for a string. *)
Definition astype_str {other} (str_other : other → string) (x : cell other)
  : string :=
  match x with
  | Str s => s
  | Obj o => str_other o
  end.

(** The [value_columns] argument: a name or a list of names. *)
Definition value_columns_list (value_columns : string + list string)
  : list string :=
  match value_columns with
  | inl c => [c]
  | inr l => l
  end.

(** [x.set_index(id_column)[value_columns].astype(str)] on one row: its
    id and the dictionary of its value columns, or nothing when a
    column is missing. *)
Definition select_row {other} (str_other : other → string)
    (id_column : string) (value_columns : list string) (r : row other)
  : option (cell other * pydict) :=
  i ← row_get r id_column;
  cells ← mapM (row_get r) value_columns;
  Some (i, zip value_columns (JStr ∘ astype_str str_other <$> cells)).

(** The id as a key of a dictionary; an id that is not a string is
    outside the model. *)
Definition text_of {other} (x : cell other) : option string :=
  match x with
  | Str s => Some s
  | Obj _ => None
  end.

(** The result is [{indicator_name: {id: {column: str(cell)}}}], with
    one item per row under the one indicator.  A missing column is a
    [KeyError], ids that repeat are a [ValueError] of
    [to_dict(orient='index')].  A frame without rows (it has no group,
    and what [apply] gives then depends on the columns) and column
    names that clash with each other or with the name indicator are
    outside the model. *)
Definition df_to_key_number_dict {other} (str_other : other → string)
    (df : frame other) (indicator_name id_column : string)
    (value_columns : string + list string) : outcome pydict :=
  let value_columns := value_columns_list value_columns in
  if negb (nodupb ("indicator" :: id_column :: value_columns)) then Beyond
  else
    match df with
    | [] => Beyond
    | _ :: _ =>
        match mapM (select_row str_other id_column value_columns) df with
        | None => Throws pd.KeyError
        | Some items =>
            match mapM text_of items.*1 with
            | None => Beyond
            | Some ids =>
                if nodupb ids
                then Yields [(indicator_name, JObj (zip ids (JObj <$> items.*2)))]
                else Throws pd.ValueError
            end
        end
    end.

(** The id of a row, when it is a string. *)
Definition row_id {other} (id_column : string) (r : row other) : option string :=
  x ← row_get r id_column; text_of x.

(** The row has all the columns [cols]. *)
Definition has_columns {other} (cols : list string) (r : row other) : bool :=
  forallb (λ c, bool_decide (is_Some (row_get r c))) cols.

(** A frame of three regions, for the examples. *)
Definition regions : frame Z :=
  [ [("region", Str "Africa"); ("doses", Obj 12%Z); ("share", Str "0.1%")];
    [("region", Str "Asia"); ("doses", Obj 7300%Z); ("share", Str "61.0%")];
    [("region", Str "Europe"); ("doses", Obj 2100%Z); ("share", Str "17.5%")] ].

(** The same with a second row for Africa. *)
Definition regions_twice : frame Z :=
  regions ++ [ [("region", Str "Africa"); ("doses", Obj 1%Z); ("share", Str "0.0%")] ].



(** ** Floating point numbers

    The scripts compute with floats and print them with f-strings.
    The model keeps them abstract: a type with the operations the
    scripts use, of which nothing is assumed. *)
Class Floats (float : Type) : Type := {
  (** [format(x, spec)], which an f-string calls for a field with a
      format specification *)
  format : string → float → string;
  (** [Series.sum()] *)
  fsum : list float → float;
  (** [x + y], [x - y] and [x / y] *)
  fadd : float → float → float;
  fsub : float → float → float;
  fdiv : float → float → float;
  (** [fillna(value)] on an element: the element, or [value] for a
      missing one *)
  fillna : float → float → float;
  (** an integer literal where a float is expected *)
  float_of_Z : Z → float;
  (** [np.nan] *)
  nan : float
}.

(** ** Functions that end in a call of [update_key_number] *)

(** How such a function ends: it returns, the frame code raises, the
    call of [update_key_number] raises, or the model does not say. *)
Inductive exit : Type :=
| Done
| FrameRaised (e : pd.error)
| StoreRaised (e : exn)
| NoPrediction.

Definition script : Type := fs → exit * fs.

Definition store_exit (r : result unit) : exit :=
  match r with
  | Returns _ => Done
  | Raises e => StoreRaised e
  | Unmodelled => NoPrediction
  end.

(** The statement [update_key_number(path, key_numbers)] of a script. *)
Definition call_update_key_number (path : string) (key_numbers : pydict) : script :=
  λ σ, let '(r, σ') := update_key_number path key_numbers σ in (store_exit r, σ').

(** Scripts run one after the other, as long as they return. *)
Fixpoint run_scripts (ws : list script) : script :=
  match ws with
  | [] => λ σ, (Done, σ)
  | w :: ws' =>
      λ σ, match w σ with
           | (Done, σ') => run_scripts ws' σ'
           | other => other
           end
  end.

(** [Series.item()]: the one element of a series, [ValueError] for a
    series of another size. *)
Definition item {A} (s : list A) : outcome A :=
  match s with
  | [x] => Yields x
  | _ => Throws pd.ValueError
  end.

(** ** Positional frames

    A frame whose columns are used by position, as [read_excel] and
    the PDF reader give them: its number of columns and its rows, each
    with one cell per column. *)
Record grid (A : Type) : Type := {
  width : nat;
  rows : list (list A)
}.
Arguments width {A} g.
Arguments rows {A} g.
Arguments Build_grid {A} width rows.

(** Every row has one cell per column. *)
Definition grid_ok {A} (g : grid A) : Prop :=
  Forall (λ r, length r = width g) (rows g).

(** The cell in row [i] and column [j], by position. *)
Definition cell_at {A} (g : grid A) (i j : nat) : option A :=
  r ← rows g !! i; r !! j.

(** [l[a:b]] for bounds that are not negative: a slice is cut at the
    end of the list and never raises. *)
Definition slice {A} (a b : nat) (l : list A) : list A := drop a (take b l).

(** [df.iloc[a:b, c:d]] *)
Definition iloc_slices {A} (g : grid A) (rs cs : nat * nat) : grid A :=
  {| width := Nat.min cs.2 (width g) - cs.1;
     rows := slice cs.1 cs.2 <$> slice rs.1 rs.2 (rows g) |}.

(** [df.iloc[first_row:, keep_cols]]: a position outside the columns
    is an [IndexError]. *)
Definition iloc_from_list {A} (g : grid A) (first_row : nat) (keep_cols : list nat)
  : outcome (grid A) :=
  if forallb (λ c, c <? width g) keep_cols
  then Yields {| width := length keep_cols;
                 rows := (λ r, omap (λ c, r !! c) keep_cols)
                           <$> drop first_row (rows g) |}
  else Throws pd.IndexError.

(** [df.columns = names]: a [ValueError] unless there is one name per
    column; then every row is read by the names. *)
Definition set_columns {A} (g : grid A) (names : list string)
  : outcome (list (list (string * A))) :=
  if width g =? length names
  then Yields (zip names <$> rows g)
  else Throws pd.ValueError.

(** ** [scripts/vaccine_supply/gavi_supply.py] *)
Module gavi_supply.
Section Script.
Context {float : Type} {floats : Floats float}.
(** [config.Paths.output / 'key_numbers.json'] *)
Context (key_numbers_json : string).

(**
<<
    def _filter_rows_columns(df, first_row, keep_cols):
        return df.iloc[first_row:, keep_cols]
>>
*)
Definition _filter_rows_columns {A} (df : grid A) (first_row : nat)
    (keep_cols : list nat) : outcome (grid A) :=
  iloc_from_list df first_row keep_cols.

(**
<<
    def gavi_supply_key_number(key_number: float):
        key_numbers = {
            'share_of_gavi_vaccine_supply_for_six_transitioning_countries':
                f'{key_number:.1%}'
        }
        update_key_number(config.Paths.output / 'key_numbers.json', key_numbers)
>>
*)
Definition key_numbers (key_number : float) : pydict :=
  [("share_of_gavi_vaccine_supply_for_six_transitioning_countries",
    JStr (format ".1%" key_number))].

Definition gavi_supply_key_number (key_number : float) : script :=
  call_update_key_number key_numbers_json (key_numbers key_number).
End Script.
End gavi_supply.

(** ** [scripts/vaccine_demand/vaccine_demand.py] *)
Module vaccine_demand.

(** A frame of the demand by year, column by column: the column
    [year], of integers, and the other columns, of floats, with their
    names and in their order. *)
Record frame (float : Type) : Type := {
  year : list Z;
  columns : list (string * list float)
}.
Arguments year {float} _.
Arguments columns {float} _.
Arguments Build_frame {float} year columns.

(** Every column has one value per row. *)
Definition frame_ok {float} (df : frame float) : Prop :=
  Forall (λ c, length c.2 = length (year df)) (columns df).

(** The elements of a series in the rows that a mask selects. *)
Definition keep_rows {A} (mask : list bool) (s : list A) : list A :=
  (List.filter fst (zip mask s)).*2.

Section Script.
Context {float : Type} {floats : Floats float}.
(** [config.Paths.output / 'key_numbers.json'] *)
Context (key_numbers_json : string).

(**
<<
    df['country'] = np.where(
        df['country'].str.startswith('India:'), 'India', df['country']
    )
>>
    A row is its country, a string, and its other columns. *)
Definition _convert_india_region_entries_to_india {R} (df : list (string * R))
  : list (string * R) :=
  (λ r, (if String.prefix "India:" r.1 then "India" else r.1, r.2)) <$> df.

(**
<<
    df = _convert_india_region_entries_to_india(df)
    df.country = df.country.replace('CAR', 'Central African Republic')
    df = add_iso_codes_column(
        df, id_column='country', id_type='regex', target_column='iso_code')
    df['iso_code'] = np.where(
        df['country'] == 'Global Stockpile', 'global_stockpile', df['iso_code']
    )
>>
    [to_iso3] stands for the conversion of a country name by
    [add_iso_codes_column], which gives a code or a missing value, and
    [where_other] for what [np.where] makes of a missing value it
    keeps.  The result is the country, the code and the other
    columns. *)
Definition add_iso_codes {R other} (to_iso3 : string → cell other)
    (where_other : other → cell other) (df : list (string * R))
  : list (string * cell other * R) :=
  let df := _convert_india_region_entries_to_india df in
  let df :=
    (λ r, (if String.eqb r.1 "CAR" then "Central African Republic" else r.1, r.2))
      <$> df in
  let df := (λ r, (r.1, to_iso3 r.1, r.2)) <$> df in
  (λ r, (r.1.1,
         if String.eqb r.1.1 "Global Stockpile" then Str "global_stockpile"
         else match r.1.2 with
              | Str code => Str code
              | Obj x => where_other x
              end,
         r.2)) <$> df.

(** [df[c]] for a column of floats: a [KeyError] without the
    column. *)
Definition get_column (df : frame float) (c : string) : outcome (list float) :=
  match row_get (columns df) c with
  | Some s => Yields s
  | None => Throws pd.KeyError
  end.

(** [df.c]: an [AttributeError] without the column. *)
Definition get_attribute (df : frame float) (c : string) : outcome (list float) :=
  match row_get (columns df) c with
  | Some s => Yields s
  | None => Throws pd.AttributeError
  end.

(** [df[c] = s]: the column is replaced where it is, a new column
    goes to the end. *)
Definition set_column (df : frame float) (c : string) (s : list float)
  : frame float :=
  {| year := year df; columns := row_set (columns df) c s |}.

(**
<<
    df.global_stockpile = df.global_stockpile.fillna(0)
    df['non_Africa'] = (
        df['America'] + df['Asia'] + df['Europe'] + df['Oceania']
        + df['global_stockpile']
    )
    df['Total'] = df['Africa'] + df['non_Africa']
>>
*)
Definition add_all_other_regions_and_total_columns (df : frame float)
  : outcome (frame float) :=
  stockpile ← get_attribute df "global_stockpile";
  let df := set_column df "global_stockpile"
              (fillna (float_of_Z 0) <$> stockpile) in
  america ← get_column df "America";
  asia ← get_column df "Asia";
  europe ← get_column df "Europe";
  oceania ← get_column df "Oceania";
  stockpile ← get_column df "global_stockpile";
  let df := set_column df "non_Africa"
              (zip_with fadd
                 (zip_with fadd (zip_with fadd (zip_with fadd america asia) europe)
                    oceania)
                 stockpile) in
  africa ← get_column df "Africa";
  non_africa ← get_column df "non_Africa";
  Yields (set_column df "Total" (zip_with fadd africa non_africa)).

Definition continents : list string :=
  ["Africa"; "Asia"; "America"; "Europe"; "Oceania"; "global_stockpile";
   "non_Africa"].

(**
<<
    for continent in continents:
        share_column = f'{continent}_share'
        df[share_column] = df[continent] / df['Total']
>>
*)
Fixpoint add_shares (continents : list string) (df : frame float)
  : outcome (frame float) :=
  match continents with
  | [] => Yields df
  | continent :: continents' =>
      doses ← get_column df continent;
      total ← get_column df "Total";
      add_shares continents'
        (set_column df (continent +:+ "_share") (zip_with fdiv doses total))
  end.

Definition add_share_of_total_column (df : frame float) : outcome (frame float) :=
  add_shares continents df.

(**
<<
    df['Africa_share_measured'] = np.where(
        df['year'] <= last_year_measured, df['Africa_share'], np.nan
    )
    df['Africa_share_projected'] = np.where(
        df['year'] >= last_year_measured, df['Africa_share'], np.nan
    )
>>
*)
Definition reformat_data_for_dashed_projections (df : frame float)
    (last_year_measured : Z) : outcome (frame float) :=
  share ← get_column df "Africa_share";
  let df := set_column df "Africa_share_measured"
              (zip_with (λ y x, if (y <=? last_year_measured)%Z then x else nan)
                 (year df) share) in
  share ← get_column df "Africa_share";
  Yields (set_column df "Africa_share_projected"
            (zip_with (λ y x, if (last_year_measured <=? y)%Z then x else nan)
               (year df) share)).

(** [df.filter(items=items, axis=1)]: the columns of [items] that the
    frame has, in the order of [items].  A list without the year is
    outside the model. *)
Definition filter_items (df : frame float) (items : list string)
  : outcome (frame float) :=
  if existsb (String.eqb "year") items
  then Yields {| year := year df;
                 columns :=
                   omap (λ c, s ← row_get (columns df) c; Some (c, s))
                     (List.filter (λ c, negb (String.eqb c "year")) items) |}
  else Beyond.

(** [vaccine_dose_demand_by_country_year_pipeline] from the frame that
    [pivot_by_continent] returns:
<<
    df = add_all_other_regions_and_total_columns(df)
    df = add_share_of_total_column(df)
    df = reformat_data_for_dashed_projections(df, last_year_measured=2024)
    return df.filter(
        items=['year', 'Africa_share_measured', 'Africa_share_projected'], axis=1
    )
>>
*)
Definition pipeline_from_pivot (df : frame float) : outcome (frame float) :=
  df ← add_all_other_regions_and_total_columns df;
  df ← add_share_of_total_column df;
  df ← reformat_data_for_dashed_projections df 2024;
  filter_items df ["year"; "Africa_share_measured"; "Africa_share_projected"].

(** [df.query('year == y')] *)
Definition query_year (df : frame float) (y : Z) : frame float :=
  let mask := (λ y', Z.eqb y' y) <$> year df in
  {| year := keep_rows mask (year df);
     columns := (λ c, (c.1, keep_rows mask c.2)) <$> columns df |}.

(**
<<
    def vaccine_demand_key_numbers(df):
        africa_demand_2030 = df.query('year == 2030')['Africa_share_projected'].item()
        key_numbers = {
            'africa_share_of_global_vaccine_demand_2030': f'{africa_demand_2030:.1%}'
        }
        update_key_number(config.Paths.output / 'key_numbers.json', key_numbers)
>>
*)
Definition africa_demand_2030 (df : frame float) : outcome float :=
  projected ← get_column (query_year df 2030) "Africa_share_projected";
  item projected.

Definition key_numbers (africa_demand_2030 : float) : pydict :=
  [("africa_share_of_global_vaccine_demand_2030",
    JStr (format ".1%" africa_demand_2030))].

Definition vaccine_demand_key_numbers (df : frame float) : script :=
  match africa_demand_2030 df with
  | Yields africa_demand_2030 =>
      call_update_key_number key_numbers_json (key_numbers africa_demand_2030)
  | Throws e => λ σ, (FrameRaised e, σ)
  | Beyond => λ σ, (NoPrediction, σ)
  end.
End Script.
End vaccine_demand.

(** ** [scripts/vaccine_supply/who_mi4a_data.py] *)
Module who_mi4a_data.

(** The rows of the frame [supply_key_numbers] reads, after its
    [astype(float)]: the continent and the two columns of doses. *)
Record supply_row (float : Type) : Type := {
  manufacturer_hq : string;
  vaccines_to_world : float;
  vaccines_to_africa : float
}.
Arguments manufacturer_hq {float} _.
Arguments vaccines_to_world {float} _.
Arguments vaccines_to_africa {float} _.
Arguments Build_supply_row {float} manufacturer_hq vaccines_to_world
  vaccines_to_africa.

(** The places of the tables in the sheet: rows and columns, each
    from a first position to the one before the last. *)
Definition table_locations : list (string * ((nat * nat) * (nat * nat))) :=
  [ ("with_covid_who_region", ((10, 17), (2, 6)));
    ("with_covid_continent", ((18, 25), (2, 6)));
    ("without_covid_who_region", ((29, 36), (2, 6)));
    ("without_covid_continent", ((37, 44), (2, 6))) ].

(** [table_locations.get(table_name)] *)
Fixpoint get_location (locations : list (string * ((nat * nat) * (nat * nat))))
    (table_name : string) : option ((nat * nat) * (nat * nat)) :=
  match locations with
  | [] => None
  | (name, loc) :: locations' =>
      if String.eqb name table_name then Some loc
      else get_location locations' table_name
  end.

(**
<<
    loc = table_locations.get(table_name)
    if loc:
        return df.iloc[loc['rows'], loc['columns']]
    else:
        raise ValueError(...)
>>
*)
Definition get_data_table {A} (df : grid A) (table_name : string)
  : outcome (grid A) :=
  match get_location table_locations table_name with
  | Some loc => Yields (iloc_slices df loc.1 loc.2)
  | None => Throws pd.ValueError
  end.

Definition column_names : list string :=
  ["manufacturer_hq"; "vaccines_to_world"; "vaccines_to_africa";
   "share_of_production_to_africa"].

(** [df.columns = [...]] with the four names. *)
Definition set_column_names {A} (df : grid A) : outcome (list (list (string * A))) :=
  set_columns df column_names.

(** [get_data_table(df=df, table_name=table_name).pipe(set_column_names)] *)
Definition named_table {A} (df : grid A) (table_name : string)
  : outcome (list (list (string * A))) :=
  match get_data_table df table_name with
  | Yields t => set_column_names t
  | Throws e => Throws e
  | Beyond => Beyond
  end.

Definition desired_order : list string :=
  ["Africa"; "Asia"; "North America"; "Europe"; "South America"; "Oceania"].

(** The first row with the label [l]. *)
Fixpoint row_of {V} (df : list (string * V)) (l : string) : option V :=
  match df with
  | [] => None
  | (l', v) :: df' => if String.eqb l' l then Some v else row_of df' l
  end.

(**
<<
    df_reordered = df.set_index('manufacturer_hq').reindex(desired_order).reset_index()
>>
    A row is its label, a string, and its other columns; [missing]
    is a row of missing values.  [reindex] raises [ValueError] on
    labels that repeat. *)
Definition reorder_rows_for_data_vis {V} (missing : V) (df : list (string * V))
  : outcome (list (string * V)) :=
  if nodupb df.*1
  then Yields ((λ l, (l, default missing (row_of df l))) <$> desired_order)
  else Throws pd.ValueError.

(** [df.loc[lambda d: d.manufacturer_hq != 'TOTAL']] *)
Definition without_total {V} (df : list (string * V)) : list (string * V) :=
  filter (λ r, r.1 ≠ "TOTAL") df.

(** [cell == l] for a string [l]: a cell that holds no string is
    different from every string. *)
Definition holds {other} (l : string) (x : cell other) : bool :=
  match x with
  | Str s => String.eqb s l
  | Obj _ => false
  end.

(** [df['manufacturer_hq'] == l] on a row. *)
Definition hq_is {other} (l : string) (r : row other) : bool :=
  match row_get r "manufacturer_hq" with
  | Some x => holds l x
  | None => false
  end.

(**
<<
    total_vaccines_to_world = df[df['manufacturer_hq'] == 'TOTAL'][
        'vaccines_to_world'
    ].values[0]
    df['share_of_global_vaccine_supply'] = (
        df['vaccines_to_world'] * 100 / total_vaccines_to_world
    )
>>
    on a frame with the columns that [set_column_names] sets.
    [.values[0]] raises [IndexError] when no row is the total.
    [percent_of x total] stands for [x * 100 / total]; where it gives
    nothing the model says nothing. *)
Definition add_share_of_global_vaccine_supply_column {other}
    (percent_of : cell other → cell other → option (cell other))
    (df : frame other) : outcome (frame other) :=
  match List.filter (hq_is "TOTAL") df with
  | [] => Throws pd.IndexError
  | total_row :: _ =>
      match mapM (λ r,
                    total ← row_get total_row "vaccines_to_world";
                    x ← row_get r "vaccines_to_world";
                    share ← percent_of x total;
                    Some (r ++ [("share_of_global_vaccine_supply", share)]))
                 df with
      | Some df' => Yields df'
      | None => Beyond
      end
  end.

(** [set_index('manufacturer_hq')] on a row: its label and its other
    columns.  A label that is not a string is outside the model. *)
Definition set_index {other} (r : row other) : option (string * row other) :=
  x ← row_get r "manufacturer_hq";
  l ← text_of x;
  Some (l, List.filter (λ kv, negb (String.eqb kv.1 "manufacturer_hq")) r).

(** [reset_index()] on a row: the label becomes the first column. *)
Definition reset_index {other} (r : string * row other) : row other :=
  ("manufacturer_hq", Str r.1) :: r.2.

(** The columns of the frame when it is put in order, without the
    label. *)
Definition value_columns : list string :=
  ["vaccines_to_world"; "vaccines_to_africa"; "share_of_production_to_africa";
   "share_of_global_vaccine_supply"].

(** [reorder_rows_for_data_vis] on the frame of the pipeline: a
    continent without a row gets a row of missing values, [nan]. *)
Definition reorder_frame {other} (nan : other) (df : frame other)
  : outcome (frame other) :=
  match mapM (M := option) set_index df with
  | None => Beyond
  | Some indexed =>
      match reorder_rows_for_data_vis
              ((λ c, (c, Obj nan)) <$> value_columns) indexed with
      | Yields reordered => Yields (reset_index <$> reordered)
      | Throws e => Throws e
      | Beyond => Beyond
      end
  end.

(**
<<
    df['africa'] = np.where(
        df['manufacturer_hq'] == 'Africa', df['share_of_global_vaccine_supply'], 0
    )
    df['non_africa'] = np.where(
        df['manufacturer_hq'] != 'Africa', df['share_of_global_vaccine_supply'], 0
    )
>>
    [zero] is the cell that [np.where] makes of [0]. *)
Definition add_new_columns_for_flourish {other} (zero : cell other)
    (df : frame other) : outcome (frame other) :=
  match mapM (λ r,
                share ← row_get r "share_of_global_vaccine_supply";
                Some (r ++ [("africa", if hq_is "Africa" r then share else zero);
                            ("non_africa",
                             if negb (hq_is "Africa" r) then share else zero)]))
             df with
  | Some df' => Yields df'
  | None => Throws pd.KeyError
  end.

(**
<<
    vaccine_supply = get_data_table(df=df, table_name=table_name).pipe(set_column_names)
    vaccine_supply = add_share_of_global_vaccine_supply_column(vaccine_supply).loc[
        lambda d: d.manufacturer_hq != 'TOTAL'
    ]
    vaccine_supply = reorder_rows_for_data_vis(vaccine_supply).pipe(
        add_new_columns_for_flourish
    )
>>
*)
Definition vaccine_supply_pipeline {other}
    (percent_of : cell other → cell other → option (cell other))
    (nan : other) (zero : cell other)
    (df : grid (cell other)) (table_name : string) : outcome (frame other) :=
  vaccine_supply ← named_table df table_name;
  vaccine_supply ←
    add_share_of_global_vaccine_supply_column percent_of vaccine_supply;
  vaccine_supply ←
    reorder_frame nan (List.filter (λ r, negb (hq_is "TOTAL" r)) vaccine_supply);
  add_new_columns_for_flourish zero vaccine_supply.

Section Script.
Context {float : Type} {floats : Floats float}.
(** [config.Paths.output / 'key_numbers.json'] *)
Context (key_numbers_json : string).

(** The dictionary of [supply_key_numbers]. *)
Definition key_numbers (df : list (supply_row float)) : pydict :=
  let to_world (hq : string) :=
    fsum (vaccines_to_world <$> filter (λ r, manufacturer_hq r = hq) df) in
  let afr_to_world := to_world "Africa" in
  let asia_to_world := to_world "Asia" in
  let na_to_world := to_world "North America" in
  let eur_to_world := to_world "Europe" in
  let world := fsum (vaccines_to_world <$> df) in
  let afr_prod_share := fdiv afr_to_world world in
  let asia_prod_share := fdiv asia_to_world world in
  let na_prod_share := fdiv na_to_world world in
  let eur_prod_share := fdiv eur_to_world world in
  let world_to_afr := fdiv (fsum (vaccines_to_africa <$> df)) world in
  let afr_imported :=
    fdiv (fsum (vaccines_to_africa
                  <$> filter (λ r, manufacturer_hq r ≠ "Africa") df))
         (fsum (vaccines_to_africa <$> df)) in
  let million := float_of_Z 1000000 in
  [ ("africa_vaccine_production_value",
     JStr (format ",.1f" (fdiv afr_to_world million) +:+ " million"));
    ("africa_vaccine_production_share", JStr (format ".2%" afr_prod_share));
    ("asia_vaccine_production_share", JStr (format ".1%" asia_prod_share));
    ("na_vaccine_production_share", JStr (format ".1%" na_prod_share));
    ("eur_vaccine_production_share", JStr (format ".1%" eur_prod_share));
    ("fold_increase_required_to_target",
     JStr (format ",.0f" (fdiv (float_of_Z 1500) (fdiv afr_to_world million))));
    ("share_of_global_vaccines_delivered_to_africa",
     JStr (format ".1%" world_to_afr));
    ("share_of_vaccines_to_africa_imported", JStr (format ".1%" afr_imported));
    ("share_of_vaccines_to_africa_produced_by_africa",
     JStr (format ".1%" (fsub (float_of_Z 1) afr_imported))) ].

(** [supply_key_numbers] on a frame whose columns of doses hold
    floats, which [astype(float)] leaves as they are. *)
Definition supply_key_numbers (df : list (supply_row float)) : script :=
  call_update_key_number key_numbers_json (key_numbers df).
End Script.
End who_mi4a_data.

(** A row without the two columns of the chart. *)
Definition no_chart_columns {other} (r : row other) : Prop :=
  row_get r "africa" = None ∧ row_get r "non_africa" = None.

(** What a row of the chart holds for the continent [l]: its label,
    its share, and the share in one of the two columns of the chart
    and [zero] in the other. *)
Definition chart_row {other} (zero : cell other) (r : row other) (l : string)
  : Prop :=
  row_get r "manufacturer_hq" = Some (Str l) ∧
  ∃ share,
    row_get r "share_of_global_vaccine_supply" = Some share ∧
    row_get r "africa" = Some (if String.eqb l "Africa" then share else zero) ∧
    row_get r "non_africa" = Some (if String.eqb l "Africa" then zero else share).

(** ** Example data of the scripts *)

(** Integers in the place of floats, for the examples: [format] prints
    the integer and then the specification. *)
Definition example_floats : Floats Z :=
  {| format := λ spec x, int_repr x +:+ ":" +:+ spec;
     fsum := foldr Z.add 0%Z;
     fadd := Z.add;
     fsub := Z.sub;
     fdiv := Z.div;
     fillna := λ _ x, x;
     float_of_Z := id;
     nan := 0%Z |}.

(** The doses that the continents need in three years, as
    [pivot_by_continent] returns them. *)
Definition demand_by_continent : vaccine_demand.frame Z :=
  {| vaccine_demand.year := [2023; 2024; 2030]%Z;
     vaccine_demand.columns :=
       [("Africa", [180; 185; 240]%Z); ("America", [150; 150; 150]%Z);
        ("Asia", [500; 500; 440]%Z); ("Europe", [100; 100; 100]%Z);
        ("Oceania", [20; 15; 20]%Z); ("global_stockpile", [50; 50; 50]%Z)] |}.

(** A frame that the pipeline exports. *)
Definition exported_demand : vaccine_demand.frame Z :=
  {| vaccine_demand.year := [2023; 2024; 2030]%Z;
     vaccine_demand.columns :=
       [("Africa_share_measured", [180; 185; 0]%Z);
        ("Africa_share_projected", [0; 185; 240]%Z)] |}.

(** The same without the stockpile. *)
Definition demand_without_stockpile : vaccine_demand.frame Z :=
  {| vaccine_demand.year := [2023; 2024; 2030]%Z;
     vaccine_demand.columns :=
       [("Africa", [180; 185; 240]%Z); ("America", [150; 150; 150]%Z);
        ("Asia", [500; 500; 440]%Z); ("Europe", [100; 100; 100]%Z);
        ("Oceania", [20; 15; 20]%Z)] |}.

(** An exported frame without a row for 2030. *)
Definition export_without_2030 : vaccine_demand.frame Z :=
  {| vaccine_demand.year := [2023; 2024]%Z;
     vaccine_demand.columns :=
       [("Africa_share_measured", [180; 185]%Z);
        ("Africa_share_projected", [0; 185]%Z)] |}.

(** The doses of three continents. *)
Definition supply_by_continent : list (who_mi4a_data.supply_row Z) :=
  [ who_mi4a_data.Build_supply_row "Africa" 12%Z 12%Z;
    who_mi4a_data.Build_supply_row "Asia" 7300%Z 900%Z;
    who_mi4a_data.Build_supply_row "Europe" 2100%Z 300%Z ].

(** A sheet of 44 rows and 6 columns whose cell in row [i] and column
    [j] holds [10 * i + j]. *)
Definition numbered_sheet : grid nat :=
  {| width := 6;
     rows := (λ i, (λ j, 10 * i + j) <$> seq 0 6) <$> seq 0 44 |}.

(** A table of the continents with its total. *)
Definition continents : list (string * Z) :=
  [("Asia", 7300%Z); ("Europe", 2100%Z); ("Africa", 12%Z); ("TOTAL", 9412%Z)].

(** Rows of the demand data: the country and the required supply. *)
Definition demand_rows : list (string * nat) :=
  [("India: Bihar", 5); ("CAR", 1); ("Global Stockpile", 2); ("Kenya", 3)].

(** A converter that knows two countries. *)
Definition two_countries (name : string) : cell unit :=
  if String.eqb name "India" then Str "IND"
  else if String.eqb name "Kenya" then Str "KEN"
  else Obj tt.

(** A sheet of six columns and no row. *)
Definition empty_sheet : grid (cell Z) := {| width := 6; rows := [] |}.

(** A sheet whose rows 18 to 24 are the table of the continents, with
    its total in the last of them; the other rows are blank. *)
Definition continent_sheet : grid (cell Z) :=
  let blank := replicate 6 (Obj 0%Z) in
  let line (hq : string) (world africa : Z) :=
    [Obj 0%Z; Obj 0%Z; Str hq; Obj world; Obj africa; Obj 0%Z] in
  {| width := 6;
     rows := replicate 18 blank
             ++ [ line "Asia" 7300%Z 900%Z; line "Europe" 2100%Z 300%Z;
                  line "North America" 0%Z 0%Z; line "Africa" 500%Z 12%Z;
                  line "Oceania" 0%Z 0%Z; line "South America" 0%Z 0%Z;
                  line "TOTAL" 9900%Z 1212%Z ]
             ++ replicate 19 blank |}.

(** [x * 100 / total] on integers, for the examples. *)
Definition percent_of_Z (x total : cell Z) : option (cell Z) :=
  match x, total with
  | Obj a, Obj b => Some (Obj (a * 100 / b)%Z)
  | _, _ => None
  end.

(** * Properties of the codec *)

(** ** Texts *)

Lemma append_assoc (a b c : string) : (a +:+ b) +:+ c = a +:+ (b +:+ c).
Proof. induction a as [|x a IH]; simpl; [done | by rewrite IH]. Qed.

Lemma append_nil_r (a : string) : a +:+ "" = a.
Proof. induction a as [|x a IH]; simpl; [done | by rewrite IH]. Qed.

Lemma length_append (a b : string) :
  String.length (a +:+ b) = String.length a + String.length b.
Proof. induction a as [|x a IH]; simpl; [done | by rewrite IH]. Qed.

Lemma skip_ws_all_ws (w s : string) :
  all_ws w = true → skip_ws (w +:+ s) = skip_ws s.
Proof.
  induction w as [|c w IH]; simpl; [done |].
  intros [Hc Hw]%andb_prop. rewrite Hc. by apply IH.
Qed.

Lemma all_ws_spaces (n : nat) : all_ws (repeat_string n " ") = true.
Proof. induction n as [|n IH]; simpl; [done | exact IH]. Qed.

Lemma all_ws_newline_indent (indent : option nat) (level : nat) :
  all_ws (newline_indent indent level) = true.
Proof.
  unfold newline_indent. destruct indent as [k|]; simpl; [| done].
  apply all_ws_spaces.
Qed.

Lemma skip_ws_length (s : string) : String.length (skip_ws s) ≤ String.length s.
Proof.
  induction s as [|c s IH]; simpl; [done |].
  destruct (is_ws c); simpl; lia.
Qed.

(** ** Strings: decoding an encoded string gives it back *)

Lemma prepend_parsed (c : ascii) (s rest : string) :
  prepend c (Parsed (s, rest)) = Parsed (String c s, rest).
Proof. done. Qed.

Lemma scanstring_escape_char (c : ascii) (rest : string) :
  scanstring (escape_char c +:+ rest) = prepend c (scanstring rest).
Proof.
  destruct c as [[] [] [] [] [] [] [] []]; reflexivity.
Qed.

Lemma scanstring_escape_ascii (s rest : string) :
  scanstring (escape_ascii s +:+ String dquote rest) = Parsed (s, rest).
Proof.
  induction s as [|c s IH]; simpl; [done |].
  by rewrite append_assoc, scanstring_escape_char, IH.
Qed.

Lemma encode_basestring_ascii_unfold (s rest : string) :
  encode_basestring_ascii s +:+ rest
  = String dquote (escape_ascii s +:+ String dquote rest).
Proof. unfold encode_basestring_ascii. simpl. by rewrite append_assoc. Qed.

(** ** Integers: decoding a printed integer gives it back *)

Lemma all_digits_string_of_uint (d : Decimal.uint) :
  all_digits (NilEmpty.string_of_uint d) = true.
Proof. induction d; simpl; done. Qed.

Lemma span_digits_append (ds rest : string) :
  all_digits ds = true → num_end rest = true →
  span_digits (ds +:+ rest) = (ds, rest).
Proof.
  intros Hds Hrest. induction ds as [|c ds IH]; simpl in *.
  - destruct rest as [|c rest]; simpl in *; [done |].
    destruct (is_digit c); [done | done].
  - apply andb_prop in Hds as [Hc Hds]. rewrite Hc, (IH Hds). done.
Qed.

Lemma num_end_no_frac_exp (rest : string) :
  num_end rest = true → has_frac rest || has_exp rest = false.
Proof.
  destruct rest as [|c rest]; [done |].
  unfold num_end, has_frac, has_exp.
  destruct c as [[] [] [] [] [] [] [] []]; simpl; try done;
    destruct rest as [|[[] [] [] [] [] [] [] []] ?]; done.
Qed.

Lemma pos_to_uint_normal (p : positive) :
  Decimal.nzhead (Pos.to_uint p) = Pos.to_uint p.
Proof.
  pose proof (DecimalPos.Unsigned.to_of (Pos.to_uint p)) as Hn.
  rewrite DecimalPos.Unsigned.of_to in Hn. simpl in Hn.
  assert (Decimal.nzhead (Pos.to_uint p) ≠ Decimal.Nil) as Hne.
  { intros Hz. apply (DecimalPos.Unsigned.to_uint_nonzero p).
    rewrite Hn. by apply DecimalFacts.unorm_0. }
  rewrite <- (DecimalFacts.unorm_nzhead _ Hne). by symmetry.
Qed.

(** The digits of a positive number: no leading zero. *)
Lemma match_integer_pos (p : positive) (rest : string) :
  num_end rest = true →
  match_integer (NilZero.string_of_uint (Pos.to_uint p) +:+ rest)
  = Some (NilZero.string_of_uint (Pos.to_uint p), rest).
Proof.
  intros Hrest.
  pose proof (pos_to_uint_normal p) as Hn.
  pose proof (DecimalFacts.nzhead_nonzero (Pos.to_uint p)) as Hnz.
  pose proof (DecimalPos.Unsigned.to_uint_nonnil p) as Hnil.
  rewrite Hn in Hnz.
  destruct (Pos.to_uint p) as [|d|d|d|d|d|d|d|d|d|d] eqn:Hp;
    [done | by destruct (Hnz d) | ..];
    simpl; rewrite (span_digits_append _ _ (all_digits_string_of_uint d) Hrest);
    done.
Qed.

Lemma match_number_int_repr (z : Z) (rest : string) :
  num_end rest = true →
  match_number (int_repr z +:+ rest) = Some (int_repr z, false, rest).
Proof.
  intros Hrest. unfold int_repr, match_number.
  destruct z as [|p|p]; simpl.
  - by rewrite num_end_no_frac_exp.
  - pose proof (match_integer_pos p rest Hrest) as Hm.
    destruct (NilZero.string_of_uint (Pos.to_uint p) +:+ rest) as [|c t] eqn:Ht;
      [done |].
    assert (c ≠ "-"%char) as Hc.
    { intros ->. simpl in Hm. done. }
    destruct c as [[] [] [] [] [] [] [] []]; try done;
      rewrite Hm, num_end_no_frac_exp; done.
  - rewrite (match_integer_pos p rest Hrest), num_end_no_frac_exp; done.
Qed.

Lemma py_int_int_repr (z : Z) : py_int (int_repr z) = z.
Proof.
  unfold py_int, int_repr. rewrite NilZero.isi.
  - apply DecimalZ.of_to.
  - destruct z; simpl; [done | | done].
    intros [=H]. by apply (DecimalPos.Unsigned.to_uint_nonnil p).
  - destruct z; simpl; [done | done |].
    intros [=H]. by apply (DecimalPos.Unsigned.to_uint_nonnil p).
Qed.

(** The first character of a printed integer. *)
Lemma int_repr_head (z : Z) :
  ∃ c t, int_repr z = String c t ∧ (is_digit c || Ascii.eqb c "-") = true.
Proof.
  unfold int_repr. destruct z as [|p|p]; simpl.
  - by exists "0"%char, "".
  - pose proof (DecimalPos.Unsigned.to_uint_nonnil p) as Hnil.
    destruct (Pos.to_uint p); [done | ..]; simpl; eauto.
  - by eexists _, _.
Qed.

Lemma scan_atom_int_repr (z : Z) (rest : string) :
  num_end rest = true →
  scan_atom (int_repr z +:+ rest) = Parsed (JInt z, rest).
Proof.
  intros Hrest. unfold scan_atom.
  rewrite (match_number_int_repr z rest Hrest), py_int_int_repr.
  destruct (int_repr_head z) as (c & t & -> & Hc). simpl.
  destruct c as [[] [] [] [] [] [] [] []]; done.
Qed.

(** ** Values: decoding an encoded value gives it back *)

Lemma iterencode_head (indent : option nat) (level : nat) (o : json) :
  starts_value (iterencode indent level o).
Proof.
  unfold starts_value.
  destruct o as [|[]|z|s|[|x l]|[|kv l]]; simpl; try (by eexists _, _).
  destruct (int_repr_head z) as (c & t & -> & Hc). exists c, t. split; [done |].
  unfold value_start. destruct (is_digit c); [done |].
  simpl in Hc. by apply Ascii.eqb_eq in Hc as ->.
Qed.

Lemma skip_ws_starts_value (s rest : string) :
  starts_value s → skip_ws (s +:+ rest) = s +:+ rest.
Proof.
  intros (c & t & -> & Hc). simpl.
  destruct c as [[] [] [] [] [] [] [] []]; done.
Qed.

Lemma num_end_all_ws (w : string) (c : ascii) (rest : string) :
  all_ws w = true → num_end (String c rest) = true →
  num_end (w +:+ String c rest) = true.
Proof.
  destruct w as [|a w]; simpl; [done |].
  intros [Ha _]%andb_prop _.
  destruct a as [[] [] [] [] [] [] [] []]; done.
Qed.

Lemma size_pos (o : json) : 0 < size o.
Proof. destruct o; simpl; lia. Qed.

Lemma length_le_list_sum {A} (g : A → nat) (l : list A) :
  (∀ x, 0 < g x) → length l ≤ list_sum (map g l).
Proof.
  intros Hg. induction l as [|x l IH]; simpl; [done |].
  pose proof (Hg x). lia.
Qed.

Lemma elem_le_list_sum {A} (g : A → nat) (l : list A) (x : A) :
  x ∈ l → g x ≤ list_sum (map g l).
Proof.
  induction 1 as [|x y l _ IH]; simpl; lia.
Qed.

Lemma item_separator_eq (indent : option nat) (level : nat) :
  item_separator indent level = "," +:+ separator_ws indent level.
Proof. by destruct indent. Qed.

Lemma all_ws_separator_ws (indent : option nat) (level : nat) :
  all_ws (separator_ws indent level) = true.
Proof.
  destruct indent as [k|]; [| done]. apply all_ws_newline_indent.
Qed.

Lemma existsb_eqb_false (k : string) (l : list string) :
  existsb (String.eqb k) l = false ↔ k ∉ l.
Proof.
  induction l as [|k' l IH]; simpl.
  - split; [intros _; apply not_elem_of_nil | done].
  - rewrite orb_false_iff, IH, not_elem_of_cons, String.eqb_neq. done.
Qed.

Lemma nodupb_NoDup (l : list string) : nodupb l = true ↔ NoDup l.
Proof.
  induction l as [|k l IH]; simpl.
  - split; [intros _; constructor | done].
  - rewrite andb_true_iff, negb_true_iff, existsb_eqb_false, IH, NoDup_cons.
    done.
Qed.

Lemma dict_set_fresh (d : pydict) (k : string) (v : json) :
  k ∉ keys d → dict_set d k v = d ++ [(k, v)].
Proof.
  induction d as [|[k' v'] d IH]; simpl; [done |].
  intros [Hk Hd]%not_elem_of_cons.
  destruct (String.eqb_spec k' k) as [->|_]; [done |].
  by rewrite IH.
Qed.

Lemma fold_set_item_fresh (items acc : pydict) :
  NoDup (keys (acc ++ items)) → fold_left set_item items acc = acc ++ items.
Proof.
  revert acc. induction items as [|[k v] items IH]; intros acc Hnd; simpl.
  - by rewrite app_nil_r.
  - unfold set_item at 2. simpl. rewrite dict_set_fresh.
    + rewrite IH; rewrite <- app_assoc; done.
    + unfold keys in *. rewrite map_app in Hnd. simpl in Hnd.
      apply NoDup_app in Hnd as (_ & Hdisj & _).
      intros Hin. apply (Hdisj k Hin). left.
Qed.

Lemma join_two (sep c c' : string) (l : list string) :
  join sep (c :: c' :: l) = c +:+ sep +:+ join sep (c' :: l).
Proof. done. Qed.

Lemma join_one (sep c : string) : join sep [c] = c.
Proof. done. Qed.

#[local] Arguments join : simpl never.

Section Roundtrip.
Variable scan : string → decoded (json * string).
Variable enc : json → string.

Lemma array_items_join (w1 w2 : string) (items : list json) :
  all_ws w1 = true → all_ws w2 = true →
  items ≠ [] → Forall (reads_back scan enc) items →
  ∀ m acc rest, length items ≤ m →
    array_items scan m acc
      (join (String "," w1) (map enc items) +:+ w2 +:+ String "]" rest)
    = Parsed (JArr (acc ++ items), rest).
Proof.
  intros Hw1 Hw2 Hne Hall.
  induction Hall as [|x l [Hx Hscan] Hall IH]; [done |].
  intros m acc rest Hm. destruct m as [|m]; [simpl in Hm; lia |].
  destruct l as [|y l].
  - simpl. unfold join. rewrite Hscan by (by apply num_end_all_ws). simpl.
    rewrite skip_ws_all_ws by done. done.
  - rewrite map_cons, map_cons, join_two, <- map_cons.
    rewrite !append_assoc. simpl.
    rewrite Hscan by done. simpl.
    rewrite skip_ws_all_ws by done.
    assert (starts_value (join (String "," w1) (map enc (y :: l)))) as Hjoin.
    { apply Forall_cons in Hall as [[(c & t & Hy & Hc) _] _].
      destruct l; [unfold join; simpl | rewrite !map_cons, join_two];
        rewrite Hy; simpl; by eexists _, _. }
    rewrite skip_ws_starts_value by done.
    rewrite IH; [| done | simpl in *; lia].
    by rewrite <- app_assoc.
Qed.

Lemma encode_item_unfold (k : string) (v : json) (rest : string) :
  encode_item enc (k, v) +:+ rest
  = String dquote (escape_ascii k +:+ String dquote (String ":" (String " "
      (enc v +:+ rest)))).
Proof.
  unfold encode_item, key_separator, encode_basestring_ascii. simpl.
  rewrite !append_assoc. done.
Qed.

Lemma object_members_join (w1 w2 : string) (members : pydict) :
  all_ws w1 = true → all_ws w2 = true →
  members ≠ [] → Forall (λ kv, reads_back scan enc kv.2) members →
  ∀ m acc rest t, length members ≤ m →
    join (String "," w1) (map (encode_item enc) members) +:+ w2 +:+ String "}" rest
      = String dquote t →
    object_members scan m acc t
    = Parsed (JObj (fold_left set_item members acc), rest).
Proof.
  intros Hw1 Hw2 Hne Hall.
  induction Hall as [|[k v] l [Hx Hscan] Hall IH]; [done |].
  intros m acc rest t Hm Ht. destruct m as [|m]; [simpl in Hm; lia |].
  simpl in Hx, Hscan.
  destruct l as [|[k' v'] l].
  - change (map (encode_item enc) [(k, v)]) with [encode_item enc (k, v)] in Ht.
    rewrite join_one, encode_item_unfold in Ht. injection Ht as <-.
    simpl. rewrite scanstring_escape_ascii. simpl.
    rewrite skip_ws_starts_value by done.
    rewrite Hscan by (by apply num_end_all_ws). simpl.
    rewrite skip_ws_all_ws by done. done.
  - rewrite map_cons, map_cons, join_two, <- map_cons in Ht.
    rewrite !append_assoc in Ht.
    assert (∃ t', join (String "," w1) (map (encode_item enc) ((k', v') :: l))
                  +:+ w2 +:+ String "}" rest = String dquote t') as [t' Ht'].
    { destruct l as [|kv l];
        [change (map (encode_item enc) [(k', v')]) with [encode_item enc (k', v')];
         rewrite join_one
        | rewrite !map_cons, join_two, !append_assoc];
        rewrite encode_item_unfold; by eexists. }
    rewrite Ht', encode_item_unfold in Ht. injection Ht as <-.
    simpl. rewrite scanstring_escape_ascii. simpl.
    rewrite skip_ws_starts_value by done.
    rewrite Hscan by done. simpl.
    rewrite skip_ws_all_ws by done. simpl.
    apply (IH ltac:(done) m _ rest); [simpl in *; lia | done].
Qed.
End Roundtrip.

Lemma starts_value_append (s rest : string) :
  starts_value s → starts_value (s +:+ rest).
Proof. intros (c & t & -> & Hc). by exists c, (t +:+ rest). Qed.

Lemma starts_value_join (sep : string) (enc : json → string) (items : list json) :
  items ≠ [] → Forall (λ x, starts_value (enc x)) items →
  starts_value (join sep (map enc items)).
Proof.
  intros Hne Hall. destruct Hall as [|x l Hx Hall]; [done |].
  destruct l as [|y l].
  - by rewrite map_cons, join_one.
  - rewrite !map_cons, join_two. by apply starts_value_append.
Qed.

Lemma JSONArray_items scan (n : nat) (w s : string) :
  all_ws w = true → starts_value s →
  JSONArray scan n (w +:+ s) = array_items scan n [] s.
Proof.
  intros Hw Hs. unfold JSONArray.
  rewrite skip_ws_all_ws, <- (append_nil_r s), skip_ws_starts_value by done.
  rewrite append_nil_r. destruct Hs as (c & t & -> & Hc).
  destruct c as [[] [] [] [] [] [] [] []]; done.
Qed.

Lemma JSONObject_members scan (n : nat) (w t : string) :
  all_ws w = true →
  JSONObject scan n (w +:+ String dquote t) = object_members scan n [] t.
Proof. intros Hw. unfold JSONObject. by rewrite skip_ws_all_ws. Qed.

Lemma iterencode_arr (indent : option nat) (level : nat) (items : list json) :
  items ≠ [] →
  iterencode indent level (JArr items)
  = String "[" (newline_indent indent (S level)
      +:+ join (item_separator indent (S level))
            (map (iterencode indent (S level)) items)
      +:+ newline_indent indent level +:+ "]").
Proof. by destruct items. Qed.

Lemma iterencode_obj (indent : option nat) (level : nat) (members : pydict) :
  members ≠ [] →
  iterencode indent level (JObj members)
  = String "{" (newline_indent indent (S level)
      +:+ join (item_separator indent (S level))
            (map (encode_item (iterencode indent (S level))) members)
      +:+ newline_indent indent level +:+ "}").
Proof. by destruct members. Qed.

Lemma json_wf_arr (items : list json) :
  json_wf (JArr items) = true ↔ Forall (λ x, json_wf x = true) items.
Proof.
  simpl. rewrite forallb_forall, Forall_forall.
  split; intros H x Hx; apply H; by apply list_elem_of_In.
Qed.

Lemma json_wf_obj (members : pydict) :
  json_wf (JObj members) = true
  ↔ NoDup (keys members) ∧ Forall (λ kv, json_wf kv.2 = true) members.
Proof.
  simpl. rewrite andb_true_iff, nodupb_NoDup, forallb_forall, Forall_forall.
  split; intros [Hnd H]; (split; [done |]); intros x Hx; apply H;
    by apply list_elem_of_In.
Qed.

(** The scanner reads back every encoded well-formed value, for both
    layouts of [json.dump]. *)
Lemma scan_once_iterencode (indent : option nat) (o : json) :
  json_wf o = true →
  ∀ n level rest, size o < n → num_end rest = true →
    scan_once n (iterencode indent level o +:+ rest) = Parsed (o, rest).
Proof.
  induction o as [|b|z|s|items IH|members IH] using json_ind;
    intros Hwf n level rest Hn Hrest; (destruct n as [|n]; [lia |]).
  - done.
  - by destruct b.
  - simpl. destruct (int_repr_head z) as (c & t & Hz & Hc).
    pose proof (scan_atom_int_repr z rest Hrest) as Hscan.
    rewrite Hz in *. simpl in *.
    destruct c as [[] [] [] [] [] [] [] []]; done.
  - simpl. rewrite append_assoc. simpl. by rewrite scanstring_escape_ascii.
  - destruct (decide (items = [])) as [->|Hne]; [done |].
    rewrite iterencode_arr, item_separator_eq by done. simpl.
    apply json_wf_arr in Hwf.
    rewrite !append_assoc, JSONArray_items;
      [| apply all_ws_newline_indent
       | apply starts_value_append, starts_value_join; [done |];
         apply Forall_forall; intros; apply iterencode_head].
    apply (array_items_join _ _ _ _ items);
      [apply all_ws_separator_ws | apply all_ws_newline_indent | done | |].
    + apply Forall_forall. intros x Hx.
      rewrite Forall_forall in IH, Hwf.
      split; [apply iterencode_head |]. intros rest' Hrest'.
      apply IH; [done | by apply Hwf | | done].
      pose proof (elem_le_list_sum size items x Hx). simpl in Hn. lia.
    + pose proof (length_le_list_sum size items size_pos). simpl in Hn. lia.
  - destruct (decide (members = [])) as [->|Hne]; [done |].
    rewrite iterencode_obj, item_separator_eq by done. simpl.
    apply json_wf_obj in Hwf as [Hnd Hwf].
    assert (∃ t, join (String "," (separator_ws indent (S level)))
                   (map (encode_item (iterencode indent (S level))) members)
                 +:+ newline_indent indent level +:+ String "}" rest
                 = String dquote t) as [t Ht].
    { destruct members as [|[k v] [|kv l]]; [done | ..].
      - change (map ?f [(k, v)]) with [f (k, v)].
        rewrite join_one, encode_item_unfold. by eexists.
      - rewrite !map_cons, join_two, !append_assoc, encode_item_unfold.
        by eexists. }
    rewrite !append_assoc. simpl. rewrite Ht.
    rewrite JSONObject_members by apply all_ws_newline_indent.
    assert (Forall (λ kv, reads_back (scan_once n)
                            (iterencode indent (S level)) kv.2) members) as Hrb.
    { apply Forall_forall. intros [k v] Hx.
      rewrite Forall_forall in IH, Hwf.
      split; [apply iterencode_head |]. intros rest' Hrest'.
      apply (IH (k, v)); [done | by apply (Hwf (k, v)) | | done].
      pose proof (elem_le_list_sum (λ kv, size kv.2) members (k, v) Hx).
      simpl in *. lia. }
    rewrite (object_members_join _ _ _ _ members
               (all_ws_separator_ws indent (S level))
               (all_ws_newline_indent indent level)
               Hne Hrb n [] rest t);
      [by rewrite fold_set_item_fresh | | by apply Ht].
    pose proof (length_le_list_sum (λ kv, size kv.2) members
                  (λ kv, size_pos kv.2)).
    simpl in Hn. lia.
Qed.

(** The encoding of a value is at least as long as the scanner needs
    steps to read it. *)
Lemma list_sum_le_length_join {A} (g : A → nat) (enc : A → string)
    (sep : string) (l : list A) :
  Forall (λ x, g x ≤ String.length (enc x)) l →
  list_sum (map g l) ≤ String.length (join sep (map enc l)).
Proof.
  induction 1 as [|x l Hx Hall IH]; [done |].
  destruct l as [|y l].
  - change (map enc [x]) with [enc x]. rewrite join_one. simpl. lia.
  - rewrite (map_cons enc), (map_cons enc), join_two, <- (map_cons enc).
    rewrite !length_append. simpl in *. lia.
Qed.

Lemma size_le_length (indent : option nat) (o : json) (level : nat) :
  size o ≤ String.length (iterencode indent level o).
Proof.
  revert level.
  induction o as [|b|z|s|items IH|members IH] using json_ind; intros level.
  - simpl. lia.
  - destruct b; simpl; lia.
  - simpl. destruct (int_repr_head z) as (c & t & -> & _). simpl. lia.
  - simpl. lia.
  - destruct (decide (items = [])) as [->|Hne]; [simpl; lia |].
    rewrite iterencode_arr by done.
    pose proof (list_sum_le_length_join size (iterencode indent (S level))
                  (item_separator indent (S level)) items) as Hsum.
    simpl. rewrite !length_append.
    assert (list_sum (map size items)
            ≤ String.length (join (item_separator indent (S level))
                               (map (iterencode indent (S level)) items))); [| lia].
    apply Hsum. eapply Forall_impl; [exact IH |]. intros x Hx. apply Hx.
  - destruct (decide (members = [])) as [->|Hne]; [simpl; lia |].
    rewrite iterencode_obj by done.
    pose proof (list_sum_le_length_join (λ kv, size kv.2)
                  (encode_item (iterencode indent (S level)))
                  (item_separator indent (S level)) members) as Hsum.
    simpl. rewrite !length_append.
    assert (list_sum (map (λ kv, size kv.2) members)
            ≤ String.length (join (item_separator indent (S level))
                (map (encode_item (iterencode indent (S level))) members)));
      [| lia].
    apply Hsum. eapply Forall_impl; [exact IH |]. intros [k v] Hx.
    unfold encode_item. rewrite !length_append. simpl.
    specialize (Hx (S level)). simpl in Hx. lia.
Qed.

(** Round trip: what [json.dump] writes, [json.load] reads back. *)
Theorem json_loads_dumps (indent : option nat) (o : json) :
  json_wf o = true → json_loads (json_dumps indent o) = Parsed o.
Proof.
  intros Hwf. unfold json_loads, decode, json_dumps.
  pose proof (scan_once_iterencode indent o Hwf
                (S (String.length (iterencode indent 0 o))) 0 "") as Hscan.
  rewrite append_nil_r in Hscan.
  pose proof (skip_ws_starts_value _ "" (iterencode_head indent 0 o)) as Hws.
  rewrite append_nil_r in Hws. rewrite Hws, Hscan; [done | | done].
  pose proof (size_le_length indent o 0). lia.
Qed.

(** ** Decoded values are well formed *)

Lemma keys_dict_set (d : pydict) (k : string) (v : json) :
  keys (dict_set d k v) = if decide (k ∈ keys d) then keys d else keys d ++ [k].
Proof.
  induction d as [|[k' v'] d IH]; simpl; [done |].
  destruct (String.eqb_spec k' k) as [->|Hne]; simpl.
  - rewrite decide_True; [done | left].
  - rewrite IH. destruct (decide (k ∈ keys d)) as [Hin|Hnin].
    + rewrite decide_True; [done | by right].
    + rewrite decide_False; [done |].
      intros [?|?]%elem_of_cons; [by subst | done].
Qed.

Lemma NoDup_keys_dict_set (d : pydict) (k : string) (v : json) :
  NoDup (keys d) → NoDup (keys (dict_set d k v)).
Proof.
  intros Hnd. rewrite keys_dict_set. case_decide; [done |].
  apply NoDup_app. split_and!; [done | | apply NoDup_singleton].
  intros x Hx ->%list_elem_of_singleton. done.
Qed.

Lemma elem_of_dict_set (d : pydict) (k : string) (v : json) kv :
  kv ∈ dict_set d k v → kv ∈ d ∨ kv.2 = v.
Proof.
  induction d as [|[k' v'] d IH]; simpl.
  - intros ->%list_elem_of_singleton. by right.
  - destruct (String.eqb k' k).
    + intros [->|?]%elem_of_cons; [by right | left; by right].
    + intros [->|?]%elem_of_cons; [left; left |].
      destruct IH as [?|?]; [done | left; by right | by right].
Qed.

Lemma dict_set_wf (d : pydict) (k : string) (v : json) :
  dict_wf d = true → json_wf v = true → dict_wf (dict_set d k v) = true.
Proof.
  unfold dict_wf. rewrite !json_wf_obj. intros [Hnd Hall] Hv. split.
  - by apply NoDup_keys_dict_set.
  - apply Forall_forall. intros kv [Hin| ->]%elem_of_dict_set; [| done].
    rewrite Forall_forall in Hall. by apply Hall.
Qed.

Lemma object_members_wf scan (n : nat) :
  yields_wf scan →
  ∀ acc, dict_wf acc = true → yields_wf (object_members scan n acc).
Proof.
  intros Hscan. induction n as [|n IH]; intros acc Hacc s o r; simpl; [done |].
  unfold mbind, decoded_bind.
  repeat case_match; try done; subst.
  - intros [= <- <-]. apply dict_set_wf; [done | by eapply Hscan].
  - apply IH, dict_set_wf; [done | by eapply Hscan].
Qed.

Lemma array_items_wf scan (n : nat) :
  yields_wf scan →
  ∀ acc, json_wf (JArr acc) = true → yields_wf (array_items scan n acc).
Proof.
  intros Hscan. induction n as [|n IH]; intros acc Hacc s o r; simpl; [done |].
  unfold mbind, decoded_bind.
  assert (∀ v, json_wf v = true → json_wf (JArr (acc ++ [v])) = true) as Happ.
  { intros v Hv. apply json_wf_arr, Forall_app. split; [by apply json_wf_arr |].
    by apply Forall_singleton. }
  repeat case_match; try done; subst.
  - intros [= <- <-]. apply Happ. by eapply Hscan.
  - apply IH, Happ. by eapply Hscan.
Qed.

Lemma scan_atom_wf : yields_wf scan_atom.
Proof.
  intros s o r. unfold scan_atom.
  repeat case_match; try done; by intros [= <- <-].
Qed.

Lemma scan_once_wf (n : nat) : yields_wf (scan_once n).
Proof.
  induction n as [|n IH]; intros s o r; simpl; [done |].
  destruct s as [|c s]; [apply scan_atom_wf |].
  assert (c = "034"%char ∨ c = "{"%char ∨ c = "["%char ∨
          scan_once (S n) (String c s) = scan_atom (String c s)) as Hc.
  { destruct c as [[] [] [] [] [] [] [] []]; auto. }
  destruct Hc as [-> | [-> | [-> | Hc]]].
  - unfold mbind, decoded_bind. repeat case_match; try done.
    by intros [= <- <-].
  - unfold JSONObject. repeat case_match; try done.
    + by intros [= <- <-].
    + by apply object_members_wf.
  - unfold JSONArray.
    destruct (skip_ws s) as [|c' s'] eqn:Hs; [by apply array_items_wf |].
    repeat case_match; try (by apply array_items_wf).
    by intros [= <- <-].
  - simpl in Hc. rewrite Hc. apply scan_atom_wf.
Qed.

Theorem json_loads_wf (s : string) (o : json) :
  json_loads s = Parsed o → json_wf o = true.
Proof.
  unfold json_loads, decode, mbind, decoded_bind.
  destruct (scan_once _ _) as [[o' r]| |] eqn:Hscan; [| done | done].
  destruct (skip_ws r); [| done]. intros [= <-]. by eapply scan_once_wf.
Qed.

(** ** The bound of the scanner is immaterial

    The scanner recurses on a number [n]; every call consumes at least
    one character, so its result is the same for every [n] above the
    length of the text. *)

Lemma prepend_inv (c : ascii) m (x r : string) :
  prepend c m = Parsed (x, r) → ∃ x', m = Parsed (x', r).
Proof.
  unfold prepend, mbind, decoded_bind. destruct m as [[x' r']| |]; [| done..].
  intros [= _ <-]. by exists x'.
Qed.

Lemma scanstring_consumes : consumes scanstring.
Proof.
  assert (∀ n s, String.length s < n → ∀ x r,
            scanstring s = Parsed (x, r) → String.length r < String.length s)
    as H; [| intros s x r; apply (H (S (String.length s))); lia].
  induction n as [|n IH]; intros s Hn x r; [lia |].
  destruct s as [|c s1]; [done |]. simpl in Hn |- *.
  destruct (Ascii.eqb c dquote); [intros [= _ <-]; lia |].
  destruct (Ascii.eqb c backslash).
  - destruct s1 as [|e s2]; [done |].
    destruct (decide (e = "u"%char)) as [->|Hu].
    + destruct s2 as [|h1 [|h2 [|h3 [|h4 s3]]]]; try done.
      destruct (decode_uXXXX h1 h2 h3 h4); [| done].
      case_match; [| done].
      intros [x' Hx']%prepend_inv. apply IH in Hx'; simpl in *; lia.
    + assert (scanstring (String "\" (String e s2)) =
              match BACKSLASH e with
              | Some ch => prepend ch (scanstring s2)
              | None => DecodeError
              end) as Heq.
      { destruct e as [[] [] [] [] [] [] [] []]; done. }
      simpl in Heq. rewrite Heq. destruct (BACKSLASH e); [| done].
      intros [x' Hx']%prepend_inv. apply IH in Hx'; simpl in *; lia.
  - destruct (nat_of_ascii c <? 32); [done |].
    intros [x' Hx']%prepend_inv. apply IH in Hx'; lia.
Qed.

Lemma strip_prefix_length (p s r : string) :
  strip_prefix p s = Some r →
  String.length s = String.length p + String.length r.
Proof.
  revert s. induction p as [|a p IH]; intros [|b s]; simpl; try done.
  - by intros [= <-].
  - by intros [= <-].
  - destruct (Ascii.eqb a b); [| done]. intros ->%IH. done.
Qed.

Lemma span_digits_length (s ds r : string) :
  span_digits s = (ds, r) →
  String.length s = String.length ds + String.length r.
Proof.
  revert ds r. induction s as [|c s IH]; intros ds r; simpl.
  - by intros [= <- <-].
  - destruct (is_digit c); [| by intros [= <- <-]].
    destruct (span_digits s) as [ds' r'] eqn:Hs. intros [= <- <-].
    rewrite (IH ds' r' eq_refl). done.
Qed.

Lemma match_integer_length (s i r : string) :
  match_integer s = Some (i, r) → String.length r < String.length s.
Proof.
  destruct s as [|c s]; [done |].
  assert (match_integer (String c s) = Some ("0", s) ∨
          match_integer (String c s) =
            if is_digit c then let (ds, r) := span_digits s in Some (String c ds, r)
            else None) as [-> | ->].
  { destruct c as [[] [] [] [] [] [] [] []]; auto. }
  - intros [= _ <-]. simpl. lia.
  - destruct (is_digit c); [| done].
    destruct (span_digits s) as [ds r'] eqn:Hs. intros [= _ <-].
    apply span_digits_length in Hs. simpl. lia.
Qed.

Lemma match_number_length (s i r : string) (b : bool) :
  match_number s = Some (i, b, r) → String.length r < String.length s.
Proof.
  unfold match_number. destruct s as [|c s]; [done |].
  assert (c = "-"%char ∨
          match_number (String c s) =
            match match_integer (String c s) with
            | Some (i, r) => Some (i, has_frac r || has_exp r, r)
            | None => None
            end) as [-> | Hc].
  { destruct c as [[] [] [] [] [] [] [] []]; auto. }
  - destruct (match_integer s) as [[i' r']|] eqn:Hs; [| done].
    intros [= _ _ <-]. apply match_integer_length in Hs. simpl. lia.
  - unfold match_number in Hc. rewrite Hc.
    destruct (match_integer (String c s)) as [[i' r']|] eqn:Hs; [| done].
    intros [= _ _ <-]. by apply match_integer_length in Hs.
Qed.

Lemma scan_atom_consumes : consumes scan_atom.
Proof.
  intros s o r. unfold scan_atom.
  destruct (strip_prefix "null" s) as [r1|] eqn:H1.
  { intros [= _ <-]. apply strip_prefix_length in H1. simpl in H1. lia. }
  destruct (strip_prefix "true" s) as [r2|] eqn:H2.
  { intros [= _ <-]. apply strip_prefix_length in H2. simpl in H2. lia. }
  destruct (strip_prefix "false" s) as [r3|] eqn:H3.
  { intros [= _ <-]. apply strip_prefix_length in H3. simpl in H3. lia. }
  destruct (match_number s) as [[[i b] r4]|] eqn:H4.
  - destruct b; [done |]. intros [= _ <-]. by apply match_number_length in H4.
  - repeat case_match; done.
Qed.

Lemma object_members_consumes scan (n : nat) (acc : pydict) :
  consumes scan → consumes (object_members scan n acc).
Proof.
  intros Hscan. revert acc.
  induction n as [|n IH]; intros acc s o r; simpl; [done |].
  unfold mbind, decoded_bind.
  destruct (scanstring s) as [[key s1]| |] eqn:Hkey; [| done..].
  apply scanstring_consumes in Hkey.
  pose proof (skip_ws_length s1) as Hs1.
  destruct (skip_ws s1) as [|c1 s2]; [done |].
  pose proof (skip_ws_length s2) as Hs2.
  destruct (scan (skip_ws s2)) as [[value s3]| |] eqn:Hval;
    [| repeat case_match; done..].
  apply Hscan in Hval.
  pose proof (skip_ws_length s3) as Hs3.
  destruct (skip_ws s3) as [|c3 s4]; [repeat case_match; done |].
  pose proof (skip_ws_length s4) as Hs4.
  destruct (skip_ws s4) as [|c4 s5].
  - repeat case_match; try done; intros [= _ <-]; simpl in *; lia.
  - repeat case_match; try done;
      first [ intros [= _ <-]; simpl in *; lia | intros Hrec%IH; simpl in *; lia ].
Qed.

Lemma array_items_consumes scan (n : nat) (acc : list json) :
  consumes scan → consumes (array_items scan n acc).
Proof.
  intros Hscan. revert acc.
  induction n as [|n IH]; intros acc s o r; simpl; [done |].
  unfold mbind, decoded_bind.
  destruct (scan s) as [[value s1]| |] eqn:Hval; [| done..].
  apply Hscan in Hval.
  pose proof (skip_ws_length s1) as Hs1.
  destruct (skip_ws s1) as [|c1 s2]; [done |].
  pose proof (skip_ws_length s2) as Hs2.
  repeat case_match; try done;
    first [ intros [= _ <-]; simpl in *; lia | intros Hrec%IH; simpl in *; lia ].
Qed.

(** The first character decides which branch [scan_once] takes. *)
Lemma scan_once_cases (c : ascii) (s : string) :
  (c = "034"%char ∧ ∀ n,
     scan_once (S n) (String c s) = '(str, r) ← scanstring s; Parsed (JStr str, r)) ∨
  (c = "{"%char ∧ ∀ n,
     scan_once (S n) (String c s) = JSONObject (scan_once n) n s) ∨
  (c = "["%char ∧ ∀ n,
     scan_once (S n) (String c s) = JSONArray (scan_once n) n s) ∨
  (∀ n, scan_once (S n) (String c s) = scan_atom (String c s)).
Proof.
  destruct c as [[] [] [] [] [] [] [] []]; auto.
Qed.

Lemma scan_once_consumes (n : nat) : consumes (scan_once n).
Proof.
  induction n as [|n IH]; intros s o r; [done |].
  destruct s as [|c s]; [apply scan_atom_consumes |].
  destruct (scan_once_cases c s) as [[-> H] | [[-> H] | [[-> H] | H]]];
    rewrite H; clear H.
  - unfold mbind, decoded_bind.
    destruct (scanstring s) as [[str r']| |] eqn:Hs; [| done..].
    intros [= _ <-]. apply scanstring_consumes in Hs. simpl. lia.
  - unfold JSONObject. pose proof (skip_ws_length s) as Hs.
    destruct (skip_ws s) as [|c1 s1]; [done |].
    repeat case_match; try done;
      first [ intros [= _ <-]; simpl in *; lia
            | intros Hrec%object_members_consumes; [simpl in *; lia | done] ].
  - unfold JSONArray. pose proof (skip_ws_length s) as Hs.
    destruct (skip_ws s) as [|c1 s1] eqn:Hskip.
    + intros Hrec%array_items_consumes; [simpl in *; lia | done].
    + repeat case_match; try (intros [= _ <-]; simpl in *; lia);
        intros Hrec%array_items_consumes; simpl in *; (lia || done).
  - apply scan_atom_consumes.
Qed.

Lemma object_members_fuel scanA scanB :
  consumes scanA →
  ∀ a b acc t,
    String.length t < a → String.length t < b →
    (∀ s', String.length s' < String.length t → scanA s' = scanB s') →
    object_members scanA a acc t = object_members scanB b acc t.
Proof.
  intros HA. induction a as [|a IH]; intros b acc t Ha Hb Hag; [lia |].
  destruct b as [|b]; [lia |]. simpl. unfold mbind, decoded_bind.
  destruct (scanstring t) as [[key s1]| |] eqn:Hkey; [| done..].
  apply scanstring_consumes in Hkey.
  pose proof (skip_ws_length s1) as Hs1.
  destruct (skip_ws s1) as [|c1 s2]; [done |].
  pose proof (skip_ws_length s2) as Hs2.
  rewrite <- (Hag (skip_ws s2)) by (simpl in *; lia).
  destruct (scanA (skip_ws s2)) as [[value s3]| |] eqn:Hval; [| done..].
  apply HA in Hval.
  pose proof (skip_ws_length s3) as Hs3.
  destruct (skip_ws s3) as [|c3 s4]; [done |].
  pose proof (skip_ws_length s4) as Hs4.
  destruct (skip_ws s4) as [|c4 s5]; [done |].
  repeat case_match; try done.
  apply IH; simpl in *; [lia | lia |]. intros s' Hs'. apply Hag. lia.
Qed.

Lemma array_items_fuel scanA scanB :
  consumes scanA →
  ∀ a b acc t,
    String.length t < a → String.length t < b →
    (∀ s', String.length s' ≤ String.length t → scanA s' = scanB s') →
    array_items scanA a acc t = array_items scanB b acc t.
Proof.
  intros HA. induction a as [|a IH]; intros b acc t Ha Hb Hag; [lia |].
  destruct b as [|b]; [lia |]. simpl. unfold mbind, decoded_bind.
  rewrite <- (Hag t) by done.
  destruct (scanA t) as [[value s1]| |] eqn:Hval; [| done..].
  apply HA in Hval.
  pose proof (skip_ws_length s1) as Hs1.
  destruct (skip_ws s1) as [|c1 s2]; [done |].
  pose proof (skip_ws_length s2) as Hs2.
  repeat case_match; try done.
  apply IH; simpl in *; [lia | lia |]. intros s' Hs'. apply Hag. lia.
Qed.

(** Every bound above the length of the text gives the same result:
    the bound [S (length s)] that [decode] uses never cuts a scan
    short. *)
Theorem scan_once_fuel (n m : nat) (s : string) :
  String.length s < n → String.length s < m → scan_once n s = scan_once m s.
Proof.
  revert m s. induction n as [|n IH]; intros m s Hn Hm; [lia |].
  destruct m as [|m]; [lia |].
  destruct s as [|c s]; [done |]. simpl in Hn, Hm.
  destruct (scan_once_cases c s) as [[-> H] | [[-> H] | [[-> H] | H]]];
    rewrite !H; clear H; [done | | | done].
  - unfold JSONObject. pose proof (skip_ws_length s) as Hs.
    destruct (skip_ws s) as [|c1 s1]; [done |].
    repeat case_match; try done.
    apply object_members_fuel; simpl in *; [apply scan_once_consumes | lia..|].
    intros s' Hs'. apply IH; lia.
  - unfold JSONArray. pose proof (skip_ws_length s) as Hs.
    assert (∀ t, String.length t ≤ String.length s →
              array_items (scan_once n) n [] t = array_items (scan_once m) m [] t)
      as Harr.
    { intros t Ht. apply array_items_fuel; [apply scan_once_consumes | lia..|].
      intros s' Hs'. apply IH; lia. }
    destruct (skip_ws s) as [|c1 s1]; [apply Harr; simpl; lia |].
    repeat case_match; try done; apply Harr; simpl in *; lia.
Qed.

Corollary decode_fuel (n : nat) (s : string) :
  String.length s < n →
  scan_once n (skip_ws s) = scan_once (S (String.length s)) (skip_ws s).
Proof.
  intros Hn. pose proof (skip_ws_length s). apply scan_once_fuel; lia.
Qed.

(** ** The codec on examples *)

Example dumps_indent4 :
  json_dumps (Some 4) (JObj demand_doc) = sq "{
    'africa_share_of_global_vaccine_demand_2030': '30.0%',
    'note': 'draft'
}".
Proof. reflexivity. Qed.

Example dumps_compact :
  json_dumps None (JObj [("a", JArr [JInt 1; JInt (-20)]); ("b", JNull)])
  = sq "{'a': [1, -20], 'b': null}".
Proof. reflexivity. Qed.

Example dumps_escapes :
  json_dumps None (JStr (String "009" (String dquote (String "233" "\/"))))
  = String dquote ("\t\" +:+ String dquote ("\u00e9\\/" +:+ String dquote "")).
Proof. reflexivity. Qed.

Example loads_duplicate_key :
  json_loads (sq " { 'a' : 1 , 'b' : [ ] , 'a' : true } ")
  = Parsed (JObj [("a", JBool true); ("b", JArr [])]).
Proof. reflexivity. Qed.

Example loads_escapes :
  json_loads (sq "'A\n\/\u00e9'")
  = Parsed (JStr (String "A" (String "010" (String "/" (String "233" ""))))).
Proof. reflexivity. Qed.

Example loads_wide_escape : json_loads (sq "'\u0141'") = OutsideModel.
Proof. reflexivity. Qed.

Example loads_empty_text : json_loads "" = DecodeError.
Proof. reflexivity. Qed.

Example loads_trailing_comma : json_loads (sq "{'a': 1,}") = DecodeError.
Proof. reflexivity. Qed.

Example loads_leading_zero : json_loads "[01]" = DecodeError.
Proof. reflexivity. Qed.

Example loads_extra_data : json_loads "{} {}" = DecodeError.
Proof. reflexivity. Qed.

Example loads_float : json_loads (sq "{'a': 1.5}") = OutsideModel.
Proof. reflexivity. Qed.


(** * Properties of dictionaries *)

Lemma dict_get_set (d : pydict) (k k' : string) (v : json) :
  dict_get (dict_set d k v) k' = if String.eqb k k' then Some v else dict_get d k'.
Proof.
  induction d as [|[k0 v0] d IH]; simpl; [done |].
  destruct (String.eqb_spec k0 k) as [->|Hne]; simpl.
  - by destruct (String.eqb k k').
  - rewrite IH. destruct (String.eqb_spec k0 k') as [->|Hne'].
    + by destruct (String.eqb_spec k k').
    + done.
Qed.

Lemma dict_get_Some_keys (d : pydict) (k : string) :
  is_Some (dict_get d k) ↔ k ∈ keys d.
Proof.
  induction d as [|[k0 v0] d IH]; simpl.
  - rewrite elem_of_nil. split; [by intros [? ?] | done].
  - rewrite elem_of_cons. destruct (String.eqb_spec k0 k) as [->|Hne].
    + split; [by left | by eexists].
    + rewrite IH. split; [by right | intros [?|?]; [by subst | done]].
Qed.

Lemma dict_get_None_keys (d : pydict) (k : string) :
  dict_get d k = None ↔ k ∉ keys d.
Proof. rewrite <- dict_get_Some_keys, eq_None_not_Some. done. Qed.

(** Setting a key to the value it has changes nothing. *)
Lemma dict_set_same (d : pydict) (k : string) (v : json) :
  dict_get d k = Some v → dict_set d k v = d.
Proof.
  induction d as [|[k0 v0] d IH]; simpl; [done |].
  destruct (String.eqb k0 k); [by intros [= ->] |].
  intros Hd. by rewrite IH.
Qed.

Lemma mapping_lookup (d : pydict) (k : string) : mapping d !! k = dict_get d k.
Proof.
  unfold mapping. induction d as [|[k0 v0] d IH]; simpl; [done |].
  destruct (String.eqb_spec k0 k) as [->|Hne].
  - by rewrite lookup_insert_eq.
  - by rewrite lookup_insert_ne.
Qed.

Lemma dom_mapping (d : pydict) (k : string) : k ∈ dom (mapping d) ↔ k ∈ keys d.
Proof. by rewrite elem_of_dom, mapping_lookup, dict_get_Some_keys. Qed.

Lemma mapping_dict_set (d : pydict) (k : string) (v : json) :
  mapping (dict_set d k v) = <[k := v]> (mapping d).
Proof.
  apply map_eq. intros k'. rewrite mapping_lookup, dict_get_set.
  destruct (String.eqb_spec k k') as [->|Hne].
  - by rewrite lookup_insert_eq.
  - by rewrite lookup_insert_ne, mapping_lookup.
Qed.

(** ** The loop of [update_key_number] on a dictionary *)

Lemma for_keys_dict (U : pydict) (ks : list string) (d : pydict) :
  ks ⊆ keys U →
  for_keys ks U (JObj d) = Returns (JObj (fold_left (update_step U) ks d)).
Proof.
  revert d. induction ks as [|k ks IH]; intros d Hks; simpl; [done |].
  assert (k ∈ keys U) as [v Hv]%dict_get_Some_keys by (apply Hks; left).
  unfold getitem, update_step at 2. rewrite Hv. simpl.
  apply IH. intros k' Hk'. apply Hks. by right.
Qed.

Lemma for_keys_updated (d U : pydict) :
  for_keys (keys U) U (JObj d) = Returns (JObj (updated d U)).
Proof. by apply for_keys_dict. Qed.

Lemma for_keys_not_dict (U : pydict) (data : json) :
  is_dict data = false → U ≠ [] →
  for_keys (keys U) U data = Raises TypeError.
Proof.
  intros Hdata HU. destruct U as [|[k v] U]; [done |]. simpl.
  unfold getitem. simpl. rewrite String.eqb_refl. by destruct data.
Qed.

Lemma dict_get_fold_update (U : pydict) (ks : list string) (d : pydict) (k : string) :
  dict_get (fold_left (update_step U) ks d) k
  = if decide (k ∈ ks) then
      match dict_get U k with
      | Some v => Some v
      | None => dict_get d k
      end
    else dict_get d k.
Proof.
  revert d. induction ks as [|k0 ks IH]; intros d; simpl; [done |].
  rewrite IH. unfold update_step.
  destruct (decide (k = k0)) as [->|Hne].
  - rewrite (decide_True (P := k0 ∈ k0 :: ks)) by left.
    destruct (dict_get U k0) as [v|] eqn:Hv.
    + rewrite dict_get_set, String.eqb_refl. by case_decide.
    + by case_decide.
  - assert (dict_get match dict_get U k0 with
                     | Some v => dict_set d k0 v
                     | None => d
                     end k = dict_get d k) as ->.
    { destruct (dict_get U k0); [| done]. rewrite dict_get_set.
      by destruct (String.eqb_spec k0 k) as [->|_]. }
    destruct (decide (k ∈ ks)) as [Hin|Hnin].
    + rewrite decide_True; [done | by right].
    + rewrite decide_False; [done |].
      intros [?|?]%elem_of_cons; done.
Qed.

(** The updates win; every other key keeps its value. *)
Lemma dict_get_updated (d U : pydict) (k : string) :
  dict_get (updated d U) k
  = match dict_get U k with
    | Some v => Some v
    | None => dict_get d k
    end.
Proof.
  unfold updated. rewrite dict_get_fold_update.
  case_decide as Hk; [done |].
  apply dict_get_None_keys in Hk. by rewrite Hk.
Qed.

Lemma keys_updated (d U : pydict) (k : string) :
  k ∈ keys (updated d U) ↔ k ∈ keys d ∨ k ∈ keys U.
Proof.
  rewrite <- !dict_get_Some_keys, dict_get_updated.
  destruct (dict_get U k) as [v|]; [| rewrite <- !not_eq_None_Some; tauto].
  split; [right | ]; by eexists.
Qed.

Lemma mapping_updated (d U : pydict) :
  mapping (updated d U) = mapping U ∪ mapping d.
Proof.
  apply map_eq. intros k.
  rewrite lookup_union, !mapping_lookup, dict_get_updated.
  destruct (dict_get U k), (dict_get d k); done.
Qed.

Lemma fold_update_wf (U : pydict) (ks : list string) (d : pydict) :
  dict_wf U = true → dict_wf d = true →
  dict_wf (fold_left (update_step U) ks d) = true.
Proof.
  intros HU. revert d. induction ks as [|k ks IH]; intros d Hd; simpl; [done |].
  apply IH. unfold update_step.
  destruct (dict_get U k) as [v|] eqn:Hv; [| done].
  apply dict_set_wf; [done |].
  apply json_wf_obj in HU as [_ HU]. rewrite Forall_forall in HU.
  clear -Hv HU. induction U as [|[k0 v0] U IH]; simpl in *; [done |].
  destruct (String.eqb k0 k).
  - injection Hv as <-. apply (HU (k0, v0)), elem_of_cons. by left.
  - apply IH; [| done]. intros kv Hkv. apply HU, elem_of_cons. by right.
Qed.

Lemma updated_wf (d U : pydict) :
  dict_wf d = true → dict_wf U = true → dict_wf (updated d U) = true.
Proof. intros Hd HU. by apply fold_update_wf. Qed.

(** Updating with values the dictionary already has changes
    nothing. *)
Lemma fold_update_same (U : pydict) (ks : list string) (d : pydict) :
  (∀ k, k ∈ ks → dict_get U k = None ∨ dict_get d k = dict_get U k) →
  fold_left (update_step U) ks d = d.
Proof.
  induction ks as [|k ks IH]; intros Hsame; simpl; [done |].
  assert (update_step U d k = d) as ->.
  { unfold update_step. destruct (Hsame k) as [-> | Hk]; [left | done |].
    destruct (dict_get U k) as [v|]; [| done]. by apply dict_set_same. }
  apply IH. intros k' Hk'. apply Hsame. by right.
Qed.

Lemma updated_idempotent (d U : pydict) :
  updated (updated d U) U = updated d U.
Proof.
  apply fold_update_same. intros k _. rewrite dict_get_updated.
  destruct (dict_get U k); auto.
Qed.

Lemma updated_nil (d : pydict) : updated d [] = d.
Proof. done. Qed.

(** With pairwise different keys, the loop sets the items of the
    updates one after the other. *)
Lemma dict_get_app_NoDup (P S : pydict) (k : string) (v : json) :
  NoDup (keys (P ++ S)) → (k, v) ∈ S → dict_get (P ++ S) k = Some v.
Proof.
  induction P as [|[k0 v0] P IH]; simpl.
  - induction S as [|[k1 v1] S IHS]; simpl; [by intros _ ?%elem_of_nil |].
    intros [Hk1 Hnd]%NoDup_cons [[= <- <-]|Hin]%elem_of_cons.
    + by rewrite String.eqb_refl.
    + destruct (String.eqb_spec k1 k) as [->|_]; [| by apply IHS].
      exfalso. apply Hk1. unfold keys. apply list_elem_of_fmap.
      by exists (k, v).
  - intros [Hk0 Hnd]%NoDup_cons Hin.
    destruct (String.eqb_spec k0 k) as [->|_]; [| by apply IH].
    exfalso. apply Hk0. unfold keys. apply list_elem_of_fmap.
    exists (k, v). split; [done |]. apply elem_of_app. by right.
Qed.

Lemma fold_update_set_items (U P S : pydict) (d : pydict) :
  U = P ++ S → NoDup (keys U) →
  fold_left (update_step U) (keys S) d = fold_left set_item S d.
Proof.
  revert P d. induction S as [|[k v] S IH]; intros P d HU Hnd; simpl; [done |].
  assert (dict_get U k = Some v) as Hk.
  { rewrite HU in *. apply dict_get_app_NoDup; [done | left]. }
  unfold update_step at 2. rewrite Hk. unfold set_item at 2. simpl.
  apply (IH (P ++ [(k, v)])); [by rewrite <- app_assoc | done].
Qed.

Lemma updated_set_items (d U : pydict) :
  NoDup (keys U) → updated d U = fold_left set_item U d.
Proof. intros Hnd. by apply (fold_update_set_items U [] U). Qed.

(** On the empty dictionary the loop rebuilds the updates. *)
Lemma updated_empty (U : pydict) : dict_wf U = true → updated [] U = U.
Proof.
  intros [Hnd _]%json_wf_obj.
  rewrite updated_set_items, fold_set_item_fresh; done.
Qed.

Lemma filter_ext_elem_of {A} (P Q : A → Prop)
    `{!∀ x, Decision (P x)} `{!∀ x, Decision (Q x)} (l : list A) :
  (∀ x, x ∈ l → P x ↔ Q x) → filter P l = filter Q l.
Proof.
  induction l as [|x l IH]; intros Hext; [done |].
  rewrite (filter_cons P), (filter_cons Q), IH.
  - destruct (decide (P x)) as [HP|HP], (decide (Q x)) as [HQ|HQ]; try done;
      exfalso; apply (Hext x) in HP || apply (Hext x) in HQ; done || by left.
  - intros y Hy. apply Hext. by right.
Qed.

(** With pairwise different keys in the updates, the keys of the
    result are the old keys in their order, then the new keys in the
    order of the updates. *)
Lemma keys_fold_set_item (S d : pydict) :
  NoDup (keys S) →
  keys (fold_left set_item S d) = keys d ++ filter (λ k, k ∉ keys d) (keys S).
Proof.
  revert d. induction S as [|[k v] S IH]; intros d; simpl.
  - by rewrite app_nil_r.
  - change (keys ((k, v) :: S)) with (k :: keys S).
    intros [Hk Hnd]%NoDup_cons.
    rewrite IH by done. unfold set_item at 1 2. simpl.
    pose proof (keys_dict_set d k v) as Hkeys.
    rewrite (filter_cons (λ k, k ∉ keys d)).
    destruct (decide (k ∈ keys d)) as [Hin|Hnin].
    + rewrite decide_False by (intros H; by apply H).
      rewrite (list_filter_iff (λ k0, k0 ∉ keys (dict_set d k v))
                 (λ k0, k0 ∉ keys d)) by (intros k0; by rewrite Hkeys).
      by rewrite Hkeys.
    + rewrite decide_True by done.
      rewrite (filter_ext_elem_of (λ k0, k0 ∉ keys (dict_set d k v))
                 (λ k0, k0 ∉ keys d)).
      * rewrite Hkeys, <- app_assoc. done.
      * intros k' Hk'.
        rewrite Hkeys, elem_of_app, list_elem_of_singleton.
        split; [tauto |]. intros Hd [?| ->]; done.
Qed.

Lemma keys_updated_order (d U : pydict) :
  dict_wf U = true →
  keys (updated d U) = keys d ++ filter (λ k, k ∉ keys d) (keys U).
Proof.
  intros [Hnd _]%json_wf_obj.
  rewrite updated_set_items by done. by apply keys_fold_set_item.
Qed.

(** * Properties of [update_key_number] *)

(** The runs of [update_key_number], by cases on the content of the
    file and on the loop. *)
Lemma update_key_number_run (path : string) (U : pydict) (σ : fs) :
  update_key_number path U σ =
  match loaded path σ with
  | Parsed data =>
      match for_keys (keys U) U data with
      | Returns data' => (Returns tt, <[path := json_dumps (Some 4) data']> σ)
      | Raises e => (Raises e, bootstrapped path σ)
      | Unmodelled => (Unmodelled, bootstrapped path σ)
      end
  | DecodeError => (Raises JSONDecodeError, bootstrapped path σ)
  | OutsideModel => (Unmodelled, bootstrapped path σ)
  end.
Proof.
  unfold update_key_number, json_load, json_dump, path_exists, read_text,
    write_text, pure, loaded, bootstrapped.
  unfold mbind, io_bind, mret, io_ret.
  destruct (σ !! path) as [text|] eqn:Hσ.
  - rewrite bool_decide_eq_true_2 by eauto. simpl. rewrite ?Hσ.
    destruct (json_loads text) as [data| |]; simpl; [| done..].
    by destruct (for_keys (keys U) U data).
  - rewrite bool_decide_eq_false_2 by (by intros [? ?]). simpl.
    rewrite lookup_insert_eq.
    change (json_loads (json_dumps None (JObj []))) with (Parsed (JObj [])).
    simpl. destruct (for_keys (keys U) U (JObj [])); [| done..].
    by rewrite insert_insert_eq.
Qed.

(** On a dictionary the call returns and writes the updated
    dictionary. *)
Lemma update_key_number_dict (path : string) (U : pydict) (σ : fs) (D1 : pydict) :
  loaded path σ = Parsed (JObj D1) →
  update_key_number path U σ
  = (Returns tt, <[path := json_dumps (Some 4) (JObj (updated D1 U))]> σ).
Proof.
  intros Hload. by rewrite update_key_number_run, Hload, for_keys_updated.
Qed.

Lemma loaded_wf (path : string) (σ : fs) (data : json) :
  loaded path σ = Parsed data → json_wf data = true.
Proof.
  unfold loaded. destruct (σ !! path) as [text|].
  - apply json_loads_wf.
  - by intros [= <-].
Qed.

Lemma loaded_insert (path : string) (σ : fs) (text : string) :
  loaded path (<[path := text]> σ) = json_loads text.
Proof. unfold loaded. by rewrite lookup_insert_eq. Qed.

Lemma bootstrapped_lookup (path : string) (σ : fs) :
  bootstrapped path σ !! path
  = Some (match σ !! path with Some text => text | None => "{}" end).
Proof.
  unfold bootstrapped. destruct (σ !! path) eqn:Hσ; [done |].
  by rewrite lookup_insert_eq.
Qed.

Lemma loaded_bootstrapped (path : string) (σ : fs) :
  loaded path (bootstrapped path σ) = loaded path σ.
Proof.
  unfold loaded. rewrite bootstrapped_lookup. by destruct (σ !! path).
Qed.

Lemma bootstrapped_idempotent (path : string) (σ : fs) :
  bootstrapped path (bootstrapped path σ) = bootstrapped path σ.
Proof.
  unfold bootstrapped at 1. by rewrite bootstrapped_lookup.
Qed.

(** The scenario of the specification, from no file at all. *)
Example scenario :
  (_ ← update_key_number key_numbers [("a", JStr "10%")];
   _ ← update_key_number key_numbers [("b", JStr "5.0 million")];
   update_key_number key_numbers [("a", JStr "12%")]) ∅
  = (Returns tt,
     {[ key_numbers :=
          json_dumps (Some 4) (JObj [("a", JStr "12%"); ("b", JStr "5.0 million")]) ]}).
Proof. vm_compute. reflexivity. Qed.

(** ** Merging *)

(** C1 (union and override).  When the file at [path] holds a document
    [D1], a call with updates [U] returns, changes no other file, and
    the document it leaves has exactly the keys of [D1] and of [U];
    every key of [U] has the value [U] gives it, and every key of [D1]
    that is not in [U] keeps its value. *)
Theorem update_union_override
    (path : string) (U : pydict) (σ : fs) (text : string) (D1 : pydict) :
  σ !! path = Some text →
  json_loads text = Parsed (JObj D1) →
  dict_wf U = true →
  ∃ text' R,
    update_key_number path U σ = (Returns tt, <[path := text']> σ) ∧
    json_loads text' = Parsed (JObj R) ∧
    (∀ k, k ∈ keys R ↔ k ∈ keys D1 ∨ k ∈ keys U) ∧
    (∀ k v, dict_get U k = Some v → dict_get R k = Some v) ∧
    (∀ k, k ∈ keys D1 → k ∉ keys U → dict_get R k = dict_get D1 k).
Proof.
  intros Hσ Htext HU.
  assert (loaded path σ = Parsed (JObj D1)) as Hload.
  { unfold loaded. by rewrite Hσ. }
  exists (json_dumps (Some 4) (JObj (updated D1 U))), (updated D1 U).
  split_and!.
  - by apply update_key_number_dict.
  - apply json_loads_dumps, updated_wf; [| done].
    by apply (json_loads_wf text).
  - apply keys_updated.
  - intros k v Hk. by rewrite dict_get_updated, Hk.
  - intros k _ Hk%dict_get_None_keys. by rewrite dict_get_updated, Hk.
Qed.

Lemma update_union_override_witness :
  ({[ key_numbers := demand_text ]} : fs) !! key_numbers = Some demand_text ∧
  json_loads demand_text = Parsed (JObj demand_doc) ∧
  dict_wf (demand ++ supply) = true ∧
  ∃ text' R,
    update_key_number key_numbers (demand ++ supply) {[ key_numbers := demand_text ]}
    = (Returns tt, <[key_numbers := text']> {[ key_numbers := demand_text ]}) ∧
    json_loads text' = Parsed (JObj R) ∧
    (∀ k, k ∈ keys R ↔ k ∈ keys demand_doc ∨ k ∈ keys (demand ++ supply)) ∧
    (∀ k v, dict_get (demand ++ supply) k = Some v → dict_get R k = Some v) ∧
    (∀ k, k ∈ keys demand_doc → k ∉ keys (demand ++ supply) →
          dict_get R k = dict_get demand_doc k).
Proof.
  split; [reflexivity |]. split; [reflexivity |]. split; [reflexivity |].
  apply (update_union_override key_numbers (demand ++ supply)
           {[ key_numbers := demand_text ]} demand_text demand_doc);
    reflexivity.
Defined.

(** C2 (bootstrap).  When there is no file at [path], a call with
    non-empty updates [U] returns and leaves at [path] a document that
    is [U] exactly. *)
Theorem update_bootstrap (path : string) (U : pydict) (σ : fs) :
  σ !! path = None →
  U ≠ [] →
  dict_wf U = true →
  ∃ text',
    update_key_number path U σ = (Returns tt, <[path := text']> σ) ∧
    json_loads text' = Parsed (JObj U).
Proof.
  intros Hσ _ HU.
  assert (loaded path σ = Parsed (JObj [])) as Hload.
  { unfold loaded. by rewrite Hσ. }
  exists (json_dumps (Some 4) (JObj U)). split.
  - by rewrite (update_key_number_dict _ _ _ _ Hload), updated_empty.
  - by apply json_loads_dumps.
Qed.

Lemma update_bootstrap_witness :
  (∅ : fs) !! key_numbers = None ∧
  supply ≠ [] ∧
  dict_wf supply = true ∧
  ∃ text',
    update_key_number key_numbers supply ∅
    = (Returns tt, <[key_numbers := text']> ∅) ∧
    json_loads text' = Parsed (JObj supply).
Proof.
  split; [reflexivity |]. split; [discriminate |]. split; [reflexivity |].
  apply (update_bootstrap key_numbers supply ∅);
    [reflexivity | discriminate | reflexivity].
Defined.

(** ** Failures *)

(** C3 (corrupt file).  When the file at [path] exists and its content
    is not JSON, the call raises [JSONDecodeError] whatever the
    updates are, and the file system is as it was: the file keeps its
    content. *)
Theorem update_corrupt_file
    (path : string) (U : pydict) (σ : fs) (text : string) :
  σ !! path = Some text →
  json_loads text = DecodeError →
  update_key_number path U σ = (Raises JSONDecodeError, σ).
Proof.
  intros Hσ Htext. rewrite update_key_number_run.
  unfold loaded, bootstrapped. by rewrite Hσ, Htext.
Qed.

Lemma update_corrupt_file_witness :
  ({[ key_numbers := truncated_text ]} : fs) !! key_numbers = Some truncated_text ∧
  json_loads truncated_text = DecodeError ∧
  update_key_number key_numbers supply {[ key_numbers := truncated_text ]}
  = (Raises JSONDecodeError, {[ key_numbers := truncated_text ]}).
Proof.
  split; [reflexivity |]. split; [reflexivity |].
  apply (update_corrupt_file key_numbers supply
           {[ key_numbers := truncated_text ]} truncated_text);
    reflexivity.
Defined.

(** ** The loop on any value *)

Lemma for_keys_nil (U : pydict) (data : json) :
  for_keys [] U data = Returns data.
Proof. done. Qed.

(** The loop returns on a dictionary, and on any value when there is
    nothing to set; otherwise it raises [TypeError]. *)
Lemma for_keys_cases (U : pydict) (data : json) :
  (∃ d, data = JObj d ∧
        for_keys (keys U) U data = Returns (JObj (updated d U))) ∨
  (is_dict data = false ∧ U = [] ∧ for_keys (keys U) U data = Returns data) ∨
  (is_dict data = false ∧ U ≠ [] ∧ for_keys (keys U) U data = Raises TypeError).
Proof.
  destruct (is_dict data) eqn:Hd.
  - left. destruct data; try done. eexists. split; [done |].
    apply for_keys_updated.
  - right. destruct (decide (U = [])) as [->|HU].
    + by left.
    + right. split_and!; [done..|]. by apply for_keys_not_dict.
Qed.

Lemma for_keys_idempotent (U : pydict) (data data' : json) :
  for_keys (keys U) U data = Returns data' →
  for_keys (keys U) U data' = Returns data'.
Proof.
  destruct (for_keys_cases U data)
    as [(d & -> & ->) | [(_ & -> & ->) | (_ & _ & ->)]]; [| | done].
  - intros [= <-]. by rewrite for_keys_updated, updated_idempotent.
  - by intros [= <-].
Qed.

Lemma for_keys_wf (U : pydict) (data data' : json) :
  dict_wf U = true → json_wf data = true →
  for_keys (keys U) U data = Returns data' → json_wf data' = true.
Proof.
  intros HU Hdata.
  destruct (for_keys_cases U data)
    as [(d & -> & ->) | [(_ & -> & ->) | (_ & _ & ->)]]; [| | done].
  - intros [= <-]. by apply updated_wf.
  - by intros [= <-].
Qed.

(** A file that holds something else than a dictionary exists. *)
Lemma loaded_not_dict (path : string) (σ : fs) (data : json) :
  loaded path σ = Parsed data → is_dict data = false →
  ∃ text, σ !! path = Some text ∧ json_loads text = Parsed data.
Proof.
  unfold loaded. destruct (σ !! path) as [text|]; [by eexists |].
  by intros [= <-].
Qed.

Lemma bootstrapped_exists (path : string) (σ : fs) (text : string) :
  σ !! path = Some text → bootstrapped path σ = σ.
Proof. unfold bootstrapped. by intros ->. Qed.

Lemma loaded_ext (path : string) (σ1 σ2 : fs) :
  σ1 !! path = σ2 !! path → loaded path σ1 = loaded path σ2.
Proof. unfold loaded. by intros ->. Qed.

(** ** The written text *)

(** C4, as amended (layout and key order).  After every call that
    returns, the file at [path] holds [json.dumps(data, indent=4)] of
    the document in memory: a text that is a function of the ordered
    document.  When the document is a dictionary, its keys are written
    in insertion order, the keys it had first and in the order they
    had, then the new keys in the order of the updates; each item is
    on a line of its own, after four spaces. *)
Theorem update_written_layout (path : string) (U : pydict) (σ σ' : fs) :
  dict_wf U = true →
  update_key_number path U σ = (Returns tt, σ') →
  ∃ data0 data,
    loaded path σ = Parsed data0 ∧
    for_keys (keys U) U data0 = Returns data ∧
    σ' = <[path := json_dumps (Some 4) data]> σ ∧
    ∀ D1, data0 = JObj D1 →
      ∃ R, data = JObj R ∧
        keys R = keys D1 ++ filter (λ k, k ∉ keys D1) (keys U) ∧
        (R ≠ [] →
         json_dumps (Some 4) data
         = "{" +:+ indent4
           +:+ join ("," +:+ indent4) (map (encode_item (iterencode (Some 4) 1)) R)
           +:+ String newline "}").
Proof.
  intros HU. rewrite update_key_number_run.
  destruct (loaded path σ) as [data0| |] eqn:Hload; [| done..].
  destruct (for_keys (keys U) U data0) as [data| |] eqn:Hloop; [| done..].
  intros [= <-]. exists data0, data. split_and!; [done..|].
  intros D1 ->. rewrite for_keys_updated in Hloop. injection Hloop as <-.
  exists (updated D1 U). split_and!; [done | by apply keys_updated_order |].
  intros HR. unfold json_dumps. by rewrite iterencode_obj.
Qed.

Lemma update_written_layout_witness :
  dict_wf supply = true ∧
  update_key_number key_numbers supply {[ key_numbers := demand_text ]}
  = (Returns tt,
     {[ key_numbers := json_dumps (Some 4) (JObj (demand_doc ++ supply)) ]}) ∧
  ∃ data0 data,
    loaded key_numbers {[ key_numbers := demand_text ]} = Parsed data0 ∧
    for_keys (keys supply) supply data0 = Returns data ∧
    ({[ key_numbers := json_dumps (Some 4) (JObj (demand_doc ++ supply)) ]} : fs)
    = <[key_numbers := json_dumps (Some 4) data]> {[ key_numbers := demand_text ]} ∧
    ∀ D1, data0 = JObj D1 →
      ∃ R, data = JObj R ∧
        keys R = keys D1 ++ filter (λ k, k ∉ keys D1) (keys supply) ∧
        (R ≠ [] →
         json_dumps (Some 4) data
         = "{" +:+ indent4
           +:+ join ("," +:+ indent4) (map (encode_item (iterencode (Some 4) 1)) R)
           +:+ String newline "}").
Proof.
  split; [reflexivity |]. split; [reflexivity |].
  apply (update_written_layout key_numbers supply
           {[ key_numbers := demand_text ]}); reflexivity.
Defined.

(** C4, as stated, fails: the two orders of the same two calls leave
    documents with the same key-value content, written with their keys
    in different orders. *)
Lemma key_order_depends_on_history :
  (_ ← update_key_number key_numbers first_a;
   update_key_number key_numbers then_b) ∅
  = (Returns tt, {[ key_numbers := text_a_b ]}) ∧
  (_ ← update_key_number key_numbers then_b;
   update_key_number key_numbers first_a) ∅
  = (Returns tt, {[ key_numbers := text_b_a ]}) ∧
  json_loads text_a_b = Parsed (JObj (first_a ++ then_b)) ∧
  json_loads text_b_a = Parsed (JObj (then_b ++ first_a)) ∧
  mapping (first_a ++ then_b) = mapping (then_b ++ first_a) ∧
  text_a_b ≠ text_b_a.
Proof.
  split_and!; [reflexivity.. | discriminate].
Qed.

(** ** Repeating and reordering calls *)

(** C5 (idempotence).  A second call with the same updates ends as the
    first one did and leaves the file system as the first call left
    it, whatever the file system was before; so do the two calls in
    sequence. *)
Theorem update_idempotent (path : string) (U : pydict) (σ : fs) :
  dict_wf U = true →
  update_key_number path U (update_key_number path U σ).2
    = update_key_number path U σ ∧
  (_ ← update_key_number path U; update_key_number path U) σ
    = update_key_number path U σ.
Proof.
  intros HU.
  assert (update_key_number path U (update_key_number path U σ).2
          = update_key_number path U σ) as Htwice.
  { rewrite (update_key_number_run path U σ).
    destruct (loaded path σ) as [data| |] eqn:Hload.
    - destruct (for_keys (keys U) U data) as [data'| |] eqn:Hloop; simpl.
      + rewrite update_key_number_run, loaded_insert, json_loads_dumps.
        * by rewrite (for_keys_idempotent _ _ _ Hloop), insert_insert_eq.
        * apply (for_keys_wf U data); [done | | done].
          by apply (loaded_wf path σ).
      + by rewrite update_key_number_run, loaded_bootstrapped, Hload, Hloop,
          bootstrapped_idempotent.
      + by rewrite update_key_number_run, loaded_bootstrapped, Hload, Hloop,
          bootstrapped_idempotent.
    - simpl. by rewrite update_key_number_run, loaded_bootstrapped, Hload,
        bootstrapped_idempotent.
    - simpl. by rewrite update_key_number_run, loaded_bootstrapped, Hload,
        bootstrapped_idempotent. }
  split; [done |].
  unfold mbind, io_bind.
  destruct (update_key_number path U σ) as [[[]|e|] σ1] eqn:Hrun; done.
Qed.

Lemma update_idempotent_witness :
  dict_wf supply = true ∧
  update_key_number key_numbers supply
    (update_key_number key_numbers supply {[ key_numbers := demand_text ]}).2
  = update_key_number key_numbers supply {[ key_numbers := demand_text ]} ∧
  (_ ← update_key_number key_numbers supply;
   update_key_number key_numbers supply) {[ key_numbers := demand_text ]}
  = update_key_number key_numbers supply {[ key_numbers := demand_text ]}.
Proof.
  split; [reflexivity |].
  apply (update_idempotent key_numbers supply {[ key_numbers := demand_text ]}).
  reflexivity.
Defined.

Lemma disjoint_keys_spec (U1 U2 : pydict) (k : string) :
  disjoint_keys U1 U2 = true → k ∈ keys U1 → k ∉ keys U2.
Proof.
  unfold disjoint_keys. rewrite forallb_forall. intros Hall Hk.
  apply list_elem_of_In, Hall in Hk.
  by apply negb_true_iff, existsb_eqb_false in Hk.
Qed.

Lemma same_document_refl (text : string) : same_document text text.
Proof.
  unfold same_document. by destruct (json_loads text) as [[]| |].
Qed.

Lemma same_document_opt_refl (o : option string) :
  option_Forall2 same_document o o.
Proof. destruct o; constructor. apply same_document_refl. Qed.

Lemma same_document_not_dict (text1 text2 : string) (data : json) :
  json_loads text1 = Parsed data → json_loads text2 = Parsed data →
  same_document text1 text2.
Proof.
  unfold same_document. intros -> ->. by destruct data.
Qed.

Lemma mapping_updated_comm (D U1 U2 : pydict) :
  disjoint_keys U1 U2 = true →
  mapping (updated (updated D U1) U2) = mapping (updated (updated D U2) U1).
Proof.
  intros Hdisj. rewrite !mapping_updated. apply map_eq. intros k.
  rewrite !lookup_union, !mapping_lookup.
  destruct (dict_get U1 k) as [v1|] eqn:H1, (dict_get U2 k) as [v2|] eqn:H2;
    try by destruct (dict_get D k).
  exfalso. apply (disjoint_keys_spec U1 U2 k Hdisj).
  - apply dict_get_Some_keys. by eexists.
  - apply dict_get_Some_keys. by eexists.
Qed.

Lemma update_key_number_nil (path : string) (σ : fs) (data : json) :
  loaded path σ = Parsed data →
  update_key_number path [] σ
  = (Returns tt, <[path := json_dumps (Some 4) data]> σ).
Proof. intros Hload. by rewrite update_key_number_run, Hload. Qed.

Lemma update_key_number_not_dict (path : string) (U : pydict) (σ : fs) (data : json) :
  loaded path σ = Parsed data → is_dict data = false → U ≠ [] →
  update_key_number path U σ = (Raises TypeError, σ).
Proof.
  intros Hload Hdata HU.
  destruct (loaded_not_dict _ _ _ Hload Hdata) as (text & Hσ & _).
  rewrite update_key_number_run, Hload, for_keys_not_dict by done.
  by rewrite (bootstrapped_exists _ _ _ Hσ).
Qed.

(** C6 (order independence).  For updates [U1] and [U2] with no key in
    common, the calls in the order [U1], [U2] and in the order [U2],
    [U1] end the same way, change no other file, and leave at [path]
    the same document: dictionaries with the same keys and values.
    When the file is absent or holds a dictionary, both orders
    return. *)
Theorem update_order_independent (path : string) (U1 U2 : pydict) (σ : fs) :
  dict_wf U1 = true →
  dict_wf U2 = true →
  disjoint_keys U1 U2 = true →
  (two_calls path U1 U2 σ).1 = (two_calls path U2 U1 σ).1 ∧
  (∀ p, p ≠ path →
        (two_calls path U1 U2 σ).2 !! p = (two_calls path U2 U1 σ).2 !! p) ∧
  option_Forall2 same_document
    ((two_calls path U1 U2 σ).2 !! path) ((two_calls path U2 U1 σ).2 !! path) ∧
  (∀ D, loaded path σ = Parsed (JObj D) →
        (two_calls path U1 U2 σ).1 = Returns tt).
Proof.
  intros HU1 HU2 Hdisj. unfold two_calls, mbind, io_bind.
  destruct (loaded path σ) as [data| |] eqn:Hload.
  - pose proof (loaded_wf _ _ _ Hload) as Hwf.
    destruct (is_dict data) eqn:Hdict.
    + destruct data as [| | | | |D]; try done.
      rewrite !(update_key_number_dict path _ σ D Hload).
      assert (∀ U, dict_wf U = true →
                loaded path (<[path := json_dumps (Some 4) (JObj (updated D U))]> σ)
                = Parsed (JObj (updated D U))) as Hnext.
      { intros U HU. rewrite loaded_insert. by apply json_loads_dumps, updated_wf. }
      cbv iota.
      rewrite (update_key_number_dict path U2 _ _ (Hnext U1 HU1)).
      rewrite (update_key_number_dict path U1 _ _ (Hnext U2 HU2)).
      rewrite !insert_insert_eq. simpl. split_and!; [done | | | done].
      * intros p Hp. by rewrite !lookup_insert_ne.
      * rewrite !lookup_insert_eq. constructor. unfold same_document.
        rewrite !json_loads_dumps by (by repeat apply updated_wf).
        by apply mapping_updated_comm.
    + assert (∀ D, Parsed data = Parsed (JObj D) → False) as Hno.
      { intros D [= ->]. done. }
      destruct (loaded_not_dict _ _ _ Hload Hdict) as (text & Hσ & Htext).
      assert (loaded path (<[path := json_dumps (Some 4) data]> σ) = Parsed data)
        as Hnext.
      { rewrite loaded_insert. by apply json_loads_dumps. }
      destruct (decide (U1 = [])) as [->|HU1'], (decide (U2 = [])) as [->|HU2'].
      * split_and!; [done | done | apply same_document_opt_refl |].
        intros D HD. by destruct (Hno D).
      * rewrite (update_key_number_nil path σ data Hload).
        rewrite (update_key_number_not_dict path U2 σ data) by done.
        rewrite (update_key_number_not_dict path U2 _ data) by done.
        simpl. split_and!; [done | | |].
        -- intros p Hp. by rewrite lookup_insert_ne.
        -- rewrite lookup_insert_eq, Hσ. constructor.
           apply (same_document_not_dict _ _ data); [| done].
           by apply json_loads_dumps.
        -- intros D HD. by destruct (Hno D).
      * rewrite (update_key_number_nil path σ data Hload).
        rewrite (update_key_number_not_dict path U1 σ data) by done.
        rewrite (update_key_number_not_dict path U1 _ data) by done.
        simpl. split_and!; [done | | |].
        -- intros p Hp. by rewrite lookup_insert_ne.
        -- rewrite lookup_insert_eq, Hσ. constructor.
           apply (same_document_not_dict _ _ data); [done |].
           by apply json_loads_dumps.
        -- intros D HD. by destruct (Hno D).
      * rewrite (update_key_number_not_dict path U1 σ data) by done.
        rewrite (update_key_number_not_dict path U2 σ data) by done.
        simpl. split_and!; [done | done | apply same_document_opt_refl |].
        intros D HD. by destruct (Hno D).
  - rewrite !update_key_number_run, Hload. simpl.
    split_and!; [done | done | apply same_document_opt_refl | done].
  - rewrite !update_key_number_run, Hload. simpl.
    split_and!; [done | done | apply same_document_opt_refl | done].
Qed.

Lemma update_order_independent_witness :
  dict_wf demand = true ∧
  dict_wf supply = true ∧
  disjoint_keys demand supply = true ∧
  (two_calls key_numbers demand supply ∅).1
  = (two_calls key_numbers supply demand ∅).1 ∧
  (∀ p, p ≠ key_numbers →
        (two_calls key_numbers demand supply ∅).2 !! p
        = (two_calls key_numbers supply demand ∅).2 !! p) ∧
  option_Forall2 same_document
    ((two_calls key_numbers demand supply ∅).2 !! key_numbers)
    ((two_calls key_numbers supply demand ∅).2 !! key_numbers) ∧
  (∀ D, loaded key_numbers ∅ = Parsed (JObj D) →
        (two_calls key_numbers demand supply ∅).1 = Returns tt).
Proof.
  split; [reflexivity |]. split; [reflexivity |]. split; [reflexivity |].
  apply (update_order_independent key_numbers demand supply ∅); reflexivity.
Defined.

(** ** Empty updates and other contents *)

(** C7 (empty updates).  When the file at [path] holds a document
    [D1], a call with no updates is not an error: it returns, and the
    document at [path] is [D1] afterwards, keys and values
    unchanged. *)
Theorem update_empty_updates
    (path : string) (σ : fs) (text : string) (D1 : pydict) :
  σ !! path = Some text →
  json_loads text = Parsed (JObj D1) →
  ∃ text',
    update_key_number path [] σ = (Returns tt, <[path := text']> σ) ∧
    json_loads text' = Parsed (JObj D1).
Proof.
  intros Hσ Htext.
  assert (loaded path σ = Parsed (JObj D1)) as Hload.
  { unfold loaded. by rewrite Hσ. }
  exists (json_dumps (Some 4) (JObj D1)). split.
  - by apply update_key_number_nil.
  - apply json_loads_dumps. by apply (json_loads_wf text).
Qed.

Lemma update_empty_updates_witness :
  ({[ key_numbers := demand_text ]} : fs) !! key_numbers = Some demand_text ∧
  json_loads demand_text = Parsed (JObj demand_doc) ∧
  ∃ text',
    update_key_number key_numbers [] {[ key_numbers := demand_text ]}
    = (Returns tt, <[key_numbers := text']> {[ key_numbers := demand_text ]}) ∧
    json_loads text' = Parsed (JObj demand_doc).
Proof.
  split; [reflexivity |]. split; [reflexivity |].
  apply (update_empty_updates key_numbers {[ key_numbers := demand_text ]}
           demand_text demand_doc); reflexivity.
Defined.

(** C8 (content that is not an object).  When the file at [path] holds
    JSON whose top-level value is not an object, a call with non-empty
    updates raises [TypeError], after the decoding has succeeded and
    before anything is written: the file system is as it was. *)
Theorem update_not_object
    (path : string) (U : pydict) (σ : fs) (text : string) (data : json) :
  σ !! path = Some text →
  json_loads text = Parsed data →
  is_dict data = false →
  U ≠ [] →
  update_key_number path U σ = (Raises TypeError, σ).
Proof.
  intros Hσ Htext Hdata HU.
  apply (update_key_number_not_dict path U σ data); [| done..].
  unfold loaded. by rewrite Hσ.
Qed.

Lemma update_not_object_witness :
  ({[ key_numbers := array_text ]} : fs) !! key_numbers = Some array_text ∧
  json_loads array_text = Parsed (JArr [JStr "34.2%"; JInt 12; JNull]) ∧
  is_dict (JArr [JStr "34.2%"; JInt 12; JNull]) = false ∧
  demand ≠ [] ∧
  update_key_number key_numbers demand {[ key_numbers := array_text ]}
  = (Raises TypeError, {[ key_numbers := array_text ]}).
Proof.
  split; [reflexivity |]. split; [reflexivity |]. split; [reflexivity |].
  split; [discriminate |].
  apply (update_not_object key_numbers demand {[ key_numbers := array_text ]}
           array_text (JArr [JStr "34.2%"; JInt 12; JNull]));
    [reflexivity | reflexivity | reflexivity | discriminate].
Defined.

(** C9 (determinism).  The way a call ends and the content of the
    file at [path] after it are determined by the content of that file
    before the call (or its absence) and by the updates: two file
    systems that agree at [path] give the same result and the same
    file. *)
Theorem update_deterministic (path : string) (U : pydict) (σ1 σ2 : fs) :
  σ1 !! path = σ2 !! path →
  (update_key_number path U σ1).1 = (update_key_number path U σ2).1 ∧
  (update_key_number path U σ1).2 !! path
  = (update_key_number path U σ2).2 !! path.
Proof.
  intros Hσ. rewrite !update_key_number_run, (loaded_ext path σ1 σ2 Hσ).
  destruct (loaded path σ2) as [data| |]; simpl;
    [destruct (for_keys (keys U) U data); simpl | ..];
    rewrite ?lookup_insert_eq, ?bootstrapped_lookup, ?Hσ; done.
Qed.

Lemma update_deterministic_witness :
  ({[ key_numbers := demand_text ]} : fs) !! key_numbers
  = ({[ key_numbers := demand_text; other_file := "a,b" ]} : fs) !! key_numbers ∧
  (update_key_number key_numbers supply {[ key_numbers := demand_text ]}).1
  = (update_key_number key_numbers supply
       {[ key_numbers := demand_text; other_file := "a,b" ]}).1 ∧
  (update_key_number key_numbers supply {[ key_numbers := demand_text ]}).2
    !! key_numbers
  = (update_key_number key_numbers supply
       {[ key_numbers := demand_text; other_file := "a,b" ]}).2 !! key_numbers.
Proof.
  split; [reflexivity |].
  apply (update_deterministic key_numbers supply
           {[ key_numbers := demand_text ]}
           {[ key_numbers := demand_text; other_file := "a,b" ]}).
  reflexivity.
Defined.

(** C10 (bootstrap with empty updates).  When there is no file at
    [path], a call with no updates returns and creates the file, whose
    content is the empty object. *)
Theorem update_bootstrap_empty (path : string) (σ : fs) :
  σ !! path = None →
  update_key_number path [] σ = (Returns tt, <[path := "{}"]> σ) ∧
  json_loads "{}" = Parsed (JObj []).
Proof.
  intros Hσ. split; [| done].
  assert (loaded path σ = Parsed (JObj [])) as Hload.
  { unfold loaded. by rewrite Hσ. }
  by rewrite (update_key_number_nil path σ _ Hload).
Qed.

Lemma update_bootstrap_empty_witness :
  (∅ : fs) !! key_numbers = None ∧
  update_key_number key_numbers [] ∅ = (Returns tt, <[key_numbers := "{}"]> ∅) ∧
  json_loads "{}" = Parsed (JObj []).
Proof.
  split; [reflexivity |].
  apply (update_bootstrap_empty key_numbers ∅). reflexivity.
Defined.

(** * More properties of [update_key_number] *)

(** ** What a call touches and when it fails *)

Lemma bootstrapped_lookup_ne (path p : string) (σ : fs) :
  p ≠ path → bootstrapped path σ !! p = σ !! p.
Proof.
  intros Hp. unfold bootstrapped. destruct (σ !! path); [done |].
  by rewrite lookup_insert_ne.
Qed.

(** X1 (one file).  Whatever the updates and however the call ends, no
    file other than the one at [path] is created, changed or
    removed. *)
Theorem update_touches_only_path (path p : string) (U : pydict) (σ : fs) :
  p ≠ path →
  (update_key_number path U σ).2 !! p = σ !! p.
Proof.
  intros Hp. rewrite update_key_number_run.
  destruct (loaded path σ) as [data| |]; simpl;
    [destruct (for_keys (keys U) U data); simpl | ..];
    rewrite ?bootstrapped_lookup_ne by done; rewrite ?lookup_insert_ne by done;
    done.
Qed.

Lemma update_touches_only_path_witness :
  other_file ≠ key_numbers ∧
  (update_key_number key_numbers supply
     {[ key_numbers := demand_text; other_file := "a,b" ]}).2 !! other_file
  = ({[ key_numbers := demand_text; other_file := "a,b" ]} : fs) !! other_file.
Proof.
  split; [discriminate |].
  apply (update_touches_only_path key_numbers other_file supply
           {[ key_numbers := demand_text; other_file := "a,b" ]}).
  discriminate.
Defined.



(** ** The characters of the written text *)

Lemma all_plain_append (a b : string) :
  all_plain (a +:+ b) = all_plain a && all_plain b.
Proof.
  induction a as [|c a IH]; simpl; [done |]. by rewrite IH, andb_assoc.
Qed.

Lemma all_plain_escape_char (c : ascii) : all_plain (escape_char c) = true.
Proof. destruct c as [[] [] [] [] [] [] [] []]; reflexivity. Qed.

Lemma all_plain_encode_basestring_ascii (s : string) :
  all_plain (encode_basestring_ascii s) = true.
Proof.
  unfold encode_basestring_ascii. simpl. rewrite all_plain_append. simpl.
  rewrite andb_true_r. induction s as [|c s IH]; simpl; [done |].
  by rewrite all_plain_append, all_plain_escape_char, IH.
Qed.

Lemma all_plain_digits (s : string) : all_digits s = true → all_plain s = true.
Proof.
  induction s as [|c s IH]; simpl; [done |].
  intros [Hc Hs]%andb_prop. rewrite (IH Hs), andb_true_r.
  destruct c as [[] [] [] [] [] [] [] []]; done.
Qed.

Lemma all_plain_int_repr (z : Z) : all_plain (int_repr z) = true.
Proof.
  assert (∀ d, all_plain (NilZero.string_of_uint d) = true) as Hd.
  { intros d. destruct d; try done;
      apply all_plain_digits, (all_digits_string_of_uint (_ d)). }
  unfold int_repr. destruct z; simpl; [done | apply Hd |].
  by rewrite Hd.
Qed.

Lemma all_plain_repeat_space (n : nat) : all_plain (repeat_string n " ") = true.
Proof. induction n as [|n IH]; simpl; [done | exact IH]. Qed.

Lemma all_plain_newline_indent (indent : option nat) (level : nat) :
  all_plain (newline_indent indent level) = true.
Proof.
  unfold newline_indent. destruct indent; simpl; [| done].
  apply all_plain_repeat_space.
Qed.

Lemma all_plain_item_separator (indent : option nat) (level : nat) :
  all_plain (item_separator indent level) = true.
Proof.
  unfold item_separator, newline_indent. destruct indent; simpl; [| done].
  apply all_plain_repeat_space.
Qed.

Lemma all_plain_join (sep : string) (chunks : list string) :
  all_plain sep = true → Forall (λ c, all_plain c = true) chunks →
  all_plain (join sep chunks) = true.
Proof.
  intros Hsep. induction 1 as [|c l Hc Hl IH]; [done |].
  destruct l as [|c' l]; [by rewrite join_one |].
  by rewrite join_two, !all_plain_append, Hc, Hsep, IH.
Qed.

(** Whatever the value and the layout, [json.dump] writes printable
    ASCII characters and line breaks only. *)
Lemma all_plain_iterencode (indent : option nat) (o : json) (level : nat) :
  all_plain (iterencode indent level o) = true.
Proof.
  revert level.
  induction o as [|b|z|s|items IH|members IH] using json_ind; intros level.
  - done.
  - by destruct b.
  - apply all_plain_int_repr.
  - apply all_plain_encode_basestring_ascii.
  - destruct (decide (items = [])) as [->|Hne]; [done |].
    rewrite iterencode_arr by done. simpl.
    rewrite !all_plain_append, !all_plain_newline_indent, all_plain_join;
      [done | apply all_plain_item_separator |].
    apply Forall_fmap. eapply Forall_impl; [exact IH |]. intros x Hx. apply Hx.
  - destruct (decide (members = [])) as [->|Hne]; [done |].
    rewrite iterencode_obj by done. simpl.
    rewrite !all_plain_append, !all_plain_newline_indent, all_plain_join;
      [done | apply all_plain_item_separator |].
    apply Forall_fmap. eapply Forall_impl; [exact IH |]. intros [k v] Hx.
    unfold encode_item, compose. cbv beta.
    by rewrite !all_plain_append, all_plain_encode_basestring_ascii, Hx.
Qed.

(** X3 (plain text).  After every call that returns, the file at
    [path] consists of printable ASCII characters and line breaks
    only, whatever characters the keys and the values contain: the
    others are written as escapes. *)
Theorem update_writes_plain_ascii (path : string) (U : pydict) (σ σ' : fs) :
  update_key_number path U σ = (Returns tt, σ') →
  ∃ text, σ' !! path = Some text ∧ all_plain text = true.
Proof.
  rewrite update_key_number_run.
  destruct (loaded path σ) as [data| |]; [| done..].
  destruct (for_keys (keys U) U data) as [data'| |]; [| done..].
  intros [= <-]. exists (json_dumps (Some 4) data'). split.
  - apply lookup_insert_eq.
  - apply all_plain_iterencode.
Qed.

Lemma update_writes_plain_ascii_witness :
  ∃ text,
    (update_key_number key_numbers accented ∅).2 !! key_numbers = Some text ∧
    all_plain text = true.
Proof.
  apply (update_writes_plain_ascii key_numbers accented ∅
           (update_key_number key_numbers accented ∅).2).
  vm_compute. reflexivity.
Defined.


(** ** Calls in sequence *)

(** Two dictionaries with the same keys in the same order and the same
    values are equal. *)
Lemma dict_ext (a b : pydict) :
  NoDup (keys a) → keys a = keys b →
  (∀ k, dict_get a k = dict_get b k) → a = b.
Proof.
  revert b. induction a as [|[k v] a IH]; intros [|[k' v'] b]; try done.
  change (keys ((k, v) :: a)) with (k :: keys a).
  change (keys ((k', v') :: b)) with (k' :: keys b).
  intros [Hk Hnd]%NoDup_cons [= <- Hkeys] Hget.
  pose proof (Hget k) as Hv. simpl in Hv. rewrite String.eqb_refl in Hv.
  injection Hv as <-. f_equal. apply IH; [done | done |].
  intros k0. destruct (decide (k = k0)) as [<-|Hne].
  - apply dict_get_None_keys in Hk as Ha. rewrite Hkeys in Hk.
    apply dict_get_None_keys in Hk. by rewrite Ha, Hk.
  - specialize (Hget k0). simpl in Hget.
    apply String.eqb_neq in Hne. by rewrite Hne in Hget.
Qed.

(** Updating by [U1] and then by [U2] is updating by [U1] updated by
    [U2]. *)
Lemma updated_assoc (D U1 U2 : pydict) :
  dict_wf D = true → dict_wf U1 = true → dict_wf U2 = true →
  updated (updated D U1) U2 = updated D (updated U1 U2).
Proof.
  intros HD HU1 HU2. apply dict_ext.
  - assert (dict_wf (updated (updated D U1) U2) = true) as Hwf
      by (by repeat apply updated_wf).
    by apply json_wf_obj in Hwf as [Hnd _].
  - rewrite !keys_updated_order by (done || by apply updated_wf).
    rewrite filter_app, <- !app_assoc. do 2 f_equal.
    rewrite list_filter_filter. apply filter_ext_elem_of.
    intros k _. rewrite ?keys_updated, ?elem_of_app, ?list_elem_of_filter. tauto.
  - intros k. rewrite !dict_get_updated.
    by destruct (dict_get U2 k), (dict_get U1 k).
Qed.

(** X4 (batching).  When the file is absent or holds a dictionary, a
    call with [U1] followed by a call with [U2] ends as, and leaves
    the very same file system as, the single call with [U1] updated by
    [U2] (the dictionary [U1 | U2]). *)
Theorem update_batch
    (path : string) (U1 U2 : pydict) (σ : fs) (D : pydict) :
  loaded path σ = Parsed (JObj D) →
  dict_wf U1 = true →
  dict_wf U2 = true →
  two_calls path U1 U2 σ = update_key_number path (updated U1 U2) σ.
Proof.
  intros Hload HU1 HU2. unfold two_calls, mbind, io_bind.
  pose proof (loaded_wf _ _ _ Hload) as HD.
  rewrite !(update_key_number_dict path _ σ D Hload).
  rewrite (update_key_number_dict path U2 _ (updated D U1)).
  - by rewrite insert_insert_eq, updated_assoc.
  - rewrite loaded_insert. by apply json_loads_dumps, updated_wf.
Qed.

Lemma update_batch_witness :
  loaded key_numbers ∅ = Parsed (JObj []) ∧
  dict_wf demand = true ∧
  dict_wf supply = true ∧
  two_calls key_numbers demand supply ∅
  = update_key_number key_numbers (updated demand supply) ∅.
Proof.
  split; [reflexivity |]. split; [reflexivity |]. split; [reflexivity |].
  apply (update_batch key_numbers demand supply ∅ []); reflexivity.
Defined.

Lemma dict_get_fold_updated (Us : list pydict) (D : pydict) (k : string) :
  dict_get (fold_left updated Us D) k
  = match latest Us k with
    | Some v => Some v
    | None => dict_get D k
    end.
Proof.
  revert D. induction Us as [|U Us IH]; intros D; simpl; [done |].
  rewrite IH, dict_get_updated. by destruct (latest Us k), (dict_get U k).
Qed.

Lemma fold_updated_wf (Us : list pydict) (D : pydict) :
  dict_wf D = true → Forall (λ U, dict_wf U = true) Us →
  dict_wf (fold_left updated Us D) = true.
Proof.
  intros HD HUs. revert D HD.
  induction HUs as [|U Us HU _ IH]; intros D HD; simpl; [done |].
  by apply IH, updated_wf.
Qed.

Lemma update_all_dict (path : string) (Us : list pydict) (σ : fs) (D : pydict) :
  loaded path σ = Parsed (JObj D) →
  Forall (λ U, dict_wf U = true) Us →
  Us ≠ [] →
  update_all path Us σ
  = (Returns tt, <[path := json_dumps (Some 4) (JObj (fold_left updated Us D))]> σ).
Proof.
  intros Hload HUs. revert σ D Hload.
  induction HUs as [|U Us HU HUs IH]; intros σ D Hload Hne; [done |].
  pose proof (loaded_wf _ _ _ Hload) as HD.
  simpl. unfold mbind, io_bind.
  rewrite (update_key_number_dict path U σ D Hload).
  destruct (decide (Us = [])) as [->|HUs']; [done |].
  rewrite (IH _ (updated D U)); [by rewrite insert_insert_eq | | done].
  rewrite loaded_insert. by apply json_loads_dumps, updated_wf.
Qed.

(** X5 (last writer wins).  After any non-empty sequence of calls on a
    file that is absent or holds a dictionary [D], the document at
    [path] gives every key the value of the last call that set it, and
    every key that no call set the value it had in [D]. *)
Theorem update_all_last_writer_wins
    (path : string) (Us : list pydict) (σ : fs) (D : pydict) :
  loaded path σ = Parsed (JObj D) →
  Forall (λ U, dict_wf U = true) Us →
  Us ≠ [] →
  ∃ text R,
    update_all path Us σ = (Returns tt, <[path := text]> σ) ∧
    json_loads text = Parsed (JObj R) ∧
    ∀ k, dict_get R k = match latest Us k with
                        | Some v => Some v
                        | None => dict_get D k
                        end.
Proof.
  intros Hload HUs Hne.
  exists (json_dumps (Some 4) (JObj (fold_left updated Us D))),
         (fold_left updated Us D).
  split_and!.
  - by apply update_all_dict.
  - apply json_loads_dumps, fold_updated_wf; [| done].
    by apply (loaded_wf path σ).
  - apply dict_get_fold_updated.
Qed.

Lemma update_all_last_writer_wins_witness :
  loaded key_numbers {[ key_numbers := demand_text ]} = Parsed (JObj demand_doc) ∧
  Forall (λ U, dict_wf U = true) [demand; supply; first_a] ∧
  [demand; supply; first_a] ≠ [] ∧
  ∃ text R,
    update_all key_numbers [demand; supply; first_a]
      {[ key_numbers := demand_text ]}
    = (Returns tt, <[key_numbers := text]> {[ key_numbers := demand_text ]}) ∧
    json_loads text = Parsed (JObj R) ∧
    ∀ k, dict_get R k = match latest [demand; supply; first_a] k with
                        | Some v => Some v
                        | None => dict_get demand_doc k
                        end.
Proof.
  split; [reflexivity |].
  split; [repeat constructor |]. split; [discriminate |].
  apply (update_all_last_writer_wins key_numbers [demand; supply; first_a]
           {[ key_numbers := demand_text ]} demand_doc);
    [reflexivity | repeat constructor | discriminate].
Defined.

(** ** Updating the keys the document has *)

Lemma known_keys_spec (U d : pydict) (k : string) :
  known_keys U d = true → k ∈ keys U → k ∈ keys d.
Proof.
  unfold known_keys. rewrite forallb_forall. intros Hall Hk.
  apply list_elem_of_In, Hall in Hk.
  destruct (decide (k ∈ keys d)) as [|Hn]; [done |].
  apply existsb_eqb_false in Hn. by rewrite Hn in Hk.
Qed.

Lemma keys_fold_update_known (U : pydict) (ks : list string) (d : pydict) :
  (∀ k, k ∈ ks → k ∈ keys d) →
  keys (fold_left (update_step U) ks d) = keys d.
Proof.
  revert d. induction ks as [|k ks IH]; intros d Hks; simpl; [done |].
  assert (keys (update_step U d k) = keys d) as Hstep.
  { unfold update_step. destruct (dict_get U k); [| done].
    rewrite keys_dict_set, decide_True; [done |]. apply Hks. left. }
  rewrite IH, Hstep; [done |].
  intros k' Hk'. rewrite Hstep. apply Hks. by right.
Qed.

Lemma keys_revalued (d U : pydict) : keys (revalued d U) = keys d.
Proof.
  unfold keys, revalued. rewrite map_map. by apply map_ext.
Qed.

Lemma dict_get_revalued (d U : pydict) (k : string) :
  dict_get (revalued d U) k
  = match dict_get d k with
    | Some v => Some (default v (dict_get U k))
    | None => None
    end.
Proof.
  induction d as [|[k0 v0] d IH]; simpl; [done |].
  destruct (String.eqb_spec k0 k) as [->|_]; done.
Qed.

Lemma updated_revalued (d U : pydict) :
  NoDup (keys d) → known_keys U d = true → updated d U = revalued d U.
Proof.
  intros Hnd Hknown.
  assert (keys (updated d U) = keys d) as Hkeys.
  { apply keys_fold_update_known. intros k. by apply known_keys_spec. }
  apply dict_ext.
  - by rewrite Hkeys.
  - by rewrite Hkeys, keys_revalued.
  - intros k. rewrite dict_get_updated, dict_get_revalued.
    destruct (dict_get U k) as [v|] eqn:HU.
    + assert (k ∈ keys d) as [v0 ->]%dict_get_Some_keys; [| done].
      apply (known_keys_spec U d k Hknown), dict_get_Some_keys. by eexists.
    + by destruct (dict_get d k).
Qed.

(** X6 (updating in place).  When every key of the updates is already
    in the document, the call writes the items of the document in the
    order they had, each with its own value or, for a key of the
    updates, with the new one: no item moves, none is added or
    lost. *)
Theorem update_known_keys_in_place
    (path : string) (U : pydict) (σ : fs) (text : string) (D : pydict) :
  σ !! path = Some text →
  json_loads text = Parsed (JObj D) →
  known_keys U D = true →
  update_key_number path U σ
  = (Returns tt, <[path := json_dumps (Some 4) (JObj (revalued D U))]> σ).
Proof.
  intros Hσ Htext Hknown.
  assert (loaded path σ = Parsed (JObj D)) as Hload.
  { unfold loaded. by rewrite Hσ. }
  rewrite (update_key_number_dict path U σ D Hload), updated_revalued; [done | | done].
  apply json_loads_wf in Htext. by apply json_wf_obj in Htext as [Hnd _].
Qed.

Lemma update_known_keys_in_place_witness :
  ({[ key_numbers := demand_text ]} : fs) !! key_numbers = Some demand_text ∧
  json_loads demand_text = Parsed (JObj demand_doc) ∧
  known_keys demand demand_doc = true ∧
  update_key_number key_numbers demand {[ key_numbers := demand_text ]}
  = (Returns tt,
     <[key_numbers := json_dumps (Some 4) (JObj (revalued demand_doc demand))]>
       {[ key_numbers := demand_text ]}).
Proof.
  split; [reflexivity |]. split; [reflexivity |]. split; [reflexivity |].
  apply (update_known_keys_in_place key_numbers demand
           {[ key_numbers := demand_text ]} demand_text demand_doc);
    reflexivity.
Defined.

(** * Properties of [df_to_key_number_dict] *)

Section KeyNumberDict.
Context {other : Type} (str_other : other → string).

Lemma keys_zip (ks : list string) (vs : list json) :
  length ks = length vs → keys (zip ks vs) = ks.
Proof.
  revert vs. induction ks as [|k ks IH]; intros [|v vs]; simpl; try done.
  intros [= Hlen]. by rewrite IH.
Qed.

Lemma dict_get_zip_lookup (ks : list string) (vs : list json) (i : nat)
    (k : string) (v : json) :
  NoDup ks → ks !! i = Some k → vs !! i = Some v →
  dict_get (zip ks vs) k = Some v.
Proof.
  revert vs i. induction ks as [|k0 ks IH]; intros [|v0 vs] [|i]; simpl; try done.
  - intros _ [= ->] [= ->]. by rewrite String.eqb_refl.
  - intros [Hk0 Hnd]%NoDup_cons Hk Hv.
    destruct (String.eqb_spec k0 k) as [->|_]; [| by eapply IH].
    exfalso. apply Hk0. by eapply list_elem_of_lookup_2.
Qed.

Lemma has_columns_spec (cols : list string) (r : row other) (c : string) :
  has_columns cols r = true → c ∈ cols → is_Some (row_get r c).
Proof.
  unfold has_columns. rewrite forallb_forall. intros Hall Hc.
  apply list_elem_of_In, Hall in Hc. by apply bool_decide_eq_true in Hc.
Qed.

Lemma mapM_row_get (cols : list string) (r : row other) :
  has_columns cols r = true →
  ∃ cells, mapM (row_get r) cols = Some cells ∧
           Forall2 (λ c x, row_get r c = Some x) cols cells.
Proof.
  intros Hcols.
  assert (Forall (λ c, is_Some (row_get r c)) cols) as Hall.
  { apply Forall_forall. intros c. by apply has_columns_spec. }
  clear Hcols. induction Hall as [|c l [x Hx] _ (cells & Hm & Hf)].
  - by exists [].
  - exists (x :: cells). split; [| by constructor].
    rewrite mapM_Some. constructor; [done | by apply mapM_Some].
Qed.

(** What [select_row] gives for a row that has its id and its value
    columns. *)
Lemma select_row_complete (id_column : string) (value_columns : list string)
    (r : row other) (i : string) :
  row_id id_column r = Some i → has_columns value_columns r = true →
  ∃ vals,
    select_row str_other id_column value_columns r = Some (Str i, vals) ∧
    keys vals = value_columns ∧
    ∀ c x, c ∈ value_columns → NoDup value_columns → row_get r c = Some x →
           dict_get vals c = Some (JStr (astype_str str_other x)).
Proof.
  unfold row_id, select_row. intros Hid Hcols.
  destruct (row_get r id_column) as [[s|o]|] eqn:Hget; try done.
  injection Hid as ->.
  destruct (mapM_row_get value_columns r Hcols) as (cells & Hm & Hcells).
  change (mapM (row_get r) value_columns ≫= ?k = ?x)
    with (match mapM (row_get r) value_columns with
          | Some c => k c | None => None end = x).
  rewrite Hm. eexists. split; [done |]. split.
  - apply keys_zip. rewrite length_fmap. by eapply Forall2_length.
  - intros c x Hc Hnd Hx.
    apply list_elem_of_lookup in Hc as [j Hj].
    destruct (Forall2_lookup_l _ _ _ _ _ Hcells Hj) as (x' & Hx' & Hget').
    assert (x' = x) as -> by congruence.
    apply (dict_get_zip_lookup _ _ j); [done | done |].
    by rewrite list_lookup_fmap, Hx'.
Qed.

Lemma mapM_select_rows (id_column : string) (value_columns : list string)
    (df : frame other) (ids : list string) :
  mapM (row_id id_column) df = Some ids →
  forallb (has_columns value_columns) df = true →
  ∃ items,
    mapM (select_row str_other id_column value_columns) df = Some items ∧
    mapM text_of items.*1 = Some ids ∧
    length items = length df ∧
    Forall2 (λ r it,
      keys it.2 = value_columns ∧
      ∀ c x, c ∈ value_columns → NoDup value_columns → row_get r c = Some x →
             dict_get it.2 c = Some (JStr (astype_str str_other x))) df items.
Proof.
  revert ids. induction df as [|r df IH]; intros ids Hids Hcols.
  - injection Hids as <-. by exists [].
  - simpl in Hcols. apply andb_prop in Hcols as [Hr Hcols].
    apply mapM_Some in Hids. inversion Hids as [|? i ? ids' Hi Hids']; subst.
    apply mapM_Some in Hids'.
    destruct (IH ids' Hids' Hcols) as (items & Hitems & Htext & Hlen & Hall).
    destruct (select_row_complete id_column value_columns r i Hi Hr)
      as (vals & Hsel & Hkeys & Hvals).
    apply mapM_Some in Hitems. apply mapM_Some in Htext.
    exists ((Str i, vals) :: items). split_and!.
    + apply mapM_Some. by constructor.
    + rewrite fmap_cons. apply mapM_Some. by constructor.
    + simpl. by rewrite Hlen.
    + by constructor.
Qed.

(** X7 (the dictionary of a frame).  For a frame with at least one
    row, whose rows have ids that are pairwise different strings and
    all the value columns, the result has the indicator name as its
    only key; under it there is one item per row, in the order of the
    rows and under the id of the row, whose keys are the value columns
    and whose values are the cells of the row as strings. *)
Theorem df_to_key_number_dict_content
    (df : frame other) (indicator_name id_column : string)
    (columns : string + list string) (ids : list string) :
  let value_columns := value_columns_list columns in
  nodupb ("indicator" :: id_column :: value_columns) = true →
  df ≠ [] →
  mapM (row_id id_column) df = Some ids →
  nodupb ids = true →
  forallb (has_columns value_columns) df = true →
  ∃ inner,
    df_to_key_number_dict str_other df indicator_name id_column columns
    = Yields [(indicator_name, JObj inner)] ∧
    keys inner = ids ∧
    Forall2 (λ r i,
      ∃ vals,
        dict_get inner i = Some (JObj vals) ∧
        keys vals = value_columns ∧
        ∀ c x, c ∈ value_columns → row_get r c = Some x →
               dict_get vals c = Some (JStr (astype_str str_other x))) df ids.
Proof.
  intros value_columns Hcols Hdf Hids Hnd Hcomplete.
  destruct (mapM_select_rows id_column value_columns df ids Hids Hcomplete)
    as (items & Hitems & Htext & Hlen & Hall).
  unfold df_to_key_number_dict. fold value_columns.
  rewrite Hcols. simpl negb. cbv iota.
  destruct df as [|r0 df0]; [done |].
  rewrite Hitems, Htext, Hnd.
  assert (length ids = length items) as Hlen'.
  { apply length_mapM in Htext. by rewrite length_fmap in Htext. }
  assert (NoDup value_columns) as Hvnd.
  { apply nodupb_NoDup in Hcols.
    by apply NoDup_cons in Hcols as [_ [_ ?]%NoDup_cons]. }
  eexists. split; [done |]. split.
  { apply keys_zip. by rewrite !length_fmap. }
  apply Forall2_same_length_lookup. split; [by rewrite Hlen' |].
  intros j r i Hr Hi.
  destruct (Forall2_lookup_l _ _ _ _ _ Hall Hr) as ([x vals] & Hit & Hk & Hv).
  exists vals. split_and!; [| done | by auto].
  apply (dict_get_zip_lookup _ _ j); [by apply nodupb_NoDup | done |].
  by rewrite !list_lookup_fmap, Hit.
Qed.

Lemma mapM_select_row_missing (id_column : string) (value_columns : list string)
    (df : frame other) (r : row other) :
  r ∈ df → has_columns (id_column :: value_columns) r = false →
  mapM (select_row str_other id_column value_columns) df = None.
Proof.
  intros Hr Hmiss. apply eq_None_not_Some. intros Hsome.
  apply mapM_is_Some in Hsome. rewrite Forall_forall in Hsome.
  destruct (Hsome r Hr) as [[x vals] Hsel]. clear Hsome.
  unfold select_row in Hsel.
  destruct (row_get r id_column) as [i|] eqn:Hid; [| done].
  change (mapM (row_get r) value_columns ≫= ?k = ?y)
    with (match mapM (row_get r) value_columns with
          | Some c => k c | None => None end = y) in Hsel.
  destruct (mapM (row_get r) value_columns) as [cells|] eqn:Hm; [| done].
  apply mapM_Some in Hm.
  assert (has_columns (id_column :: value_columns) r = true); [| congruence].
  unfold has_columns. simpl. rewrite Hid. simpl.
  apply forallb_forall. intros c Hc%list_elem_of_In.
  apply list_elem_of_lookup in Hc as [j Hj].
  destruct (Forall2_lookup_l _ _ _ _ _ Hm Hj) as (y & _ & Hy).
  apply bool_decide_eq_true. by exists y.
Qed.

(** X8 (a missing column).  When a row of the frame lacks the id
    column or one of the value columns, the call raises [KeyError],
    whatever the other rows hold. *)
Theorem df_to_key_number_dict_missing_column
    (df : frame other) (indicator_name id_column : string)
    (columns : string + list string) (r : row other) :
  let value_columns := value_columns_list columns in
  nodupb ("indicator" :: id_column :: value_columns) = true →
  r ∈ df →
  has_columns (id_column :: value_columns) r = false →
  df_to_key_number_dict str_other df indicator_name id_column columns
  = Throws pd.KeyError.
Proof.
  intros value_columns Hcols Hr Hmiss.
  unfold df_to_key_number_dict. fold value_columns. rewrite Hcols.
  simpl negb. cbv iota.
  destruct df as [|r0 df0]; [by apply elem_of_nil in Hr |].
  by rewrite (mapM_select_row_missing _ _ _ r).
Qed.

(** X9 (ids that repeat).  When all the rows have the columns and
    their ids are strings, two rows with the same id make the call
    raise [ValueError]: no row is dropped and none overwrites the
    other. *)
Theorem df_to_key_number_dict_repeated_id
    (df : frame other) (indicator_name id_column : string)
    (columns : string + list string) (ids : list string) :
  let value_columns := value_columns_list columns in
  nodupb ("indicator" :: id_column :: value_columns) = true →
  mapM (row_id id_column) df = Some ids →
  forallb (has_columns value_columns) df = true →
  nodupb ids = false →
  df_to_key_number_dict str_other df indicator_name id_column columns
  = Throws pd.ValueError.
Proof.
  intros value_columns Hcols Hids Hcomplete Hdup.
  destruct (mapM_select_rows id_column value_columns df ids Hids Hcomplete)
    as (items & Hitems & Htext & _).
  unfold df_to_key_number_dict. fold value_columns. rewrite Hcols.
  simpl negb. cbv iota.
  destruct df as [|r0 df0].
  - injection Hids as <-. done.
  - by rewrite Hitems, Htext, Hdup.
Qed.




End KeyNumberDict.

Lemma df_to_key_number_dict_content_witness :
  ∃ inner,
    df_to_key_number_dict int_repr regions "doses_by_region" "region"
      (inr ["doses"; "share"])
    = Yields [("doses_by_region", JObj inner)] ∧
    keys inner = ["Africa"; "Asia"; "Europe"] ∧
    dict_get inner "Asia"
    = Some (JObj [("doses", JStr "7300"); ("share", JStr "61.0%")]).
Proof.
  destruct (df_to_key_number_dict_content int_repr regions "doses_by_region"
              "region" (inr ["doses"; "share"]) ["Africa"; "Asia"; "Europe"])
    as (inner & Hres & Hkeys & Hrows);
    [reflexivity | discriminate | reflexivity | reflexivity | reflexivity |].
  exists inner. split_and!; [exact Hres | exact Hkeys |].
  vm_compute in Hres. injection Hres as <-. reflexivity.
Defined.

Lemma df_to_key_number_dict_missing_column_witness :
  df_to_key_number_dict int_repr regions "doses_by_region" "region" (inl "price")
  = Throws pd.KeyError.
Proof.
  apply (df_to_key_number_dict_missing_column int_repr regions "doses_by_region"
           "region" (inl "price")
           [("region", Str "Asia"); ("doses", Obj 7300%Z); ("share", Str "61.0%")]).
  - reflexivity.
  - unfold regions. rewrite !elem_of_cons. by right; left.
  - reflexivity.
Defined.

Lemma df_to_key_number_dict_repeated_id_witness :
  df_to_key_number_dict int_repr regions_twice "doses_by_region" "region"
    (inl "doses")
  = Throws pd.ValueError.
Proof.
  apply (df_to_key_number_dict_repeated_id int_repr regions_twice
           "doses_by_region" "region" (inl "doses")
           ["Africa"; "Asia"; "Europe"; "Africa"]); reflexivity.
Defined.


(** * Properties of the scripts *)

(** ** The key numbers of the three scripts *)

Lemma run_scripts_calls (path : string) (Us : list pydict) (σ : fs) :
  run_scripts (call_update_key_number path <$> Us) σ
  = (store_exit (update_all path Us σ).1, (update_all path Us σ).2).
Proof.
  revert σ. induction Us as [|U Us IH]; intros σ; [done |].
  rewrite fmap_cons. simpl. unfold call_update_key_number at 1.
  unfold mbind, io_bind.
  destruct (update_key_number path U σ) as [[[]|e|] σ']; simpl; [| done | done].
  apply IH.
Qed.

Lemma latest_Some_elem (Us : list pydict) (k : string) (v : json) :
  latest Us k = Some v → ∃ U, U ∈ Us ∧ dict_get U k = Some v.
Proof.
  induction Us as [|U Us IH]; simpl; [done |].
  destruct (latest Us k) as [w|].
  - intros [= ->]. destruct IH as (V & HV & Hget); [done |].
    exists V. split; [by right | done].
  - intros Hget. exists U. split; [by left | done].
Qed.

Lemma latest_elem (Us : list pydict) (U : pydict) (k : string) (v : json) :
  agree Us → U ∈ Us → dict_get U k = Some v → latest Us k = Some v.
Proof.
  intros Hagree HU Hget.
  assert (is_Some (latest Us k)) as [w Hw].
  { clear Hagree. induction Us as [|V Us IH]; [by apply elem_of_nil in HU |].
    simpl. destruct (latest Us k) as [w|] eqn:Hl; [by eexists |].
    apply elem_of_cons in HU as [<-|HU]; [by eexists |].
    by destruct (IH HU). }
  rewrite Hw. f_equal.
  apply latest_Some_elem in Hw as (V & HV & HVget).
  by apply (Hagree V U k).
Qed.

Lemma dict_get_app (a b : pydict) (k : string) :
  dict_get (a ++ b) k
  = match dict_get a k with
    | Some v => Some v
    | None => dict_get b k
    end.
Proof.
  induction a as [|[k0 v0] a IH]; simpl; [done |].
  by destruct (String.eqb k0 k).
Qed.

Lemma dict_get_concat_Some (Us : list pydict) (k : string) (v : json) :
  dict_get (concat Us) k = Some v → ∃ U, U ∈ Us ∧ dict_get U k = Some v.
Proof.
  induction Us as [|U Us IH]; simpl; [done |].
  rewrite dict_get_app. destruct (dict_get U k) as [w|] eqn:HU.
  - intros [= ->]. exists U. split; [by left | done].
  - intros (V & HV & Hget)%IH. exists V. split; [by right | done].
Qed.

Lemma dict_get_concat_None (Us : list pydict) (k : string) (U : pydict) :
  dict_get (concat Us) k = None → U ∈ Us → dict_get U k = None.
Proof.
  induction Us as [|V Us IH]; simpl; [by intros _ ?%elem_of_nil |].
  rewrite dict_get_app. destruct (dict_get V k) as [w|] eqn:HV; [done |].
  intros Hnone [<-|HU]%elem_of_cons; [done | by apply IH].
Qed.

(** With dictionaries that agree, the last value of a key does not
    depend on the order of the dictionaries. *)
Lemma latest_Permutation (Us Vs : list pydict) (k : string) :
  agree Us → Vs ≡ₚ Us → latest Vs k = dict_get (concat Us) k.
Proof.
  intros Hagree Hperm.
  assert (agree Vs) as Hagree'.
  { intros U V k' v w HU HV. apply (Hagree U V k' v w); by rewrite <- Hperm. }
  destruct (dict_get (concat Us) k) as [v|] eqn:Hget.
  - apply dict_get_concat_Some in Hget as (U & HU & Hget).
    apply (latest_elem Vs U); [done | by rewrite Hperm | done].
  - apply eq_None_not_Some. intros [v (U & HU & HUget)%latest_Some_elem].
    rewrite Hperm in HU.
    by rewrite (dict_get_concat_None Us k U Hget HU) in HUget.
Qed.

Lemma agree_disjoint (Us : list pydict) :
  (∀ U V, U ∈ Us → V ∈ Us → U = V ∨ disjoint_keys U V = true) → agree Us.
Proof.
  intros Hdisj U V k v w HU HV HUget HVget.
  destruct (Hdisj U V HU HV) as [->|Hd]; [congruence |].
  exfalso. apply (disjoint_keys_spec U V k Hd).
  - apply dict_get_Some_keys. by eexists.
  - apply dict_get_Some_keys. by eexists.
Qed.

Section KeyNumbers.
Context {float : Type} {floats : Floats float}.
Context (key_numbers_json : string).

Lemma key_numbers_agree (x y : float) (df : list (who_mi4a_data.supply_row float)) :
  agree [gavi_supply.key_numbers x; vaccine_demand.key_numbers y;
         who_mi4a_data.key_numbers df].
Proof.
  apply agree_disjoint. intros U V HU HV.
  repeat (apply elem_of_cons in HU as [->|HU]); [| | | by apply elem_of_nil in HU];
    repeat (apply elem_of_cons in HV as [->|HV]);
    try (by apply elem_of_nil in HV); (by left) || (right; reflexivity).
Qed.

Lemma key_numbers_wf (x y : float) (df : list (who_mi4a_data.supply_row float)) :
  Forall (λ U, dict_wf U = true)
    [gavi_supply.key_numbers x; vaccine_demand.key_numbers y;
     who_mi4a_data.key_numbers df].
Proof. repeat constructor. Qed.

(** X11 (the three scripts, in any order).  The functions of the three
    scripts that record key numbers write to the same file under
    eleven keys, no two of them the same.  Run one after the other in
    any order, on a file that is absent or holds an object, they all
    return, and the document they leave has the key numbers of each of
    them, and for every other key what the file held before. *)
Theorem key_number_writers_any_order
    (x : float) (demand_df : vaccine_demand.frame float) (y : float)
    (supply_df : list (who_mi4a_data.supply_row float))
    (ws : list script) (σ : fs) (D : pydict) :
  loaded key_numbers_json σ = Parsed (JObj D) →
  vaccine_demand.africa_demand_2030 demand_df = Yields y →
  ws ≡ₚ [gavi_supply.gavi_supply_key_number key_numbers_json x;
         vaccine_demand.vaccine_demand_key_numbers key_numbers_json demand_df;
         who_mi4a_data.supply_key_numbers key_numbers_json supply_df] →
  ∃ text R,
    run_scripts ws σ = (Done, <[key_numbers_json := text]> σ) ∧
    json_loads text = Parsed (JObj R) ∧
    ∀ k, dict_get R k
         = match dict_get (gavi_supply.key_numbers x
                           ++ vaccine_demand.key_numbers y
                           ++ who_mi4a_data.key_numbers supply_df) k with
           | Some v => Some v
           | None => dict_get D k
           end.
Proof.
  intros Hload Hitem Hperm.
  set (Us := [gavi_supply.key_numbers x; vaccine_demand.key_numbers y;
              who_mi4a_data.key_numbers supply_df]).
  assert (ws ≡ₚ map (call_update_key_number key_numbers_json) Us) as Hws.
  { rewrite Hperm. unfold vaccine_demand.vaccine_demand_key_numbers.
    by rewrite Hitem. }
  apply Permutation_map_inv in Hws as (Vs & -> & HVs).
  symmetry in HVs.
  assert (Forall (λ U, dict_wf U = true) Vs) as Hwf.
  { rewrite HVs. apply key_numbers_wf. }
  assert (Vs ≠ []) as Hne.
  { intros ->. by apply Permutation_nil_l in HVs. }
  change (map ?f Vs) with (f <$> Vs).
  rewrite run_scripts_calls, (update_all_dict _ _ _ D Hload Hwf Hne). simpl.
  eexists _, _. split_and!; [done | |].
  - apply json_loads_dumps, fold_updated_wf; [| done].
    apply (loaded_wf key_numbers_json σ). by rewrite Hload.
  - intros k. rewrite dict_get_fold_updated.
    rewrite (latest_Permutation Us Vs k (key_numbers_agree x y supply_df) HVs).
    reflexivity.
Qed.
End KeyNumbers.

(** ** The frames of the demand *)

Lemma row_get_row_set {V} (r : list (string * V)) (c c' : string) (x : V) :
  row_get (row_set r c x) c' = if String.eqb c c' then Some x else row_get r c'.
Proof.
  induction r as [|[c0 x0] r IH]; simpl; [done |].
  destruct (String.eqb_spec c0 c) as [->|Hne]; simpl.
  - by destruct (String.eqb c c').
  - rewrite IH. destruct (String.eqb_spec c0 c') as [->|Hne'].
    + by destruct (String.eqb_spec c c') as [->|_].
    + done.
Qed.

Lemma row_get_row_set_eq {V} (r : list (string * V)) (c : string) (x : V) :
  row_get (row_set r c x) c = Some x.
Proof. by rewrite row_get_row_set, String.eqb_refl. Qed.

Lemma row_get_row_set_ne {V} (r : list (string * V)) (c c' : string) (x : V) :
  c ≠ c' → row_get (row_set r c x) c' = row_get r c'.
Proof.
  intros Hne. rewrite row_get_row_set.
  by destruct (String.eqb_spec c c').
Qed.

Lemma row_get_fmap_values {V W} (g : V → W) (r : list (string * V)) (c : string) :
  row_get ((λ kv, (kv.1, g kv.2)) <$> r) c = g <$> row_get r c.
Proof.
  induction r as [|[c0 x0] r IH]; simpl; [done |].
  by destruct (String.eqb c0 c).
Qed.

Lemma keep_rows_cons {A} (b : bool) (mask : list bool) (x : A) (s : list A) :
  vaccine_demand.keep_rows (b :: mask) (x :: s)
  = if b then x :: vaccine_demand.keep_rows mask s
    else vaccine_demand.keep_rows mask s.
Proof. unfold vaccine_demand.keep_rows. simpl. by destruct b. Qed.

Lemma keep_rows_none {A} (years : list Z) (y : Z) (s : list A) :
  y ∉ years → vaccine_demand.keep_rows ((λ y', Z.eqb y' y) <$> years) s = [].
Proof.
  revert s. induction years as [|y0 years IH]; intros s Hy; [done |].
  apply not_elem_of_cons in Hy as [Hne Hy].
  destruct s as [|x s]; [done |].
  rewrite fmap_cons, keep_rows_cons.
  destruct (Z.eqb_spec y0 y) as [->|_]; [done | by apply IH].
Qed.

Lemma keep_rows_one {A} (years : list Z) (y : Z) (s : list A) (i : nat) (x : A) :
  years !! i = Some y → (∀ j, years !! j = Some y → j = i) → s !! i = Some x →
  vaccine_demand.keep_rows ((λ y', Z.eqb y' y) <$> years) s = [x].
Proof.
  revert s i. induction years as [|y0 years IH]; intros s i Hi Honly Hx; [done |].
  destruct s as [|x0 s]; [done |].
  rewrite fmap_cons, keep_rows_cons. destruct i as [|i]; simpl in *.
  - injection Hi as ->. injection Hx as ->. rewrite Z.eqb_refl. f_equal.
    apply keep_rows_none. intros [j Hj]%list_elem_of_lookup.
    by specialize (Honly (S j) Hj).
  - destruct (Z.eqb_spec y0 y) as [->|_]; [by specialize (Honly 0 eq_refl) |].
    apply (IH s i Hi); [| done].
    intros j Hj. specialize (Honly (S j) Hj). lia.
Qed.

Lemma length_keep_rows {A} (years : list Z) (y : Z) (s : list A) :
  length s = length years →
  length (vaccine_demand.keep_rows ((λ y', Z.eqb y' y) <$> years) s)
  = length (filter (λ y', y' = y) years).
Proof.
  revert s. induction years as [|y0 years IH]; intros [|x s] Hlen; try done.
  rewrite fmap_cons, keep_rows_cons, filter_cons.
  injection Hlen as Hlen.
  destruct (Z.eqb_spec y0 y) as [->|Hne].
  - rewrite decide_True by done. simpl. by rewrite IH.
  - rewrite decide_False by done. by apply IH.
Qed.

(** The comparison of two names that are given is decided by
    computation. *)
Ltac compare_names :=
  repeat match goal with
         | |- context [String.eqb ?a ?b] =>
             let v := eval vm_compute in (String.eqb a b) in
             change (String.eqb a b) with v
         end.

Section Demand.
Context {float : Type} {floats : Floats float}.
Context (key_numbers_json : string).

(** X12 (the one row of 2030).  On a frame whose columns have one
    value per row, [vaccine_demand_key_numbers] raises [KeyError]
    when the frame has no column of the projected share; with the
    column, it raises [ValueError] exactly when the frame does not
    have one and only one row for the year 2030.  In both cases no
    file is touched. *)
Theorem vaccine_demand_key_numbers_one_row
    (df : vaccine_demand.frame float) (σ : fs) :
  vaccine_demand.frame_ok df →
  match row_get (vaccine_demand.columns df) "Africa_share_projected" with
  | None =>
      vaccine_demand.vaccine_demand_key_numbers key_numbers_json df σ
      = (FrameRaised pd.KeyError, σ)
  | Some _ =>
      vaccine_demand.vaccine_demand_key_numbers key_numbers_json df σ
      = (FrameRaised pd.ValueError, σ)
      ↔ length (filter (λ y, y = 2030%Z) (vaccine_demand.year df)) ≠ 1
  end.
Proof.
  intros Hok.
  unfold vaccine_demand.vaccine_demand_key_numbers,
    vaccine_demand.africa_demand_2030, vaccine_demand.get_column,
    vaccine_demand.query_year.
  cbn [vaccine_demand.columns]. rewrite row_get_fmap_values.
  destruct (row_get (vaccine_demand.columns df) "Africa_share_projected")
    as [s|] eqn:Hs; [| done]. cbn [fmap option_fmap option_map mbind outcome_bind].
  assert (length s = length (vaccine_demand.year df)) as Hlen.
  { unfold vaccine_demand.frame_ok in Hok. rewrite Forall_forall in Hok.
    clear -Hs Hok. revert Hs Hok. generalize (vaccine_demand.columns df).
    intros cols. induction cols as [|[c0 s0] cols IH]; [done |]. simpl.
    destruct (String.eqb c0 "Africa_share_projected").
    - intros [= ->] Hok. apply (Hok (c0, s)). left.
    - intros Hs Hok. apply IH; [done |]. intros c Hc. apply Hok. by right. }
  rewrite <- (length_keep_rows _ _ s Hlen).
  destruct (vaccine_demand.keep_rows _ s) as [|x [|x' l]]; simpl.
  - split; [by intros _ | done].
  - split; [| done]. unfold call_update_key_number.
    by destruct (update_key_number _ _ σ) as [[[]|e|] σ'].
  - split; [by intros _ | done].
Qed.

Lemma get_column_set_column_eq (df : vaccine_demand.frame float) (c : string)
    (s : list float) :
  vaccine_demand.get_column (vaccine_demand.set_column df c s) c = Yields s.
Proof.
  unfold vaccine_demand.get_column, vaccine_demand.set_column.
  cbn [vaccine_demand.columns]. by rewrite row_get_row_set_eq.
Qed.

Lemma get_column_set_column_ne (df : vaccine_demand.frame float) (c c' : string)
    (s : list float) :
  c ≠ c' →
  vaccine_demand.get_column (vaccine_demand.set_column df c s) c'
  = vaccine_demand.get_column df c'.
Proof.
  intros Hne. unfold vaccine_demand.get_column, vaccine_demand.set_column.
  cbn [vaccine_demand.columns]. by rewrite row_get_row_set_ne.
Qed.

Lemma get_column_set_column (df : vaccine_demand.frame float) (c c' : string)
    (s : list float) :
  vaccine_demand.get_column (vaccine_demand.set_column df c s) c'
  = if String.eqb c c' then Yields s else vaccine_demand.get_column df c'.
Proof.
  destruct (String.eqb_spec c c') as [<-|Hne].
  - apply get_column_set_column_eq.
  - by apply get_column_set_column_ne.
Qed.

(** A column is read after columns were set. *)
Ltac read_columns :=
  repeat (rewrite get_column_set_column; compare_names; cbv iota).

Lemma get_column_Some (df : vaccine_demand.frame float) (c : string)
    (s : list float) :
  row_get (vaccine_demand.columns df) c = Some s →
  vaccine_demand.get_column df c = Yields s.
Proof. unfold vaccine_demand.get_column. by intros ->. Qed.

Lemma get_column_None (df : vaccine_demand.frame float) (c : string) :
  row_get (vaccine_demand.columns df) c = None →
  vaccine_demand.get_column df c = Throws pd.KeyError.
Proof. unfold vaccine_demand.get_column. by intros ->. Qed.

(** The shares of the pipeline, for a frame with the columns of the
    six continents. *)
Lemma pipeline_from_pivot_run (df : vaccine_demand.frame float)
    (africa america asia europe oceania stockpile : list float) :
  row_get (vaccine_demand.columns df) "Africa" = Some africa →
  row_get (vaccine_demand.columns df) "America" = Some america →
  row_get (vaccine_demand.columns df) "Asia" = Some asia →
  row_get (vaccine_demand.columns df) "Europe" = Some europe →
  row_get (vaccine_demand.columns df) "Oceania" = Some oceania →
  row_get (vaccine_demand.columns df) "global_stockpile" = Some stockpile →
  let total :=
    zip_with fadd africa
      (zip_with fadd
         (zip_with fadd (zip_with fadd (zip_with fadd america asia) europe)
            oceania)
         (fillna (float_of_Z 0) <$> stockpile)) in
  let share := zip_with fdiv africa total in
  vaccine_demand.pipeline_from_pivot df
  = Yields
      {| vaccine_demand.year := vaccine_demand.year df;
         vaccine_demand.columns :=
           [("Africa_share_measured",
             zip_with (λ y x, if (y <=? 2024)%Z then x else nan)
               (vaccine_demand.year df) share);
            ("Africa_share_projected",
             zip_with (λ y x, if (2024 <=? y)%Z then x else nan)
               (vaccine_demand.year df) share)] |}.
Proof.
  intros Haf Ham Has Heu Hoc Hgs total share.
  unfold vaccine_demand.pipeline_from_pivot,
    vaccine_demand.add_all_other_regions_and_total_columns,
    vaccine_demand.get_attribute.
  rewrite Hgs. cbn [mbind outcome_bind]. read_columns.
  rewrite (get_column_Some _ _ _ Ham), (get_column_Some _ _ _ Has),
    (get_column_Some _ _ _ Heu), (get_column_Some _ _ _ Hoc).
  cbn [mbind outcome_bind]. read_columns.
  rewrite (get_column_Some _ _ _ Haf). cbn [mbind outcome_bind].
  unfold vaccine_demand.add_share_of_total_column, vaccine_demand.continents.
  cbn [vaccine_demand.add_shares].
  repeat (read_columns;
          rewrite ?(get_column_Some _ _ _ Haf), ?(get_column_Some _ _ _ Ham),
            ?(get_column_Some _ _ _ Has), ?(get_column_Some _ _ _ Heu),
            ?(get_column_Some _ _ _ Hoc);
          cbn [mbind outcome_bind]).
  unfold vaccine_demand.reformat_data_for_dashed_projections.
  repeat (read_columns; cbn [mbind outcome_bind]).
  unfold vaccine_demand.filter_items.
  cbn [existsb List.filter]. compare_names. cbn [orb negb List.filter].
  f_equal. unfold vaccine_demand.set_column.
  cbn [vaccine_demand.year vaccine_demand.columns omap list_omap].
  rewrite !row_get_row_set. compare_names. cbv iota.
  reflexivity.
Qed.

(** X13 (the key number of the demand).  On a frame that has the
    columns of the five continents and of the stockpile, and one row
    only for 2030, the pipeline yields a frame from which
    [vaccine_demand_key_numbers] records the share of Africa in that
    row: the doses of Africa divided by the total, which is the doses
    of Africa plus the sum, from left to right, of the doses of
    America, Asia, Europe, Oceania and the stockpile, a missing
    stockpile counting as zero.  It is the share itself and not a
    missing value, 2030 being after the last measured year. *)
Theorem pipeline_key_number
    (df : vaccine_demand.frame float)
    (africa america asia europe oceania stockpile : list float)
    (i : nat) (a am as' eu oc gs : float) :
  row_get (vaccine_demand.columns df) "Africa" = Some africa →
  row_get (vaccine_demand.columns df) "America" = Some america →
  row_get (vaccine_demand.columns df) "Asia" = Some asia →
  row_get (vaccine_demand.columns df) "Europe" = Some europe →
  row_get (vaccine_demand.columns df) "Oceania" = Some oceania →
  row_get (vaccine_demand.columns df) "global_stockpile" = Some stockpile →
  vaccine_demand.year df !! i = Some 2030%Z →
  (∀ j, vaccine_demand.year df !! j = Some 2030%Z → j = i) →
  africa !! i = Some a → america !! i = Some am → asia !! i = Some as' →
  europe !! i = Some eu → oceania !! i = Some oc → stockpile !! i = Some gs →
  ∃ out,
    vaccine_demand.pipeline_from_pivot df = Yields out ∧
    vaccine_demand.vaccine_demand_key_numbers key_numbers_json out
    = call_update_key_number key_numbers_json
        (vaccine_demand.key_numbers
           (fdiv a
              (fadd a
                 (fadd (fadd (fadd (fadd am as') eu) oc)
                    (fillna (float_of_Z 0) gs))))).
Proof.
  intros Haf Ham Has Heu Hoc Hgs Hi Honly Ha Hb Hc Hd He Hf.
  eexists. split; [by apply (pipeline_from_pivot_run df) |].
  unfold vaccine_demand.vaccine_demand_key_numbers,
    vaccine_demand.africa_demand_2030, vaccine_demand.get_column,
    vaccine_demand.query_year.
  cbn [vaccine_demand.columns vaccine_demand.year].
  rewrite row_get_fmap_values.
  cbn [row_get String.eqb Ascii.eqb Bool.eqb fmap option_fmap option_map
       mbind outcome_bind].
  erewrite (keep_rows_one _ _ _ i); [reflexivity | done | done |].
  apply lookup_zip_with_Some. eexists _, _. split_and!; [| done |].
  - reflexivity.
  - apply lookup_zip_with_Some. eexists _, _. split_and!; [done | done |].
    apply lookup_zip_with_Some. eexists _, _. split_and!; [done | done |].
    apply lookup_zip_with_Some. eexists _, _. split_and!; [done | |].
    + apply lookup_zip_with_Some. eexists _, _. split_and!; [done | |done].
      apply lookup_zip_with_Some. eexists _, _. split_and!; [done | |done].
      apply lookup_zip_with_Some. eexists _, _. by split_and!.
    + by rewrite list_lookup_fmap, Hf.
Qed.

(** X22 (the columns the pipeline needs).  From the frame of the
    pivot on, the pipeline raises [AttributeError] when the frame has
    no column for the stockpile, [KeyError] when it has it and lacks
    the column of a continent, and yields a frame otherwise: the
    years as they were and the two columns of the measured and of the
    projected share. *)
Theorem pipeline_from_pivot_cases (df : vaccine_demand.frame float) :
  let has c := is_Some (row_get (vaccine_demand.columns df) c) in
  match vaccine_demand.pipeline_from_pivot df with
  | Yields out =>
      Forall has ["global_stockpile"; "America"; "Asia"; "Europe"; "Oceania";
                  "Africa"] ∧
      vaccine_demand.year out = vaccine_demand.year df ∧
      (vaccine_demand.columns out).*1
      = ["Africa_share_measured"; "Africa_share_projected"]
  | Throws e =>
      (e = pd.AttributeError ∧ ¬ has "global_stockpile") ∨
      (e = pd.KeyError ∧ has "global_stockpile" ∧
       ¬ Forall has ["America"; "Asia"; "Europe"; "Oceania"; "Africa"])
  | Beyond => False
  end.
Proof.
  intros has.
  destruct (row_get (vaccine_demand.columns df) "global_stockpile")
    as [stockpile|] eqn:Hgs.
  2:{ unfold vaccine_demand.pipeline_from_pivot,
        vaccine_demand.add_all_other_regions_and_total_columns,
        vaccine_demand.get_attribute.
      rewrite Hgs. cbn [mbind outcome_bind]. left. split; [done |].
      unfold has. rewrite Hgs. by intros [? ?]. }
  assert (has "global_stockpile") as Hhas by (unfold has; by rewrite Hgs).
  assert (∀ missing,
            row_get (vaccine_demand.columns df) missing = None →
            missing ∈ ["America"; "Asia"; "Europe"; "Oceania"; "Africa"] →
            ¬ Forall has ["America"; "Asia"; "Europe"; "Oceania"; "Africa"])
    as Hmissing.
  { intros missing Hnone Hin Hall. rewrite Forall_forall in Hall.
    apply Hall in Hin. unfold has in Hin. rewrite Hnone in Hin.
    by destruct Hin. }
  unfold vaccine_demand.pipeline_from_pivot,
    vaccine_demand.add_all_other_regions_and_total_columns,
    vaccine_demand.get_attribute.
  rewrite Hgs. cbn [mbind outcome_bind]. read_columns.
  destruct (row_get (vaccine_demand.columns df) "America") as [america|] eqn:Ham.
  2:{ rewrite (get_column_None _ _ Ham). cbn [mbind outcome_bind].
      right. split_and!; [done | done |].
      apply (Hmissing "America" Ham). rewrite !elem_of_cons. tauto. }
  destruct (row_get (vaccine_demand.columns df) "Asia") as [asia|] eqn:Has.
  2:{ rewrite (get_column_Some _ _ _ Ham), (get_column_None _ _ Has).
      cbn [mbind outcome_bind]. right. split_and!; [done | done |].
      apply (Hmissing "Asia" Has). rewrite !elem_of_cons. tauto. }
  destruct (row_get (vaccine_demand.columns df) "Europe") as [europe|] eqn:Heu.
  2:{ rewrite (get_column_Some _ _ _ Ham), (get_column_Some _ _ _ Has),
        (get_column_None _ _ Heu).
      cbn [mbind outcome_bind]. right. split_and!; [done | done |].
      apply (Hmissing "Europe" Heu). rewrite !elem_of_cons. tauto. }
  destruct (row_get (vaccine_demand.columns df) "Oceania") as [oceania|] eqn:Hoc.
  2:{ rewrite (get_column_Some _ _ _ Ham), (get_column_Some _ _ _ Has),
        (get_column_Some _ _ _ Heu), (get_column_None _ _ Hoc).
      cbn [mbind outcome_bind]. right. split_and!; [done | done |].
      apply (Hmissing "Oceania" Hoc). rewrite !elem_of_cons. tauto. }
  destruct (row_get (vaccine_demand.columns df) "Africa") as [africa|] eqn:Haf.
  2:{ rewrite (get_column_Some _ _ _ Ham), (get_column_Some _ _ _ Has),
        (get_column_Some _ _ _ Heu), (get_column_Some _ _ _ Hoc).
      cbn [mbind outcome_bind]. read_columns.
      rewrite (get_column_None _ _ Haf). cbn [mbind outcome_bind].
      right. split_and!; [done | done |].
      apply (Hmissing "Africa" Haf). rewrite !elem_of_cons. tauto. }
  pose proof (pipeline_from_pivot_run df africa america asia europe oceania
                stockpile Haf Ham Has Heu Hoc Hgs) as Hrun.
  cbv zeta in Hrun.
  unfold vaccine_demand.pipeline_from_pivot,
    vaccine_demand.add_all_other_regions_and_total_columns,
    vaccine_demand.get_attribute in Hrun.
  rewrite Hgs in Hrun. cbn [mbind outcome_bind] in Hrun.
  revert Hrun. read_columns. intros ->. split_and!; [| done | done].
  unfold has. repeat constructor; by eexists.
Qed.
End Demand.

Lemma vaccine_demand_key_numbers_one_row_witness :
  vaccine_demand.vaccine_demand_key_numbers (floats := example_floats)
    key_numbers export_without_2030 ∅
  = (FrameRaised pd.ValueError, ∅)
  ↔ length (filter (λ y, y = 2030%Z) (vaccine_demand.year export_without_2030)) ≠ 1.
Proof.
  apply (vaccine_demand_key_numbers_one_row (floats := example_floats)
           key_numbers export_without_2030 ∅).
  unfold vaccine_demand.frame_ok. simpl. repeat constructor.
Defined.

Lemma key_number_writers_any_order_witness :
  ∃ text R,
    run_scripts
      [who_mi4a_data.supply_key_numbers (floats := example_floats) key_numbers
         supply_by_continent;
       gavi_supply.gavi_supply_key_number (floats := example_floats) key_numbers
         31%Z;
       vaccine_demand.vaccine_demand_key_numbers (floats := example_floats)
         key_numbers exported_demand]
      {[ key_numbers := demand_text ]}
    = (Done, <[key_numbers := text]> {[ key_numbers := demand_text ]}) ∧
    json_loads text = Parsed (JObj R) ∧
    ∀ k, dict_get R k
         = match dict_get (gavi_supply.key_numbers (floats := example_floats) 31%Z
                           ++ vaccine_demand.key_numbers (floats := example_floats)
                                240%Z
                           ++ who_mi4a_data.key_numbers (floats := example_floats)
                                supply_by_continent) k with
           | Some v => Some v
           | None => dict_get demand_doc k
           end.
Proof.
  apply (key_number_writers_any_order (floats := example_floats) key_numbers 31%Z
           exported_demand 240%Z supply_by_continent _
           {[ key_numbers := demand_text ]} demand_doc).
  - reflexivity.
  - reflexivity.
  - etrans; [apply Permutation_swap |]. apply perm_skip, Permutation_swap.
Defined.

Lemma pipeline_key_number_witness :
  ∃ out,
    vaccine_demand.pipeline_from_pivot (floats := example_floats)
      demand_by_continent = Yields out ∧
    vaccine_demand.vaccine_demand_key_numbers (floats := example_floats)
      key_numbers out
    = call_update_key_number key_numbers
        (vaccine_demand.key_numbers (floats := example_floats)
           (240 / (240 + (150 + 440 + 100 + 20 + 50)))%Z).
Proof.
  apply (pipeline_key_number (floats := example_floats) key_numbers
           demand_by_continent
           [180; 185; 240]%Z [150; 150; 150]%Z [500; 500; 440]%Z
           [100; 100; 100]%Z [20; 15; 20]%Z [50; 50; 50]%Z
           2 240%Z 150%Z 440%Z 100%Z 20%Z 50%Z); try reflexivity.
  intros [|[|[|j]]]; simpl; intros [=]. reflexivity.
Defined.

(** ** Tables cut out of a sheet *)

Lemma length_slice {A} (a b : nat) (l : list A) :
  length (slice a b l) = Nat.min b (length l) - a.
Proof. unfold slice. by rewrite length_drop, length_take. Qed.

Lemma lookup_slice {A} (a b : nat) (l : list A) (i : nat) :
  a + i < b → slice a b l !! i = l !! (a + i).
Proof. intros Hi. unfold slice. by rewrite lookup_drop, lookup_take_lt. Qed.

Lemma elem_of_drop_elem {A} (x : A) (n : nat) (l : list A) :
  x ∈ drop n l → x ∈ l.
Proof.
  intros [i Hi]%list_elem_of_lookup. rewrite lookup_drop in Hi.
  by eapply list_elem_of_lookup_2.
Qed.

Lemma elem_of_slice {A} (x : A) (a b : nat) (l : list A) :
  x ∈ slice a b l → x ∈ l.
Proof.
  unfold slice. intros (i & Hi & _)%elem_of_drop_elem%elem_of_take.
  by eapply list_elem_of_lookup_2.
Qed.

Lemma cell_at_iloc_slices {A} (g : grid A) (a b c d i j : nat) :
  a + i < b → c + j < d →
  cell_at (iloc_slices g (a, b) (c, d)) i j = cell_at g (a + i) (c + j).
Proof.
  intros Hi Hj. unfold cell_at, iloc_slices. simpl.
  rewrite list_lookup_fmap, lookup_slice by done.
  destruct (rows g !! (a + i)) as [r|]; simpl; [| done].
  by apply lookup_slice.
Qed.

Lemma iloc_slices_ok {A} (g : grid A) (rs cs : nat * nat) :
  grid_ok g → grid_ok (iloc_slices g rs cs).
Proof.
  unfold grid_ok, iloc_slices. simpl. intros Hok.
  apply Forall_fmap, Forall_forall. intros r Hr. simpl.
  rewrite length_slice. rewrite Forall_forall in Hok. rewrite (Hok r); [done |].
  by eapply elem_of_slice.
Qed.

Lemma get_location_Some (locations : list (string * ((nat * nat) * (nat * nat))))
    (table_name : string) (loc : (nat * nat) * (nat * nat)) :
  who_mi4a_data.get_location locations table_name = Some loc →
  (table_name, loc) ∈ locations.
Proof.
  induction locations as [|[name loc'] locations IH]; [done |].
  cbn [who_mi4a_data.get_location].
  destruct (String.eqb_spec name table_name) as [->|_].
  - intros [= ->]. left.
  - intros H. right. by apply IH.
Qed.

Lemma get_location_None (locations : list (string * ((nat * nat) * (nat * nat))))
    (table_name : string) :
  who_mi4a_data.get_location locations table_name = None →
  table_name ∉ locations.*1.
Proof.
  induction locations as [|[name loc'] locations IH]; [intros _; apply not_elem_of_nil |].
  cbn [who_mi4a_data.get_location].
  destruct (String.eqb_spec name table_name) as [->|Hne]; [done |].
  intros H. rewrite fmap_cons. apply not_elem_of_cons. split; [done | by apply IH].
Qed.

Lemma get_location_cases (table_name : string) :
  match who_mi4a_data.get_location who_mi4a_data.table_locations table_name with
  | Some loc =>
      table_name ∈ who_mi4a_data.table_locations.*1 ∧
      (table_name, loc.1.1) ∈
        [("with_covid_who_region", 10); ("with_covid_continent", 18);
         ("without_covid_who_region", 29); ("without_covid_continent", 37)] ∧
      loc.1.2 = loc.1.1 + 7 ∧ loc.2 = (2, 6)
  | None => table_name ∉ who_mi4a_data.table_locations.*1
  end.
Proof.
  destruct (who_mi4a_data.get_location _ _) as [loc|] eqn:Hloc;
    [| by apply get_location_None].
  apply get_location_Some in Hloc. unfold who_mi4a_data.table_locations in *.
  rewrite !elem_of_cons, elem_of_nil in Hloc.
  destruct Hloc as [[= -> ->]|[[= -> ->]|[[= -> ->]|[[= -> ->]|[]]]]];
    (split_and!; [ | | done | done]);
    cbn [fmap list_fmap fst snd]; rewrite !elem_of_cons; tauto.
Qed.

(** X14 (when a table can be read).  Reading a table of the sheet and
    naming its columns raises [ValueError] when the name is not one of
    the four of [table_locations] or the sheet has fewer than six
    columns, and yields a table otherwise, however few rows the sheet
    has: a slice that reaches beyond the sheet is cut and raises
    nothing. *)
Theorem named_table_cases {A} (df : grid A) (table_name : string) :
  (who_mi4a_data.named_table df table_name = Throws pd.ValueError ∧
   (table_name ∉ who_mi4a_data.table_locations.*1 ∨ width df < 6)) ∨
  (∃ t, who_mi4a_data.named_table df table_name = Yields t ∧
        table_name ∈ who_mi4a_data.table_locations.*1 ∧ 6 ≤ width df).
Proof.
  unfold who_mi4a_data.named_table, who_mi4a_data.get_data_table.
  pose proof (get_location_cases table_name) as Hloc.
  destruct (who_mi4a_data.get_location _ _) as [[rs cs]|]; [| left; by auto].
  destruct Hloc as (Hname & _ & _ & Hcs). simpl in Hcs. subst cs.
  unfold who_mi4a_data.set_column_names, set_columns, iloc_slices.
  cbn [width fst snd]. change (length who_mi4a_data.column_names) with 4.
  destruct (Nat.eqb_spec (Nat.min 6 (width df) - 2) 4) as [Heq|Hne].
  - right. eexists. split_and!; [reflexivity | exact Hname | lia].
  - left. split; [reflexivity |]. right. lia.
Qed.

(** X15 (the cells of a table).  On a sheet of at least 44 rows and 6
    columns, each of the four tables is 7 rows of 4 cells, and its
    cell in row [i] and column [j] is the cell of the sheet in row
    [first + i] and column [2 + j], where [first] is 10, 18, 29 or
    37 by the name of the table. *)
Theorem get_data_table_cells {A} (df : grid A) (table_name : string) (first : nat) :
  grid_ok df →
  6 ≤ width df →
  44 ≤ length (rows df) →
  (table_name, first) ∈
    [("with_covid_who_region", 10); ("with_covid_continent", 18);
     ("without_covid_who_region", 29); ("without_covid_continent", 37)] →
  ∃ t,
    who_mi4a_data.get_data_table df table_name = Yields t ∧
    grid_ok t ∧ width t = 4 ∧ length (rows t) = 7 ∧
    ∀ i j, i < 7 → j < 4 → cell_at t i j = cell_at df (first + i) (2 + j).
Proof.
  intros Hok Hwidth Hrows Hname.
  unfold who_mi4a_data.get_data_table.
  pose proof (get_location_cases table_name) as Hloc.
  destruct (who_mi4a_data.get_location _ _) as [[[a b] cs]|].
  - destruct Hloc as (_ & Hfirst & Hb & Hcs). simpl in *. subst b cs.
    assert (a = first) as ->.
    { rewrite !elem_of_cons, elem_of_nil in Hname, Hfirst.
      destruct Hname as [[= -> ->]|[[= -> ->]|[[= -> ->]|[[= -> ->]|[]]]]];
        destruct Hfirst as [[= ->]|[[= ->]|[[= ->]|[[= ->]|[]]]]]; done. }
    assert (first + 7 ≤ 44) as Hlast.
    { rewrite !elem_of_cons, elem_of_nil in Hname.
      destruct Hname as [[= _ ->]|[[= _ ->]|[[= _ ->]|[[= _ ->]|[]]]]]; lia. }
    eexists. split_and!; [done | by apply iloc_slices_ok | | |].
    + cbn [width iloc_slices fst snd]. lia.
    + cbn [rows iloc_slices fst snd]. rewrite length_fmap, length_slice. lia.
    + intros i j Hi Hj. apply cell_at_iloc_slices; lia.
  - exfalso. apply Hloc. rewrite !elem_of_cons, elem_of_nil in Hname.
    unfold who_mi4a_data.table_locations. cbn [fmap list_fmap fst].
    rewrite !elem_of_cons.
    destruct Hname as [[= -> _]|[[= -> _]|[[= -> _]|[[= -> _]|[]]]]]; tauto.
Qed.

Lemma get_data_table_cells_witness :
  ∃ t,
    who_mi4a_data.get_data_table numbered_sheet "with_covid_continent" = Yields t ∧
    grid_ok t ∧ width t = 4 ∧ length (rows t) = 7 ∧
    ∀ i j, i < 7 → j < 4 → cell_at t i j = cell_at numbered_sheet (18 + i) (2 + j).
Proof.
  apply (get_data_table_cells numbered_sheet "with_covid_continent" 18).
  - unfold grid_ok. simpl. repeat constructor.
  - simpl. lia.
  - simpl. lia.
  - rewrite !elem_of_cons. tauto.
Defined.

(** ** Rows and columns kept by position *)

Lemma lookup_omap_total {A B} (f : A → option B) (l : list A) (j : nat) :
  Forall (λ x, is_Some (f x)) l → omap f l !! j = l !! j ≫= f.
Proof.
  intros Hall. revert j. induction Hall as [|x l [y Hy] _ IH]; intros j; [done |].
  change (omap f (x :: l)) with (match f x with
                                 | Some y => y :: omap f l
                                 | None => omap f l
                                 end).
  rewrite Hy. destruct j as [|j]; simpl; [done | apply IH].
Qed.

Lemma length_omap_total {A B} (f : A → option B) (l : list A) :
  Forall (λ x, is_Some (f x)) l → length (omap f l) = length l.
Proof.
  induction 1 as [|x l [y Hy] _ IH]; [done |].
  change (omap f (x :: l)) with (match f x with
                                 | Some y => y :: omap f l
                                 | None => omap f l
                                 end).
  rewrite Hy. simpl. by rewrite IH.
Qed.

(** X16 (rows from a first one, columns by position).
    [_filter_rows_columns] raises [IndexError] when a position of
    [keep_cols] is not a column of the frame.  Otherwise it yields a
    frame with one column per position, in the order of [keep_cols],
    and the rows of the frame from [first_row] on: its cell in row [i]
    and column [j] is the cell in row [first_row + i] and in the
    column at the [j]-th position of [keep_cols]. *)
Theorem filter_rows_columns_cells {A} (df : grid A) (first_row : nat)
    (keep_cols : list nat) :
  grid_ok df →
  match gavi_supply._filter_rows_columns df first_row keep_cols with
  | Yields t =>
      Forall (λ c, c < width df) keep_cols ∧
      grid_ok t ∧ width t = length keep_cols ∧
      length (rows t) = length (rows df) - first_row ∧
      ∀ i j c, keep_cols !! j = Some c →
               cell_at t i j = cell_at df (first_row + i) c
  | Throws e => e = pd.IndexError ∧ Exists (λ c, width df ≤ c) keep_cols
  | Beyond => False
  end.
Proof.
  intros Hok. unfold gavi_supply._filter_rows_columns, iloc_from_list.
  destruct (forallb _ keep_cols) eqn:Hcols.
  - assert (Forall (λ c, c < width df) keep_cols) as Hall.
    { apply Forall_forall. intros c Hc%list_elem_of_In.
      rewrite forallb_forall in Hcols. by apply Hcols, Nat.ltb_lt in Hc. }
    assert (∀ r, r ∈ drop first_row (rows df) →
                 Forall (λ c, is_Some (r !! c)) keep_cols) as Hrow.
    { intros r Hr%elem_of_drop_elem. unfold grid_ok in Hok.
      rewrite Forall_forall in Hok. apply Hok in Hr.
      eapply Forall_impl; [exact Hall |]. intros c Hc. simpl in Hc.
      apply lookup_lt_is_Some. lia. }
    split_and!; [done | | done | |].
    + unfold grid_ok. simpl. apply Forall_fmap, Forall_forall. intros r Hr.
      simpl. by apply length_omap_total, Hrow.
    + simpl. by rewrite length_fmap, length_drop.
    + intros i j c Hj. unfold cell_at. simpl.
      rewrite list_lookup_fmap, lookup_drop.
      destruct (rows df !! (first_row + i)) as [r|] eqn:Hr; simpl; [| done].
      rewrite lookup_omap_total, Hj; [done |].
      apply Hrow. apply (list_elem_of_lookup_2 _ i). by rewrite lookup_drop.
  - split; [done |]. apply Exists_exists.
    apply not_true_iff_false in Hcols.
    destruct (decide (Exists (λ c, width df ≤ c) keep_cols)) as [Hex|Hnex];
      [by apply Exists_exists in Hex |].
    exfalso. apply Hcols, forallb_forall. intros c Hc%list_elem_of_In.
    apply Nat.ltb_lt. apply not_Exists_Forall in Hnex; [| intros ?; apply _].
    rewrite Forall_forall in Hnex. specialize (Hnex c Hc). simpl in Hnex. lia.
Qed.

Lemma filter_rows_columns_cells_witness :
  match gavi_supply._filter_rows_columns numbered_sheet 4 [0; 1; 2; 3; 5] with
  | Yields t =>
      Forall (λ c, c < width numbered_sheet) [0; 1; 2; 3; 5] ∧
      grid_ok t ∧ width t = length [0; 1; 2; 3; 5] ∧
      length (rows t) = length (rows numbered_sheet) - 4 ∧
      ∀ i j c, [0; 1; 2; 3; 5] !! j = Some c →
               cell_at t i j = cell_at numbered_sheet (4 + i) c
  | Throws e =>
      e = pd.IndexError ∧ Exists (λ c, width numbered_sheet ≤ c) [0; 1; 2; 3; 5]
  | Beyond => False
  end.
Proof.
  apply (filter_rows_columns_cells numbered_sheet 4 [0; 1; 2; 3; 5]).
  unfold grid_ok. simpl. repeat constructor.
Defined.

(** ** The order of the continents *)

Lemma row_of_without_total {V} (df : list (string * V)) (l : string) :
  l ≠ "TOTAL" →
  who_mi4a_data.row_of (who_mi4a_data.without_total df) l
  = who_mi4a_data.row_of df l.
Proof.
  intros Hl. unfold who_mi4a_data.without_total.
  induction df as [|[l' v] df IH]; [done |].
  rewrite filter_cons. simpl. destruct (decide (l' ≠ "TOTAL")) as [Hl'|Hl'].
  - simpl. by rewrite IH.
  - apply dec_stable in Hl'. subst l'.
    destruct (String.eqb_spec "TOTAL" l) as [<-|_]; done.
Qed.

(** X17 (the order of the continents).  When
    [reorder_rows_for_data_vis] yields a frame, its labels are the six
    continents in the desired order, whatever the labels of the frame
    it was given, and reordering that frame again changes nothing. *)
Theorem reorder_rows_for_data_vis_idempotent {V} (missing : V)
    (df t : list (string * V)) :
  who_mi4a_data.reorder_rows_for_data_vis missing df = Yields t →
  t.*1 = who_mi4a_data.desired_order ∧
  who_mi4a_data.reorder_rows_for_data_vis missing t = Yields t.
Proof.
  unfold who_mi4a_data.reorder_rows_for_data_vis.
  destruct (nodupb df.*1); [| done]. intros [= <-]. split; reflexivity.
Qed.

Lemma reorder_rows_for_data_vis_idempotent_witness :
  [("Africa", 12%Z); ("Asia", 7300%Z); ("North America", 0%Z);
   ("Europe", 2100%Z); ("South America", 0%Z); ("Oceania", 0%Z)].*1
  = who_mi4a_data.desired_order ∧
  who_mi4a_data.reorder_rows_for_data_vis 0%Z
    [("Africa", 12%Z); ("Asia", 7300%Z); ("North America", 0%Z);
     ("Europe", 2100%Z); ("South America", 0%Z); ("Oceania", 0%Z)]
  = Yields [("Africa", 12%Z); ("Asia", 7300%Z); ("North America", 0%Z);
            ("Europe", 2100%Z); ("South America", 0%Z); ("Oceania", 0%Z)].
Proof.
  apply (reorder_rows_for_data_vis_idempotent 0%Z continents).
  reflexivity.
Defined.

(** X18 (the row of the total).  On a frame whose labels do not
    repeat, dropping the row of the total before the rows are put in
    order does not change the result: the order keeps the rows of the
    six continents only. *)
Theorem reorder_rows_without_total {V} (missing : V) (df : list (string * V)) :
  nodupb df.*1 = true →
  who_mi4a_data.reorder_rows_for_data_vis missing (who_mi4a_data.without_total df)
  = who_mi4a_data.reorder_rows_for_data_vis missing df.
Proof.
  intros Hnd. unfold who_mi4a_data.reorder_rows_for_data_vis. rewrite Hnd.
  assert (nodupb (who_mi4a_data.without_total df).*1 = true) as ->.
  { apply nodupb_NoDup. apply nodupb_NoDup in Hnd.
    eapply sublist_NoDup; [exact Hnd |].
    apply fmap_sublist, sublist_filter. }
  f_equal. apply Forall_fmap_ext, Forall_forall. intros l Hl.
  rewrite row_of_without_total; [done |]. intros ->.
  unfold who_mi4a_data.desired_order in Hl.
  rewrite !elem_of_cons, elem_of_nil in Hl.
  destruct Hl as [Hl|[Hl|[Hl|[Hl|[Hl|[Hl|[]]]]]]]; discriminate Hl.
Qed.

Lemma reorder_rows_without_total_witness :
  who_mi4a_data.reorder_rows_for_data_vis 0%Z
    (who_mi4a_data.without_total continents)
  = who_mi4a_data.reorder_rows_for_data_vis 0%Z continents.
Proof.
  apply (reorder_rows_without_total 0%Z continents). reflexivity.
Defined.

(** ** The names of the countries *)

(** X19 (India, CAR and the stockpile).  [add_iso_codes] keeps the
    rows, their order and their other columns.  In its result no
    country is called CAR or has a name that starts with India and a
    colon, the code of the global stockpile is [global_stockpile], and
    all the rows that were entries of India, with a region or without,
    have the same country and the same code. *)
Theorem add_iso_codes_countries {R other} (to_iso3 : string → cell other)
    (where_other : other → cell other) (df : list (string * R)) :
  let out := vaccine_demand.add_iso_codes to_iso3 where_other df in
  out.*2 = df.*2 ∧
  Forall (λ o, String.prefix "India:" o.1.1 = false ∧ o.1.1 ≠ "CAR" ∧
               (o.1.1 = "Global Stockpile" → o.1.2 = Str "global_stockpile")) out ∧
  ∀ i j ri rj oi oj,
    df !! i = Some ri → df !! j = Some rj →
    String.prefix "India:" ri.1 || String.eqb ri.1 "India" = true →
    String.prefix "India:" rj.1 || String.eqb rj.1 "India" = true →
    out !! i = Some oi → out !! j = Some oj →
    oi.1 = oj.1 ∧ oi.1.1 = "India".
Proof.
  intros out. subst out.
  unfold vaccine_demand.add_iso_codes,
    vaccine_demand._convert_india_region_entries_to_india.
  rewrite <- !list_fmap_compose. split_and!.
  - by apply list_fmap_ext.
  - apply Forall_fmap, Forall_forall. intros [c r] _. simpl.
    destruct (String.prefix "India:" c) eqn:Hprefix; simpl; [done |].
    destruct (String.eqb_spec c "CAR") as [->|Hcar]; simpl; [done |].
    rewrite Hprefix. split_and!; [done | done |].
    intros ->. done.
  - assert (∀ i r o, df !! i = Some r →
              String.prefix "India:" r.1 || String.eqb r.1 "India" = true →
              ((λ r, (r.1.1,
                      if String.eqb r.1.1 "Global Stockpile"
                      then Str "global_stockpile"
                      else match r.1.2 with
                           | Str code => Str code
                           | Obj x => where_other x
                           end, r.2))
               ∘ ((λ r, (r.1, to_iso3 r.1, r.2))
               ∘ ((λ r, (if String.eqb r.1 "CAR"
                         then "Central African Republic" else r.1, r.2))
               ∘ (λ r : string * R,
                    (if String.prefix "India:" r.1 then "India" else r.1, r.2))))
               <$> df) !! i = Some o →
              o.1 = ("India",
                     match to_iso3 "India" with
                     | Str code => Str code
                     | Obj x => where_other x
                     end)) as Hindia.
    { intros i [c r] o Hi Hc. rewrite list_lookup_fmap, Hi. simpl.
      intros [= <-]. simpl.
      destruct (String.prefix "India:" c) eqn:Hprefix; simpl; [done |].
      simpl in Hc. rewrite Hprefix in Hc. apply String.eqb_eq in Hc as ->.
      done. }
    intros i j ri rj oi oj Hi Hj Hci Hcj Hoi Hoj.
    rewrite (Hindia i ri oi Hi Hci Hoi), (Hindia j rj oj Hj Hcj Hoj). done.
Qed.

(** ** The pipeline of the supply *)

Lemma row_get_app {other} (a b : row other) (c : string) :
  row_get (a ++ b) c
  = match row_get a c with
    | Some x => Some x
    | None => row_get b c
    end.
Proof.
  induction a as [|[c0 x0] a IH]; simpl; [done |].
  by destruct (String.eqb c0 c).
Qed.

Lemma row_get_zip_None {other} (names : list string) (cells : list (cell other))
    (c : string) :
  c ∉ names → row_get (zip names cells) c = None.
Proof.
  revert cells. induction names as [|n names IH]; intros [|x cells] Hc; try done.
  apply not_elem_of_cons in Hc as [Hne Hc]. simpl.
  destruct (String.eqb_spec n c) as [->|_]; [done | by apply IH].
Qed.

Lemma row_get_filter_ne {other} (r : row other) (c hq : string) :
  c ≠ hq →
  row_get (List.filter (λ kv, negb (String.eqb kv.1 hq)) r) c = row_get r c.
Proof.
  intros Hne. induction r as [|[c0 x0] r IH]; simpl; [done |].
  destruct (String.eqb_spec c0 hq) as [->|Hc0]; simpl.
  - destruct (String.eqb_spec hq c) as [<-|_]; done.
  - by rewrite IH.
Qed.

Lemma row_of_elem {V} (df : list (string * V)) (l : string) (v : V) :
  who_mi4a_data.row_of df l = Some v → (l, v) ∈ df.
Proof.
  induction df as [|[l' v'] df IH]; simpl; [done |].
  destruct (String.eqb_spec l' l) as [->|_].
  - intros [= ->]. left.
  - intros H. right. by apply IH.
Qed.

Lemma named_table_no_chart_columns {other} (df : grid (cell other))
    (table_name : string) (t : frame other) :
  who_mi4a_data.named_table df table_name = Yields t →
  Forall no_chart_columns t.
Proof.
  unfold who_mi4a_data.named_table.
  destruct (who_mi4a_data.get_data_table df table_name) as [g| |]; [| done..].
  unfold who_mi4a_data.set_column_names, set_columns.
  destruct (width g =? _); [| done]. intros [= <-].
  apply Forall_fmap, Forall_forall. intros cells _.
  split; apply (row_get_zip_None who_mi4a_data.column_names cells);
    unfold who_mi4a_data.column_names; rewrite !elem_of_cons, elem_of_nil;
    intros [H|[H|[H|[H|[]]]]]; discriminate H.
Qed.

Lemma add_share_no_chart_columns {other}
    (percent_of : cell other → cell other → option (cell other))
    (t d : frame other) :
  who_mi4a_data.add_share_of_global_vaccine_supply_column percent_of t = Yields d →
  Forall no_chart_columns t → Forall no_chart_columns d.
Proof.
  unfold who_mi4a_data.add_share_of_global_vaccine_supply_column.
  destruct (List.filter _ t) as [|total_row ?]; [done |].
  destruct (mapM _ t) as [d'|] eqn:Hd; [| done]. intros [= <-] Ht.
  apply mapM_Some in Hd. induction Hd as [|r r' t d Hr _ IH]; [done |].
  apply Forall_cons in Ht as [[Ha Hn] Ht]. constructor; [| by apply IH].
  destruct (row_get total_row "vaccines_to_world") as [total|]; [| done].
  simpl in Hr. destruct (row_get r "vaccines_to_world") as [x|]; [| done].
  simpl in Hr. destruct (percent_of x total) as [share|]; [| done].
  injection Hr as <-. split; rewrite row_get_app; [by rewrite Ha | by rewrite Hn].
Qed.

Lemma set_index_no_chart_columns {other} (r rest : row other) (l : string) :
  who_mi4a_data.set_index r = Some (l, rest) →
  no_chart_columns r → no_chart_columns rest.
Proof.
  unfold who_mi4a_data.set_index.
  destruct (row_get r "manufacturer_hq") as [x|]; [| done]. simpl.
  destruct (text_of x) as [l'|]; [| done]. simpl.
  intros [= _ <-] [Ha Hn]. split; by rewrite row_get_filter_ne.
Qed.

Lemma reorder_frame_rows {other} (nan : other) (df v : frame other) :
  who_mi4a_data.reorder_frame nan df = Yields v →
  Forall no_chart_columns df →
  Forall2 (λ r l, ∃ rest, r = ("manufacturer_hq", Str l) :: rest ∧
                          no_chart_columns rest)
    v who_mi4a_data.desired_order.
Proof.
  unfold who_mi4a_data.reorder_frame.
  destruct (mapM _ df) as [indexed|] eqn:Hindexed; [| done].
  unfold who_mi4a_data.reorder_rows_for_data_vis.
  destruct (nodupb _); [| done]. intros Hv Hdf.
  assert (∀ l, ∃ rest,
            who_mi4a_data.reset_index
              (l, default ((λ c, (c, Obj nan)) <$> who_mi4a_data.value_columns)
                    (who_mi4a_data.row_of indexed l))
            = ("manufacturer_hq", Str l) :: rest ∧ no_chart_columns rest) as Hrow.
  { intros l. eexists. split; [done |]. simpl.
    destruct (who_mi4a_data.row_of indexed l) as [rest|] eqn:Hrest; simpl;
      [| by split].
    apply row_of_elem in Hrest. apply mapM_Some in Hindexed.
    apply list_elem_of_lookup in Hrest as [i Hi].
    destruct (Forall2_lookup_r _ _ _ _ _ Hindexed Hi) as (r & Hr & Hset).
    apply (set_index_no_chart_columns r rest l Hset).
    rewrite Forall_forall in Hdf. apply Hdf. by eapply list_elem_of_lookup_2. }
  injection Hv as <-. unfold who_mi4a_data.desired_order.
  repeat (constructor; [apply Hrow |]). constructor.
Qed.

Lemma Forall_List_filter {A} (P : A → Prop) (f : A → bool) (l : list A) :
  Forall P l → Forall P (List.filter f l).
Proof.
  induction 1 as [|x l Hx _ IH]; simpl; [done |].
  destruct (f x); [by constructor | done].
Qed.

Lemma named_table_throws {A} (df : grid A) (table_name : string) (e : pd.error) :
  who_mi4a_data.named_table df table_name = Throws e → e = pd.ValueError.
Proof.
  unfold who_mi4a_data.named_table, who_mi4a_data.get_data_table.
  destruct (who_mi4a_data.get_location _ _) as [loc|]; [| by intros [= <-]].
  unfold who_mi4a_data.set_column_names, set_columns.
  destruct (_ =? _); [done | by intros [= <-]].
Qed.

(** X20 (a table without its total).  The pipeline of the supply
    raises [IndexError] exactly when the table can be read and named
    but none of its rows has the label of the total, which is so in
    particular when the sheet ends before the rows of the table. *)
Theorem vaccine_supply_pipeline_needs_total {other}
    (percent_of : cell other → cell other → option (cell other))
    (nan : other) (zero : cell other)
    (df : grid (cell other)) (table_name : string) :
  who_mi4a_data.vaccine_supply_pipeline percent_of nan zero df table_name
  = Throws pd.IndexError
  ↔ ∃ t, who_mi4a_data.named_table df table_name = Yields t ∧
         List.filter (who_mi4a_data.hq_is "TOTAL") t = [].
Proof.
  unfold who_mi4a_data.vaccine_supply_pipeline.
  destruct (who_mi4a_data.named_table df table_name) as [t|e|] eqn:Hnamed;
    simpl.
  2:{ split; [| by intros (t & [=] & _)].
      intros [= ->]. by apply named_table_throws in Hnamed. }
  2:{ split; [done | by intros (t & [=] & _)]. }
  unfold who_mi4a_data.add_share_of_global_vaccine_supply_column at 1.
  destruct (List.filter (who_mi4a_data.hq_is "TOTAL") t) as [|total_row rest]
    eqn:Htotal; simpl.
  { split; [| done]. intros _. by exists t. }
  split; [| intros (t' & [= <-] & Hnil); congruence].
  destruct (mapM _ t) as [d|]; simpl; [| done].
  unfold who_mi4a_data.reorder_frame.
  destruct (mapM _ (List.filter _ d)) as [indexed|]; simpl; [| done].
  unfold who_mi4a_data.reorder_rows_for_data_vis.
  destruct (nodupb _); simpl; [| done].
  unfold who_mi4a_data.add_new_columns_for_flourish.
  by destruct (mapM _ _).
Qed.

(** X21 (the rows of the chart).  Whenever the pipeline of the supply
    yields a frame, the frame has six rows, for the six continents in
    the desired order and with Africa first, whatever rows the table
    of the sheet has and in whatever order.  Each row has its share;
    the row of Africa has it in the column [africa] and [zero] in the
    column [non_africa], the other rows the other way round. *)
Theorem vaccine_supply_pipeline_rows {other}
    (percent_of : cell other → cell other → option (cell other))
    (nan : other) (zero : cell other)
    (df : grid (cell other)) (table_name : string) (out : frame other) :
  who_mi4a_data.vaccine_supply_pipeline percent_of nan zero df table_name
  = Yields out →
  Forall2 (chart_row zero) out who_mi4a_data.desired_order.
Proof.
  unfold who_mi4a_data.vaccine_supply_pipeline.
  destruct (who_mi4a_data.named_table df table_name) as [t| |] eqn:Ht;
    [| done..]. simpl.
  destruct (who_mi4a_data.add_share_of_global_vaccine_supply_column _ t)
    as [d| |] eqn:Hd; [| done..]. simpl.
  destruct (who_mi4a_data.reorder_frame nan _) as [v| |] eqn:Hv; [| done..].
  simpl. unfold who_mi4a_data.add_new_columns_for_flourish.
  destruct (mapM _ v) as [out'|] eqn:Hout; [| done]. intros [= <-].
  apply reorder_frame_rows in Hv.
  2:{ apply Forall_List_filter. eapply add_share_no_chart_columns; [exact Hd |].
      by eapply named_table_no_chart_columns. }
  apply mapM_Some in Hout.
  revert Hv. generalize who_mi4a_data.desired_order.
  induction Hout as [|r r' v out' Hr _ IH]; intros ls Hv.
  - inversion Hv. constructor.
  - inversion Hv as [|? l ? ls' (rest & -> & Ha & Hn) Hv']; subst.
    constructor; [| by apply IH].
    assert (∀ (tail : row other) c, c ≠ "manufacturer_hq" →
              row_get (("manufacturer_hq", Str l) :: tail) c = row_get tail c)
      as Htail.
    { intros tail c Hc. cbn [row_get].
      by destruct (String.eqb_spec "manufacturer_hq" c). }
    assert (∀ tail : row other,
              row_get (("manufacturer_hq", Str l) :: tail) "manufacturer_hq"
              = Some (Str l)) as Hhq by done.
    unfold who_mi4a_data.hq_is in Hr. rewrite Hhq in Hr.
    rewrite Htail in Hr by discriminate. cbn [who_mi4a_data.holds] in Hr.
    destruct (row_get rest "share_of_global_vaccine_supply") as [share|] eqn:Hs;
      [| done].
    injection Hr as <-. split; [by rewrite Hhq |]. exists share.
    rewrite !Htail, !row_get_app, Hs, Ha, Hn by discriminate.
    split_and!; [done | |].
    + cbn [row_get]. by destruct (String.eqb l "Africa").
    + cbn [row_get]. by destruct (String.eqb l "Africa").
Qed.

Lemma vaccine_supply_pipeline_rows_witness :
  ∃ out,
    who_mi4a_data.vaccine_supply_pipeline percent_of_Z 0%Z (Obj 0%Z)
      continent_sheet "with_covid_continent" = Yields out ∧
    Forall2 (chart_row (Obj 0%Z)) out who_mi4a_data.desired_order ∧
    (λ r, row_get r "africa") <$> out
    = [Some (Obj 5%Z); Some (Obj 0%Z); Some (Obj 0%Z); Some (Obj 0%Z);
       Some (Obj 0%Z); Some (Obj 0%Z)].
Proof.
  eexists. split; [vm_compute; reflexivity |]. split; [| reflexivity].
  apply (vaccine_supply_pipeline_rows percent_of_Z 0%Z (Obj 0%Z)
           continent_sheet "with_covid_continent").
  vm_compute. reflexivity.
Defined.

(** ** Examples of the scripts *)

Example pipeline_without_stockpile :
  vaccine_demand.pipeline_from_pivot (floats := example_floats)
    demand_without_stockpile
  = Throws pd.AttributeError.
Proof. reflexivity. Qed.

Example pipeline_on_empty_sheet :
  who_mi4a_data.vaccine_supply_pipeline percent_of_Z 0%Z (Obj 0%Z) empty_sheet
    "with_covid_continent"
  = Throws pd.IndexError.
Proof. reflexivity. Qed.

Example add_iso_codes_example :
  vaccine_demand.add_iso_codes two_countries (λ _, Obj tt) demand_rows
  = [("India", Str "IND", 5); ("Central African Republic", Obj tt, 1);
     ("Global Stockpile", Str "global_stockpile", 2); ("Kenya", Str "KEN", 3)].
Proof. reflexivity. Qed.
